(** * Draft proxy server: rooms, upstream links and the downstream acceptor

    A shallow embedding of [src/src/app.ts].  The proxy groups downstream
    WebSocket clients by league into a [Room]; each Room owns one upstream
    WebSocket to the draft service.  The embedding follows the source
    method by method:

    - JavaScript platform functions used by the source ([encodeURIComponent],
      [parseInt] and the doubles it returns, number printing, the values
      [JSON.parse] returns with their conversion to a string and their
      comparison, [Map] with insertion order);
    - the [ws] socket objects, reduced to their [readyState], the handlers
      registered on them and the calls made on them;
    - the [Room] class, as state-passing functions over a Room and the
      process environment;
    - the application: the registry [rooms], [clientConnections], the
      connection handler, the session handlers, timers and the force-cleanup
      route, as a transition function over events of the event loop;
    - the HTTP routes and [shutdown], as functions of the state;
    - [initConfig] of [src/src/config.ts], as a function of the
      environment, and the logger [SimpleLogger], as functions that return
      what is written.

    The calls the Room and the application make to the logger are left out
    of their embedding (the logger has no effect on the state), and so is
    process start ([src/src/index.ts]).  Time is a clock in milliseconds
    that only the event [Elapse] advances; a timer may fire once its delay
    has passed. *)

From Stdlib Require Import ZArith List String Ascii Bool Lia DecimalString.
Import ListNotations.

Open Scope string_scope.
Open Scope list_scope.
Open Scope Z_scope.

(** ** JavaScript platform functions *)

(** Strings are byte strings holding the UTF-8 encoding of the JavaScript
    string.  A number of the source is a double.  [Number] holds the ones
    [parseInt] makes: the doubles whose value is an integer, the two
    infinities and NaN.  The two zeros are not told apart (the source tests
    and prints its numbers, and both zeros are falsy and print as 0). *)

Inductive Number :=
| Finite (n : Z)
| Infinity (negative : bool)
| NaN.

Coercion Finite : Z >-> Number.

Definition in_range (lo hi : N) (c : ascii) : bool :=
  (N.leb lo (N_of_ascii c) && N.leb (N_of_ascii c) hi)%bool.

Definition is_alpha (c : ascii) : bool :=
  (in_range 65 90 c || in_range 97 122 c)%bool.

Definition is_digit (c : ascii) : bool := in_range 48 57 c.

Fixpoint mem_ascii (c : ascii) (s : string) : bool :=
  match s with
  | EmptyString => false
  | String d s' => (Ascii.eqb c d || mem_ascii c s')%bool
  end.

(** The characters [encodeURIComponent] leaves alone: letters, digits and
    - _ . ! ~ * ' ( ) *)
Definition uri_unreserved (c : ascii) : bool :=
  (is_alpha c || is_digit c || mem_ascii c "-_.!~*'()")%bool.

Definition hex_digit (n : N) : ascii :=
  if N.ltb n 10 then ascii_of_N (48 + n) else ascii_of_N (55 + n).

Definition percent_encode (c : ascii) : string :=
  let n := N_of_ascii c in
  String "%" (String (hex_digit (N.div n 16))
                     (String (hex_digit (N.modulo n 16)) EmptyString)).

(** [encodeURIComponent]: every byte of the UTF-8 encoding that is not
    unreserved becomes [%XX] with upper-case hexadecimal digits. *)
Fixpoint encodeURIComponent (s : string) : string :=
  match s with
  | EmptyString => EmptyString
  | String c s' =>
      if uri_unreserved c
      then String c (encodeURIComponent s')
      else (percent_encode c ++ encodeURIComponent s')%string
  end.

(** The double nearest to an integer: below 2^53 the integer itself;
    above, the 53 leading bits, rounded to the nearest with ties going to
    the even one; an infinity when that reaches 2^1024. *)
Definition round_to_double (n : Z) : Number :=
  let a := Z.abs n in
  if a <? 2 ^ 53 then Finite n
  else
    let e := Z.log2 a - 52 in
    let q := a / 2 ^ e in
    let r := a mod 2 ^ e in
    let half := 2 ^ (e - 1) in
    let q' := if ((half <? r) || ((r =? half) && Z.odd q))%bool
              then q + 1 else q in
    let v := q' * 2 ^ e in
    if 2 ^ 1024 <=? v then Infinity (n <? 0) else Finite (Z.sgn n * v).

Definition decimal_digits (n : Z) : string :=
  NilZero.string_of_int (Z.to_int n).

(** The integer with [k] significant digits that reads back as the double
    [x] (of [d] digits), if there is one: the multiple of 10^(d-k) below
    [x] or the one above, the closer one when both do, the even one when
    they are as close. *)
Definition shortest_candidate (x : Z) (d k : nat) : option Z :=
  let p := 10 ^ Z.of_nat (d - k) in
  let lo := (x / p) * p in
  let hi := lo + p in
  let reads_back c :=
    match round_to_double c with
    | Finite y => y =? x
    | _ => false
    end in
  match reads_back lo, reads_back hi with
  | true, true =>
      if x - lo <? hi - x then Some lo
      else if hi - x <? x - lo then Some hi
      else if Z.even (x / p) then Some lo else Some hi
  | true, false => Some lo
  | false, true => Some hi
  | false, false => None
  end.

(** The integer of fewest significant digits that reads back as [x],
    looked for from [k] digits on. *)
Fixpoint shortest (x : Z) (d fuel k : nat) : Z :=
  match fuel with
  | O => x
  | S fuel' =>
      match shortest_candidate x d k with
      | Some c => c
      | None => shortest x d fuel' (S k)
      end
  end.

Fixpoint drop_trailing_zeros (s : string) : string :=
  match s with
  | EmptyString => EmptyString
  | String c s' =>
      match drop_trailing_zeros s' with
      | EmptyString =>
          if Ascii.eqb c "0" then EmptyString else String c EmptyString
      | t => String c t
      end
  end.

(** [Number::toString] of a double that is a positive integer: the digits
    of the integer of fewest significant digits that reads back as the
    double, written out when there are at most 21 of them and in exponent
    form otherwise.  Below 2^53 these are the digits of the integer. *)
Definition print_positive (x : Z) : string :=
  if x <? 2 ^ 53 then decimal_digits x
  else
    let d := String.length (decimal_digits x) in
    let c := decimal_digits (shortest x d d 1) in
    let n := String.length c in
    if (n <=? 21)%nat then c
    else
      match drop_trailing_zeros c with
      | EmptyString => c
      | String c0 EmptyString =>
          String c0 ("e+" ++ decimal_digits (Z.of_nat n - 1))
      | String c0 rest =>
          String c0 ("." ++ rest ++ "e+" ++ decimal_digits (Z.of_nat n - 1))
      end.

(** Template-literal printing of a number ([Number::toString]). *)
Definition Number_toString (n : Number) : string :=
  match n with
  | NaN => "NaN"
  | Infinity false => "Infinity"
  | Infinity true => "-Infinity"
  | Finite n =>
      if n <? 0 then ("-" ++ print_positive (- n))%string
      else print_positive n
  end.

(** [a === b] on numbers: NaN equals nothing. *)
Definition Number_eqb (a b : Number) : bool :=
  match a, b with
  | Finite x, Finite y => x =? y
  | Infinity x, Infinity y => Bool.eqb x y
  | _, _ => false
  end.

(** White space skipped by [parseInt]: the ASCII white space and line
    terminators, and the multi-byte ones in their UTF-8 encoding. *)
Definition is_ascii_space (c : ascii) : bool :=
  (in_range 9 13 c || in_range 32 32 c)%bool.

Definition is_space2 (c d : ascii) : bool :=
  (* U+00A0 *)
  (in_range 194 194 c && in_range 160 160 d)%bool.

Definition is_space3 (c d e : ascii) : bool :=
  ((* U+1680 *)
   (in_range 225 225 c && in_range 154 154 d && in_range 128 128 e)
   (* U+2000 .. U+200A, U+2028, U+2029, U+202F *)
   || (in_range 226 226 c && in_range 128 128 d
       && (in_range 128 138 e || in_range 168 169 e || in_range 175 175 e))
   (* U+205F *)
   || (in_range 226 226 c && in_range 129 129 d && in_range 159 159 e)
   (* U+3000 *)
   || (in_range 227 227 c && in_range 128 128 d && in_range 128 128 e)
   (* U+FEFF *)
   || (in_range 239 239 c && in_range 187 187 d && in_range 191 191 e))%bool.

Fixpoint trimStart (s : string) : string :=
  match s with
  | EmptyString => s
  | String c s1 =>
      if is_ascii_space c then trimStart s1
      else
        match s1 with
        | EmptyString => s
        | String d s2 =>
            if is_space2 c d then trimStart s2
            else
              match s2 with
              | EmptyString => s
              | String e s3 => if is_space3 c d e then trimStart s3 else s
              end
        end
  end.

(** Value of a digit in the given radix (10 or 16), if it is one. *)
Definition digit_value (radix : Z) (c : ascii) : option Z :=
  let n := Z.of_N (N_of_ascii c) in
  if is_digit c then Some (n - 48)
  else if (radix =? 16) && in_range 97 102 c then Some (n - 87)
  else if (radix =? 16) && in_range 65 70 c then Some (n - 55)
  else None.

(** Longest prefix of digits, read in the radix; [None] when it is empty. *)
Fixpoint read_digits (radix : Z) (acc : option Z) (s : string) : option Z :=
  match s with
  | EmptyString => acc
  | String c s' =>
      match digit_value radix c with
      | Some d =>
          read_digits radix
            (Some (match acc with Some a => a * radix + d | None => d end)) s'
      | None => acc
      end
  end.

Definition strip_sign (s : string) : Z * string :=
  match s with
  | String "-" s' => (-1, s')
  | String "+" s' => (1, s')
  | _ => (1, s)
  end.

Definition strip_hex_prefix (s : string) : Z * string :=
  match s with
  | String "0" (String "x" s') => (16, s')
  | String "0" (String "X" s') => (16, s')
  | _ => (10, s)
  end.

(** [parseInt(s)] with no radix argument: the double nearest to the
    integer the digits denote (an infinity when that is out of range), NaN
    when there is no digit. *)
Definition parseInt (s : string) : Number :=
  let (sign, s1) := strip_sign (trimStart s) in
  let (radix, s2) := strip_hex_prefix s1 in
  match read_digits radix None s2 with
  | Some n => round_to_double (sign * n)
  | None => NaN
  end.

(** [a || b] on a value that is [null] or a string: the empty string is
    falsy. *)
Definition or_string (a : option string) (b : string) : string :=
  match a with
  | Some (String c s) => String c s
  | _ => b
  end.

(** Truthiness of a number: zero and NaN are falsy. *)
Definition truthy_number (a : Number) : bool :=
  match a with
  | Finite n => negb (n =? 0)
  | Infinity _ => true
  | NaN => false
  end.

(** [a || b] on numbers. *)
Definition or_number (a b : Number) : Number :=
  if truthy_number a then a else b.

(** Truthiness of a value that is [null] or a string. *)
Definition truthy_string (a : option string) : bool :=
  match a with
  | Some (String _ _) => true
  | _ => false
  end.

(** *** JSON values

    What [JSON.parse] returns.  A number that is not an integer is known by
    its text ([Number::toString] of the double): the source compares,
    stores and prints such a number, and two doubles are equal when their
    texts are.  An object holds each of its keys once. *)
#[warnings="-register-all"]
Inductive JsonValue :=
| JNull
| JBoolean (b : bool)
| JNumber (n : Number)
| JFraction (text : string)
| JString (s : string)
| JArray (elements : list JsonValue)
| JObject (properties : list (string * JsonValue)).

Fixpoint property (k : string) (l : list (string * JsonValue))
  : option JsonValue :=
  match l with
  | [] => None
  | (k', v) :: l' => if String.eqb k k' then Some v else property k l'
  end.

(** [v.k] for one of the names the source reads ([type], [data],
    [leagueId], [draftPosition]), on a value that is not [null]: an object
    has the property or not, and no other value has it; [None] is
    [undefined]. *)
Definition js_get (v : JsonValue) (k : string) : option JsonValue :=
  match v with
  | JObject l => property k l
  | _ => None
  end.

(** [ToString] of a value, as a template literal applies it; [None] when it
    throws a [TypeError].  An array is its elements joined by commas, with
    nothing for [null]; an object is [[object Object]], unless it has a
    property [toString] of its own: a value out of [JSON.parse] is no
    function, so the conversion finds no method to call and throws. *)
Fixpoint ToString (v : JsonValue) : option string :=
  match v with
  | JNull => Some "null"
  | JBoolean b => Some (if b then "true" else "false")
  | JNumber n => Some (Number_toString n)
  | JFraction text => Some text
  | JString s => Some s
  | JArray l =>
      (fix join (l : list JsonValue) : option string :=
         match l with
         | [] => Some ""
         | x :: l' =>
             match (match x with JNull => Some "" | _ => ToString x end) with
             | Some t =>
                 match l' with
                 | [] => Some t
                 | _ :: _ =>
                     match join l' with
                     | Some rest => Some (t ++ "," ++ rest)%string
                     | None => None
                     end
                 end
             | None => None
             end
         end) l
  | JObject l =>
      match property "toString" l with
      | Some _ => None
      | None => Some "[object Object]"
      end
  end.

Definition dquote : string := String (ascii_of_N 34) EmptyString.

(** [JSON.stringify] of a string: the quote and the backslash are escaped,
    and so is every control character, by its short escape or as
    [\u00xx] with lower-case hexadecimal digits. *)
Definition lower_hex_digit (n : N) : ascii :=
  if N.ltb n 10 then ascii_of_N (48 + n) else ascii_of_N (87 + n).

Definition json_escape (c : ascii) : string :=
  let n := N_of_ascii c in
  if N.eqb n 34 then ("\" ++ dquote)%string
  else if N.eqb n 92 then "\\"
  else if N.eqb n 8 then "\b"
  else if N.eqb n 12 then "\f"
  else if N.eqb n 10 then "\n"
  else if N.eqb n 13 then "\r"
  else if N.eqb n 9 then "\t"
  else if N.ltb n 32 then
    ("\u00" ++ String (lower_hex_digit (N.div n 16))
                 (String (lower_hex_digit (N.modulo n 16)) EmptyString))%string
  else String c EmptyString.

Fixpoint json_escape_all (s : string) : string :=
  match s with
  | EmptyString => EmptyString
  | String c s' => (json_escape c ++ json_escape_all s')%string
  end.

Definition JSON_stringify_string (s : string) : string :=
  (dquote ++ json_escape_all s ++ dquote)%string.

(** [JSON.stringify] of a value: no white space; a number that is not
    finite becomes [null]. *)
Fixpoint JSON_stringify (v : JsonValue) : string :=
  match v with
  | JNull => "null"
  | JBoolean b => if b then "true" else "false"
  | JNumber (Finite n) => Number_toString (Finite n)
  | JNumber _ => "null"
  | JFraction text => text
  | JString s => JSON_stringify_string s
  | JArray l =>
      ("["
       ++ (fix elements (l : list JsonValue) : string :=
             match l with
             | [] => ""
             | x :: l' =>
                 match l' with
                 | [] => JSON_stringify x
                 | _ :: _ => (JSON_stringify x ++ "," ++ elements l')%string
                 end
             end) l
       ++ "]")%string
  | JObject l =>
      ("{"
       ++ (fix members (l : list (string * JsonValue)) : string :=
             match l with
             | [] => ""
             | (k, x) :: l' =>
                 match l' with
                 | [] =>
                     (JSON_stringify_string k ++ ":" ++ JSON_stringify x)%string
                 | _ :: _ =>
                     (JSON_stringify_string k ++ ":" ++ JSON_stringify x ++ ","
                      ++ members l')%string
                 end
             end) l
       ++ "}")%string
  end.

(** [`${v}`] of a value that may be [undefined]. *)
Definition template (v : option JsonValue) : option string :=
  match v with
  | None => Some "undefined"
  | Some v => ToString v
  end.

(** The message of the [TypeError] of a conversion that throws (the text
    V8 gives; the source only logs it). *)
Definition cannot_convert : string :=
  "Cannot convert object to primitive value".

(** [a === b] on values of which one at least is fresh out of
    [JSON.parse]: primitive values are compared; an array or an object is
    the same as no other value. *)
Definition strict_equal (a b : option JsonValue) : bool :=
  match a, b with
  | None, None => true
  | Some JNull, Some JNull => true
  | Some (JBoolean x), Some (JBoolean y) => Bool.eqb x y
  | Some (JNumber x), Some (JNumber y) => Number_eqb x y
  | Some (JFraction x), Some (JFraction y) => String.eqb x y
  | Some (JString x), Some (JString y) => String.eqb x y
  | _, _ => false
  end.

(** What a Room holds as [draftPosition]: the value, and beside it the
    text a template literal makes of it.  The text is a function of the
    value ([template]); the Room holds a number out of [parseInt] or a value
    [handleClientReconnectRequest] has printed before storing it, so the
    text is there whenever the Room prints its position. *)
Record Position := {
  position_value : option JsonValue;
  position_text : string
}.

Definition position_of_number (n : Number) : Position :=
  {| position_value := Some (JNumber n); position_text := Number_toString n |}.

Coercion position_of_number : Number >-> Position.

(** The text beside the value is the one a template literal makes of the
    value. *)
Definition printed (p : Position) : Prop :=
  template (position_value p) = Some (position_text p).

(** *** [Map] with insertion order *)

Section JsMap.
Context {K V : Type} (eqb : K -> K -> bool).

Fixpoint map_get (k : K) (m : list (K * V)) : option V :=
  match m with
  | [] => None
  | (k', v) :: m' => if eqb k k' then Some v else map_get k m'
  end.

(** [set] keeps the position of a key that is already present and appends
    a new one. *)
Fixpoint map_set (k : K) (v : V) (m : list (K * V)) : list (K * V) :=
  match m with
  | [] => [(k, v)]
  | (k', v') :: m' =>
      if eqb k k' then (k, v) :: m' else (k', v') :: map_set k v m'
  end.

Fixpoint map_delete (k : K) (m : list (K * V)) : list (K * V) :=
  match m with
  | [] => []
  | (k', v') :: m' =>
      if eqb k k' then map_delete k m' else (k', v') :: map_delete k m'
  end.

End JsMap.

(** ** Socket objects of the [ws] library *)

Inductive ReadyState := CONNECTING | OPEN | CLOSING | CLOSED.

Definition ReadyState_eqb (a b : ReadyState) : bool :=
  match a, b with
  | CONNECTING, CONNECTING | OPEN, OPEN | CLOSING, CLOSING | CLOSED, CLOSED =>
      true
  | _, _ => false
  end.

(** Objects are known by reference: a socket, a Room and a timer handle
    are indices into the stores below. *)
Definition WebSocket := nat.
Definition RoomRef := nat.
Definition Timeout := nat.

(** The frames the proxy sends downstream ([interface ProxyMessage]). *)
Inductive MessageType :=
| yahoo_message
| room_joined
| yahoo_connected
| yahoo_disconnected
| yahoo_error
| yahoo_max_reconnect_reached.

Module ProxyMessage.
Record t := {
  type : MessageType;
  data : option string;
  message : option string;
  error : option string;
  code : option Z;
  reason : option string;
  roomId : option string;
  yahooConnected : option bool;
  clientsCount : option Z;
  draftPosition : option Number
}.
End ProxyMessage.

(** [{type: 'yahoo_connected', message}] *)
Definition msg_connected (m : string) : ProxyMessage.t :=
  {| ProxyMessage.type := yahoo_connected; ProxyMessage.data := None;
     ProxyMessage.message := Some m; ProxyMessage.error := None;
     ProxyMessage.code := None; ProxyMessage.reason := None;
     ProxyMessage.roomId := None; ProxyMessage.yahooConnected := None;
     ProxyMessage.clientsCount := None; ProxyMessage.draftPosition := None |}.

(** [{type: 'yahoo_message', data}] *)
Definition msg_message (d : string) : ProxyMessage.t :=
  {| ProxyMessage.type := yahoo_message; ProxyMessage.data := Some d;
     ProxyMessage.message := None; ProxyMessage.error := None;
     ProxyMessage.code := None; ProxyMessage.reason := None;
     ProxyMessage.roomId := None; ProxyMessage.yahooConnected := None;
     ProxyMessage.clientsCount := None; ProxyMessage.draftPosition := None |}.

(** [{type: 'yahoo_disconnected', code, reason}] *)
Definition msg_disconnected (c : Z) (r : string) : ProxyMessage.t :=
  {| ProxyMessage.type := yahoo_disconnected; ProxyMessage.data := None;
     ProxyMessage.message := None; ProxyMessage.error := None;
     ProxyMessage.code := Some c; ProxyMessage.reason := Some r;
     ProxyMessage.roomId := None; ProxyMessage.yahooConnected := None;
     ProxyMessage.clientsCount := None; ProxyMessage.draftPosition := None |}.

(** [{type: 'yahoo_error', error}] *)
Definition msg_error (e : string) : ProxyMessage.t :=
  {| ProxyMessage.type := yahoo_error; ProxyMessage.data := None;
     ProxyMessage.message := None; ProxyMessage.error := Some e;
     ProxyMessage.code := None; ProxyMessage.reason := None;
     ProxyMessage.roomId := None; ProxyMessage.yahooConnected := None;
     ProxyMessage.clientsCount := None; ProxyMessage.draftPosition := None |}.

(** [{type: 'room_joined', roomId, yahooConnected, clientsCount,
    draftPosition}] *)
Definition msg_joined (rid : string) (yc : bool) (n : Z) (pos : Number)
  : ProxyMessage.t :=
  {| ProxyMessage.type := room_joined; ProxyMessage.data := None;
     ProxyMessage.message := None; ProxyMessage.error := None;
     ProxyMessage.code := None; ProxyMessage.reason := None;
     ProxyMessage.roomId := Some rid; ProxyMessage.yahooConnected := Some yc;
     ProxyMessage.clientsCount := Some n;
     ProxyMessage.draftPosition := Some pos |}.

(** The object [getStatus] returns.  Its [yahooConnected] is the value of
    [this.yahooWs && this.yahooWs.readyState === WebSocket.OPEN], which is
    [null] when there is no socket and a boolean otherwise. *)
Inductive NullOrBoolean :=
| JsNull
| JsBoolean (b : bool).

Module Status.
Record t := {
  roomId : string;
  leagueId : string;
  draftPosition : option JsonValue;
  platformUserId : string;
  clientsCount : Z;
  clientDraftPositions : list Number;
  yahooConnected : NullOrBoolean;
  hasJoined : bool;
  lastHeartbeat : Z;
  reconnectAttempts : Z;
  isIntentionalDisconnect : bool
}.
End Status.

(** What is handed to [send]: a text frame, [JSON.stringify] of a proxy
    message, or a value that is neither a string nor a number, of which
    the library makes the frame. *)
Inductive Payload :=
| Text (s : string)
| Json (m : ProxyMessage.t)
| Data (v : option JsonValue).

(** Calls made on the environment: sockets and timers. *)
Inductive Call :=
| NewWebSocket (ws : WebSocket) (url : string)
| WsSend (ws : WebSocket) (p : Payload)
| WsClose (ws : WebSocket) (code : Z) (reason : string)
| SetTimeout (t : Timeout) (ms : Z)
| ClearTimeout (t : Timeout)
| SetInterval (t : Timeout) (ms : Z)
| ClearInterval (t : Timeout).

(** The handlers registered on a socket, with the variables their
    closures capture: the upstream handlers of [connectToYahoo] capture
    [this]; the session handlers of the connection handler capture
    [clientId] and [room]. *)
Inductive Handlers :=
| NoHandlers
| YahooHandlers (this : RoomRef)
| ClientHandlers (clientId : string) (room : RoomRef).

Record Socket := {
  readyState : ReadyState;
  handlers : Handlers
}.

Inductive TimerKind := CleanupTimer | HeartbeatTimer.

(** A pending timer: its handle, the Room its callback captures, and the
    time from which it may fire. *)
Record Timer := {
  handle : Timeout;
  kind : TimerKind;
  owner : RoomRef;
  due : Z
}.

(** ** The Room class *)

Record ClientInfo := {
  clientId : string;
  clientDraftPosition : Number
}.

Record Room := {
  id : string;
  leagueId : string;
  draftPosition : Position;
  yahooWebSocketUrl : string;
  platformUserId : string;
  yahooWs : option WebSocket;
  clients : list (WebSocket * ClientInfo);
  isConnectingToYahoo : bool;
  lastHeartbeat : Z;
  reconnectAttempts : Z;
  maxReconnectAttempts : Number;
  heartbeatInterval : option Timeout;
  connectionTimeout : Number;
  isIntentionalDisconnect : bool;
  hasJoined : bool;
  cleanupTimeout : option Timeout
}.

(** A logged call, with the Room whose method made it as that Room was at
    the moment of the call ([None] for calls made by the application
    handlers). *)
Record Entry := {
  call : Call;
  caller : option Room
}.

(** The process environment a Room method acts on. *)
Record Sys := {
  sockets : list Socket;
  timers : list Timer;
  nextTimer : Timeout;
  now : Z;
  log : list Entry
}.

Definition set_yahooWs (v : option WebSocket) (r : Room) : Room :=
  {| id := id r; leagueId := leagueId r; draftPosition := draftPosition r;
     yahooWebSocketUrl := yahooWebSocketUrl r;
     platformUserId := platformUserId r; yahooWs := v; clients := clients r;
     isConnectingToYahoo := isConnectingToYahoo r;
     lastHeartbeat := lastHeartbeat r;
     reconnectAttempts := reconnectAttempts r;
     maxReconnectAttempts := maxReconnectAttempts r;
     heartbeatInterval := heartbeatInterval r;
     connectionTimeout := connectionTimeout r;
     isIntentionalDisconnect := isIntentionalDisconnect r;
     hasJoined := hasJoined r; cleanupTimeout := cleanupTimeout r |}.

Definition set_clients (v : list (WebSocket * ClientInfo)) (r : Room) : Room :=
  {| id := id r; leagueId := leagueId r; draftPosition := draftPosition r;
     yahooWebSocketUrl := yahooWebSocketUrl r;
     platformUserId := platformUserId r; yahooWs := yahooWs r; clients := v;
     isConnectingToYahoo := isConnectingToYahoo r;
     lastHeartbeat := lastHeartbeat r;
     reconnectAttempts := reconnectAttempts r;
     maxReconnectAttempts := maxReconnectAttempts r;
     heartbeatInterval := heartbeatInterval r;
     connectionTimeout := connectionTimeout r;
     isIntentionalDisconnect := isIntentionalDisconnect r;
     hasJoined := hasJoined r; cleanupTimeout := cleanupTimeout r |}.

Definition set_isConnectingToYahoo (v : bool) (r : Room) : Room :=
  {| id := id r; leagueId := leagueId r; draftPosition := draftPosition r;
     yahooWebSocketUrl := yahooWebSocketUrl r;
     platformUserId := platformUserId r; yahooWs := yahooWs r;
     clients := clients r; isConnectingToYahoo := v;
     lastHeartbeat := lastHeartbeat r;
     reconnectAttempts := reconnectAttempts r;
     maxReconnectAttempts := maxReconnectAttempts r;
     heartbeatInterval := heartbeatInterval r;
     connectionTimeout := connectionTimeout r;
     isIntentionalDisconnect := isIntentionalDisconnect r;
     hasJoined := hasJoined r; cleanupTimeout := cleanupTimeout r |}.

Definition set_lastHeartbeat (v : Z) (r : Room) : Room :=
  {| id := id r; leagueId := leagueId r; draftPosition := draftPosition r;
     yahooWebSocketUrl := yahooWebSocketUrl r;
     platformUserId := platformUserId r; yahooWs := yahooWs r;
     clients := clients r; isConnectingToYahoo := isConnectingToYahoo r;
     lastHeartbeat := v; reconnectAttempts := reconnectAttempts r;
     maxReconnectAttempts := maxReconnectAttempts r;
     heartbeatInterval := heartbeatInterval r;
     connectionTimeout := connectionTimeout r;
     isIntentionalDisconnect := isIntentionalDisconnect r;
     hasJoined := hasJoined r; cleanupTimeout := cleanupTimeout r |}.

Definition set_reconnectAttempts (v : Z) (r : Room) : Room :=
  {| id := id r; leagueId := leagueId r; draftPosition := draftPosition r;
     yahooWebSocketUrl := yahooWebSocketUrl r;
     platformUserId := platformUserId r; yahooWs := yahooWs r;
     clients := clients r; isConnectingToYahoo := isConnectingToYahoo r;
     lastHeartbeat := lastHeartbeat r; reconnectAttempts := v;
     maxReconnectAttempts := maxReconnectAttempts r;
     heartbeatInterval := heartbeatInterval r;
     connectionTimeout := connectionTimeout r;
     isIntentionalDisconnect := isIntentionalDisconnect r;
     hasJoined := hasJoined r; cleanupTimeout := cleanupTimeout r |}.

Definition set_heartbeatInterval (v : option Timeout) (r : Room) : Room :=
  {| id := id r; leagueId := leagueId r; draftPosition := draftPosition r;
     yahooWebSocketUrl := yahooWebSocketUrl r;
     platformUserId := platformUserId r; yahooWs := yahooWs r;
     clients := clients r; isConnectingToYahoo := isConnectingToYahoo r;
     lastHeartbeat := lastHeartbeat r;
     reconnectAttempts := reconnectAttempts r;
     maxReconnectAttempts := maxReconnectAttempts r; heartbeatInterval := v;
     connectionTimeout := connectionTimeout r;
     isIntentionalDisconnect := isIntentionalDisconnect r;
     hasJoined := hasJoined r; cleanupTimeout := cleanupTimeout r |}.

Definition set_isIntentionalDisconnect (v : bool) (r : Room) : Room :=
  {| id := id r; leagueId := leagueId r; draftPosition := draftPosition r;
     yahooWebSocketUrl := yahooWebSocketUrl r;
     platformUserId := platformUserId r; yahooWs := yahooWs r;
     clients := clients r; isConnectingToYahoo := isConnectingToYahoo r;
     lastHeartbeat := lastHeartbeat r;
     reconnectAttempts := reconnectAttempts r;
     maxReconnectAttempts := maxReconnectAttempts r;
     heartbeatInterval := heartbeatInterval r;
     connectionTimeout := connectionTimeout r; isIntentionalDisconnect := v;
     hasJoined := hasJoined r; cleanupTimeout := cleanupTimeout r |}.

Definition set_hasJoined (v : bool) (r : Room) : Room :=
  {| id := id r; leagueId := leagueId r; draftPosition := draftPosition r;
     yahooWebSocketUrl := yahooWebSocketUrl r;
     platformUserId := platformUserId r; yahooWs := yahooWs r;
     clients := clients r; isConnectingToYahoo := isConnectingToYahoo r;
     lastHeartbeat := lastHeartbeat r;
     reconnectAttempts := reconnectAttempts r;
     maxReconnectAttempts := maxReconnectAttempts r;
     heartbeatInterval := heartbeatInterval r;
     connectionTimeout := connectionTimeout r;
     isIntentionalDisconnect := isIntentionalDisconnect r; hasJoined := v;
     cleanupTimeout := cleanupTimeout r |}.

Definition set_cleanupTimeout (v : option Timeout) (r : Room) : Room :=
  {| id := id r; leagueId := leagueId r; draftPosition := draftPosition r;
     yahooWebSocketUrl := yahooWebSocketUrl r;
     platformUserId := platformUserId r; yahooWs := yahooWs r;
     clients := clients r; isConnectingToYahoo := isConnectingToYahoo r;
     lastHeartbeat := lastHeartbeat r;
     reconnectAttempts := reconnectAttempts r;
     maxReconnectAttempts := maxReconnectAttempts r;
     heartbeatInterval := heartbeatInterval r;
     connectionTimeout := connectionTimeout r;
     isIntentionalDisconnect := isIntentionalDisconnect r;
     hasJoined := hasJoined r; cleanupTimeout := v |}.

(** [draftPosition] is declared [readonly]; the reconnect path writes it
    through a cast. *)
Definition set_draftPosition (v : Position) (r : Room) : Room :=
  {| id := id r; leagueId := leagueId r; draftPosition := v;
     yahooWebSocketUrl := yahooWebSocketUrl r;
     platformUserId := platformUserId r; yahooWs := yahooWs r;
     clients := clients r; isConnectingToYahoo := isConnectingToYahoo r;
     lastHeartbeat := lastHeartbeat r;
     reconnectAttempts := reconnectAttempts r;
     maxReconnectAttempts := maxReconnectAttempts r;
     heartbeatInterval := heartbeatInterval r;
     connectionTimeout := connectionTimeout r;
     isIntentionalDisconnect := isIntentionalDisconnect r;
     hasJoined := hasJoined r; cleanupTimeout := cleanupTimeout r |}.

Definition set_sockets (v : list Socket) (s : Sys) : Sys :=
  {| sockets := v; timers := timers s; nextTimer := nextTimer s;
     now := now s; log := log s |}.

Definition set_timers (v : list Timer) (s : Sys) : Sys :=
  {| sockets := sockets s; timers := v; nextTimer := nextTimer s;
     now := now s; log := log s |}.

Definition set_nextTimer (v : Timeout) (s : Sys) : Sys :=
  {| sockets := sockets s; timers := timers s; nextTimer := v;
     now := now s; log := log s |}.

Definition set_now (v : Z) (s : Sys) : Sys :=
  {| sockets := sockets s; timers := timers s; nextTimer := nextTimer s;
     now := v; log := log s |}.

Definition set_log (v : list Entry) (s : Sys) : Sys :=
  {| sockets := sockets s; timers := timers s; nextTimer := nextTimer s;
     now := now s; log := v |}.

(** *** Methods as state-passing functions

    A method of Room runs on the Room it is called on and on the process
    environment.  [this] is passed where a closure created by the method
    captures it. *)

Definition M (A : Type) : Type := Room * Sys -> A * (Room * Sys).

Definition ret {A : Type} (a : A) : M A := fun st => (a, st).

Definition bind {A B : Type} (m : M A) (k : A -> M B) : M B :=
  fun st => let (a, st') := m st in k a st'.

Declare Scope room_scope.
Delimit Scope room_scope with room.
Notation "x <- m ;; k" := (bind m (fun x => k))
  (at level 61, m at next level, right associativity) : room_scope.
Notation "m ;; k" := (bind m (fun _ => k))
  (at level 61, right associativity) : room_scope.
Open Scope room_scope.

Definition this_room : M Room := fun st => (fst st, st).
Definition the_sys : M Sys := fun st => (snd st, st).
Definition update (f : Room -> Room) : M unit :=
  fun st => (tt, (f (fst st), snd st)).
Definition update_sys (f : Sys -> Sys) : M unit :=
  fun st => (tt, (fst st, f (snd st))).
Definition when (b : bool) (m : M unit) : M unit := if b then m else ret tt.

(** Run a method and keep the final state only. *)
Definition exec {A : Type} (m : M A) (r : Room) (s : Sys) : Room * Sys :=
  snd (m (r, s)).

(** A thrown [Error], with its message. *)
Inductive Result (A : Type) :=
| Ok (a : A)
| Throw (err : string).
Arguments Ok {A} a.
Arguments Throw {A} err.

(** **** Sockets *)

Definition readyStateOf (s : Sys) (ws : WebSocket) : ReadyState :=
  match nth_error (sockets s) ws with
  | Some k => readyState k
  | None => CLOSED
  end.

Definition handlersOf (s : Sys) (ws : WebSocket) : Handlers :=
  match nth_error (sockets s) ws with
  | Some k => handlers k
  | None => NoHandlers
  end.

Fixpoint list_update {A : Type} (i : nat) (f : A -> A) (l : list A) : list A :=
  match l, i with
  | [], _ => []
  | x :: l', O => f x :: l'
  | x :: l', S i' => x :: list_update i' f l'
  end.

Definition set_readyState (v : ReadyState) (k : Socket) : Socket :=
  {| readyState := v; handlers := handlers k |}.

Definition set_handlers (v : Handlers) (k : Socket) : Socket :=
  {| readyState := readyState k; handlers := v |}.

Definition is_OPEN (s : Sys) (ws : WebSocket) : bool :=
  ReadyState_eqb (readyStateOf s ws) OPEN.

(** Record a call and who made it. *)
Definition sys_log (c : Call) (who : option Room) (s : Sys) : Sys :=
  set_log (log s ++ [{| call := c; caller := who |}]) s.

(** [ws.close(code, reason)]: the socket starts closing, unless it is
    closed already; its [close] event comes later. *)
Definition closing (k : Socket) : Socket :=
  match readyState k with
  | CLOSED => k
  | _ => set_readyState CLOSING k
  end.

Definition sys_close (ws : WebSocket) (code : Z) (reason : string)
  (who : option Room) (s : Sys) : Sys :=
  let s' := sys_log (WsClose ws code reason) who s in
  set_sockets (list_update ws closing (sockets s')) s'.

(** A new socket object; its reference is the next free index. *)
Definition sys_new_socket (st : ReadyState) (s : Sys) : Sys :=
  set_sockets (sockets s ++ [{| readyState := st; handlers := NoHandlers |}]) s.

(** [ws.on(...)]: register handlers on a socket. *)
Definition sys_on (ws : WebSocket) (h : Handlers) (s : Sys) : Sys :=
  set_sockets (list_update ws (set_handlers h) (sockets s)) s.

(** The same, called from a method of Room: the log shows the Room as it
    is at the moment of the call. *)
Definition emit (c : Call) : M unit :=
  fun st => (tt, (fst st, sys_log c (Some (fst st)) (snd st))).

(** [ws.send(data)].  The log records the call; the library transmits the
    frame when the socket is open.  (It throws on a connecting socket: the
    source sends upstream only after testing for [OPEN], and the sockets
    the server accepts are never connecting.) *)
Definition ws_send (ws : WebSocket) (p : Payload) : M unit :=
  emit (WsSend ws p).

Definition ws_close (ws : WebSocket) (code : Z) (reason : string) : M unit :=
  fun st => (tt, (fst st, sys_close ws code reason (Some (fst st)) (snd st))).

Definition ws_on (ws : WebSocket) (h : Handlers) : M unit :=
  update_sys (sys_on ws h).

(** [new WebSocket(url, {headers, timeout})] for a URL the constructor
    accepts: a new socket object, connecting.  The headers (no [Origin])
    and the dial timeout are fixed options of the call and are not
    recorded. *)
Definition new_WebSocket (url : string) : M WebSocket :=
  s <- the_sys ;;
  let ws := List.length (sockets s) in
  emit (NewWebSocket ws url) ;;
  update_sys (sys_new_socket CONNECTING) ;;
  ret ws.

(** **** Timers *)

Definition remove_timer (t : Timeout) (l : list Timer) : list Timer :=
  filter (fun e => negb (Nat.eqb (handle e) t)) l.

Definition start_timer (k : TimerKind) (this : RoomRef) (ms : Z) : M Timeout :=
  s <- the_sys ;;
  let t := nextTimer s in
  emit (match k with
        | CleanupTimer => SetTimeout t ms
        | HeartbeatTimer => SetInterval t ms
        end) ;;
  update_sys
    (fun s => set_nextTimer (S t)
                (set_timers
                   (timers s ++ [{| handle := t; kind := k; owner := this;
                                    due := now s + ms |}]) s)) ;;
  ret t.

Definition clearTimeout (t : Timeout) : M unit :=
  emit (ClearTimeout t) ;;
  update_sys (fun s => set_timers (remove_timer t (timers s)) s).

Definition clearInterval (t : Timeout) : M unit :=
  emit (ClearInterval t) ;;
  update_sys (fun s => set_timers (remove_timer t (timers s)) s).

(** **** The methods *)

Section RoomMethods.

(** Whether the [WebSocket] constructor accepts a URL; on any other it
    throws. *)
Variable validUrl : string -> bool.

(** Whether [send] of the [ws] library makes a frame of a value that is
    neither a string nor a number; on any other such value it throws.  (A
    string is sent as it is, and a number as its text.) *)
Variable sendable : option JsonValue -> bool.

(** [this.yahooWs && this.yahooWs.readyState === WebSocket.OPEN], used as a
    condition. *)
Definition yahooOpen (r : Room) (s : Sys) : bool :=
  match yahooWs r with
  | Some ws => is_OPEN s ws
  | None => false
  end.

Definition yahoo_open : M bool := fun st => (yahooOpen (fst st) (snd st), st).

(** [broadcastToClients]: the clients in insertion order; only open
    sockets are sent to. *)
Fixpoint broadcast_to (cs : list (WebSocket * ClientInfo))
  (m : ProxyMessage.t) : M unit :=
  match cs with
  | [] => ret tt
  | (clientWs, _) :: cs' =>
      s <- the_sys ;;
      when (is_OPEN s clientWs) (ws_send clientWs (Json m)) ;;
      broadcast_to cs' m
  end.

Definition broadcastToClients (m : ProxyMessage.t) : M unit :=
  r <- this_room ;;
  broadcast_to (clients r) m.

(** The text of the join frame: [8|leagueId|draftPosition|userAgent|]. *)
Definition userAgent (r : Room) : string :=
  encodeURIComponent
    ("YahooFantasyProxy/1.0 (" ++ platformUserId r ++ ")")%string.

Definition joinMessage (r : Room) : string :=
  ("8|" ++ leagueId r ++ "|" ++ position_text (draftPosition r) ++ "|"
   ++ userAgent r ++ "|")%string.

Definition sendJoinMessageToYahoo : M unit :=
  r <- this_room ;;
  open <- yahoo_open ;;
  match yahooWs r with
  | Some ws =>
      if (open && negb (hasJoined r))%bool then
        ws_send ws (Text (joinMessage r)) ;;
        update (set_hasJoined true)
      else ret tt
  | None => ret tt
  end.

(** The heartbeat callback of [startHeartbeat]. *)
Definition heartbeatTick : M unit :=
  r <- this_room ;;
  open <- yahoo_open ;;
  match yahooWs r with
  | Some ws =>
      if open then
        ws_send ws (Text "c") ;;
        s <- the_sys ;;
        update (set_lastHeartbeat (now s))
      else ret tt
  | None => ret tt
  end.

Definition startHeartbeat (this : RoomRef) : M unit :=
  t <- start_timer HeartbeatTimer this 30000 ;;
  update (set_heartbeatInterval (Some t)).

Definition stopHeartbeat : M unit :=
  r <- this_room ;;
  match heartbeatInterval r with
  | Some t =>
      clearInterval t ;;
      update (set_heartbeatInterval None)
  | None => ret tt
  end.

(** [connectToYahoo].  The four [on] calls register closures over
    [this]; their bodies are the [onYahoo...] functions below.  The
    [catch] branch is reached when the constructor throws, which it does
    on a URL it cannot parse; the function being [async], the error comes
    back as a rejected promise. *)
Definition connectToYahoo (this : RoomRef) : M (Result unit) :=
  r <- this_room ;;
  open <- yahoo_open ;;
  if (isConnectingToYahoo r || open)%bool then ret (Ok tt)
  else
    update (set_isConnectingToYahoo true) ;;
    if validUrl (yahooWebSocketUrl r) then
      ws <- new_WebSocket (yahooWebSocketUrl r) ;;
      update (set_yahooWs (Some ws)) ;;
      ws_on ws (YahooHandlers this) ;;
      ret (Ok tt)
    else
      update (set_isConnectingToYahoo false) ;;
      ret (Throw ("Invalid URL: " ++ yahooWebSocketUrl r)%string).

Definition onYahooOpen (this : RoomRef) : M unit :=
  update (set_isConnectingToYahoo false) ;;
  update (set_reconnectAttempts 0) ;;
  update (set_hasJoined false) ;;
  sendJoinMessageToYahoo ;;
  startHeartbeat this ;;
  broadcastToClients (msg_connected "Connected to Yahoo WebSocket").

Definition onYahooMessage (data : string) : M unit :=
  broadcastToClients (msg_message data).

Definition onYahooClose (code : Z) (reason : string) : M unit :=
  update (set_isConnectingToYahoo false) ;;
  stopHeartbeat ;;
  broadcastToClients (msg_disconnected code reason).

Definition onYahooError (error_message : string) : M unit :=
  update (set_isConnectingToYahoo false) ;;
  broadcastToClients (msg_error error_message).

(** [interface ReconnectData]: the [data] of a well-typed reconnect
    request.  The interface is erased at run time:
    [handleClientReconnectRequest] is handed the [data] of the frame,
    whatever it is. *)
Definition ReconnectData (leagueId : string) (draftPosition : Number)
  : JsonValue :=
  JObject [("leagueId", JString leagueId);
           ("draftPosition", JNumber draftPosition)].

(** [handleClientReconnectRequest].  Reading [leagueId] of [undefined] or
    [null] throws; the two template literals that print a value of the
    request (in the warning of a mismatch and in the log line of the new
    position) throw when the value cannot be converted.  The function being
    [async], what it throws comes back as a rejected promise. *)
Definition handleClientReconnectRequest (this : RoomRef)
  (reconnectData : option JsonValue) : M (Result unit) :=
  r <- this_room ;;
  match reconnectData with
  | None =>
      ret (Throw "Cannot read properties of undefined (reading 'leagueId')")
  | Some JNull =>
      ret (Throw "Cannot read properties of null (reading 'leagueId')")
  | Some data =>
      if negb (strict_equal (js_get data "leagueId")
                            (Some (JString (leagueId r)))) then
        match template (js_get data "leagueId") with
        | Some got =>
            ret (Throw ("League ID mismatch: expected " ++ leagueId r
                        ++ ", got " ++ got)%string)
        | None => ret (Throw cannot_convert)
        end
      else
        stored <-
          (if strict_equal (js_get data "draftPosition")
                           (position_value (draftPosition r))
           then ret (Ok tt)
           else
             match template (js_get data "draftPosition") with
             | Some text =>
                 update (set_draftPosition
                           {| position_value := js_get data "draftPosition";
                              position_text := text |}) ;;
                 ret (Ok tt)
             | None => ret (Throw cannot_convert)
             end) ;;
        match stored with
        | Throw err => ret (Throw err)
        | Ok _ =>
            match yahooWs r with
            | Some ws =>
                update (set_isIntentionalDisconnect true) ;;
                ws_close ws 1000 "Client-initiated reconnection" ;;
                update (set_yahooWs None)
            | None => ret tt
            end ;;
            update (set_isIntentionalDisconnect false) ;;
            update (set_hasJoined false) ;;
            connectToYahoo this
        end
  end.

(** [addClient].  The three properties it stores on the client socket
    ([roomId], [clientId], [draftPosition]) are never read and are left
    out; the promise [connectToYahoo] returns is dropped, as in the
    source. *)
Definition addClient (this : RoomRef) (clientWs : WebSocket)
  (clientId : string) (clientDraftPosition : Number) : M unit :=
  r <- this_room ;;
  match cleanupTimeout r with
  | Some t =>
      clearTimeout t ;;
      update (set_cleanupTimeout None)
  | None => ret tt
  end ;;
  open <- yahoo_open ;;
  when (negb (Nat.eqb (List.length (clients r)) 0) || open)%bool
       (match yahooWs r with
        | Some ws =>
            update (set_isIntentionalDisconnect true) ;;
            ws_close ws 1000 "New client joined - forcing reconnection" ;;
            update (set_yahooWs None)
        | None => ret tt
        end ;;
        update (set_isIntentionalDisconnect false) ;;
        update (set_hasJoined false)) ;;
  update (fun r =>
            set_clients
              (map_set Nat.eqb clientWs
                 {| clientId := clientId;
                    clientDraftPosition := clientDraftPosition |}
                 (clients r)) r) ;;
  _ <- connectToYahoo this ;;
  r' <- this_room ;;
  ws_send clientWs
    (Json (msg_joined (id r') false (Z.of_nat (List.length (clients r')))
                      clientDraftPosition)).

Definition disconnectFromYahoo : M unit :=
  update (set_isIntentionalDisconnect true) ;;
  update (set_hasJoined false) ;;
  r <- this_room ;;
  match yahooWs r with
  | Some ws => ws_close ws 1000 "No clients remaining in room"
  | None => ret tt
  end.

Definition cleanup : M unit :=
  update (set_isIntentionalDisconnect true) ;;
  update (set_hasJoined false) ;;
  stopHeartbeat ;;
  r <- this_room ;;
  match cleanupTimeout r with
  | Some t =>
      clearTimeout t ;;
      update (set_cleanupTimeout None)
  | None => ret tt
  end ;;
  match yahooWs r with
  | Some ws =>
      ws_close ws 1000 "Room cleanup" ;;
      update (set_yahooWs None)
  | None => ret tt
  end ;;
  update (set_clients []).

(** [removeClient]; the callback of its timer is [retire] in the
    application below, as it also writes the registry. *)
Definition removeClient (this : RoomRef) (clientWs : WebSocket) : M unit :=
  update (fun r => set_clients (map_delete Nat.eqb clientWs (clients r)) r) ;;
  r <- this_room ;;
  if Nat.eqb (List.length (clients r)) 0 then
    match cleanupTimeout r with
    | Some t => clearTimeout t
    | None => ret tt
    end ;;
    t <- start_timer CleanupTimer this 2000 ;;
    update (set_cleanupTimeout (Some t))
  else ret tt.

(** [ws.send(data)] with whatever the caller hands over: a string is sent
    as it is and a number as its text; of another value the library makes
    the frame, or it throws (the message of the error is an example: the
    source only logs it). *)
Definition payload_of (data : option JsonValue) : option Payload :=
  match data with
  | Some (JString s) => Some (Text s)
  | Some (JNumber n) => Some (Text (Number_toString n))
  | Some (JFraction text) => Some (Text text)
  | _ => if sendable data then Some (Data data) else None
  end.

Definition ws_send_value (ws : WebSocket) (data : option JsonValue)
  : M (Result unit) :=
  match payload_of data with
  | Some p => ws_send ws p ;; ret (Ok tt)
  | None =>
      ret (Throw "The first argument must be of type string or an instance of Buffer")
  end.

(** [sendToYahoo]; its parameter is declared a string, and the session
    handler hands it the [data] of a client frame under a cast. *)
Definition sendToYahoo (message : option JsonValue) : M (Result unit) :=
  r <- this_room ;;
  open <- yahoo_open ;;
  match yahooWs r with
  | Some ws => if open then ws_send_value ws message else ret (Ok tt)
  | None => ret (Ok tt)
  end.

(** [getStatus]. *)
Definition getStatus (r : Room) (s : Sys) : Status.t :=
  {| Status.roomId := id r;
     Status.leagueId := leagueId r;
     Status.draftPosition := position_value (draftPosition r);
     Status.platformUserId := platformUserId r;
     Status.clientsCount := Z.of_nat (List.length (clients r));
     Status.clientDraftPositions :=
       map (fun c => clientDraftPosition (snd c)) (clients r);
     Status.yahooConnected :=
       match yahooWs r with
       | None => JsNull
       | Some ws => JsBoolean (is_OPEN s ws)
       end;
     Status.hasJoined := hasJoined r;
     Status.lastHeartbeat := lastHeartbeat r;
     Status.reconnectAttempts := reconnectAttempts r;
     Status.isIntentionalDisconnect := isIntentionalDisconnect r |}.

(** [new Room(...)]; [lastHeartbeat] is initialised with [Date.now()]. *)
Definition new_Room (leagueId : string) (draftPosition : Number)
  (yahooWebSocketUrl platformUserId : string)
  (maxReconnectAttempts connectionTimeout : Number) (date_now : Z) : Room :=
  {| id := leagueId;
     leagueId := leagueId;
     draftPosition := draftPosition;
     yahooWebSocketUrl := yahooWebSocketUrl;
     platformUserId := platformUserId;
     yahooWs := None;
     clients := [];
     isConnectingToYahoo := false;
     lastHeartbeat := date_now;
     reconnectAttempts := 0;
     maxReconnectAttempts := maxReconnectAttempts;
     heartbeatInterval := None;
     connectionTimeout := connectionTimeout;
     isIntentionalDisconnect := false;
     hasJoined := false;
     cleanupTimeout := None |}.

(** ** The application

    [rooms] and [clientConnections] are the two process-wide maps; [heap]
    holds the Room objects, so that two Rooms created for one league are
    told apart. *)

Record Config := {
  config_maxReconnectAttempts : option Number;
  config_connectionTimeout : option Number
}.

Variable config : Config.

Record World := {
  heap : list Room;
  rooms : list (string * RoomRef);
  clientConnections : list (string * (WebSocket * RoomRef));
  sys : Sys
}.

Definition set_heap (v : list Room) (w : World) : World :=
  {| heap := v; rooms := rooms w;
     clientConnections := clientConnections w; sys := sys w |}.

Definition set_rooms (v : list (string * RoomRef)) (w : World) : World :=
  {| heap := heap w; rooms := v;
     clientConnections := clientConnections w; sys := sys w |}.

Definition set_clientConnections
  (v : list (string * (WebSocket * RoomRef))) (w : World) : World :=
  {| heap := heap w; rooms := rooms w; clientConnections := v;
     sys := sys w |}.

Definition set_sys (v : Sys) (w : World) : World :=
  {| heap := heap w; rooms := rooms w;
     clientConnections := clientConnections w; sys := v |}.

Definition empty_sys : Sys :=
  {| sockets := []; timers := []; nextTimer := O; now := 0; log := [] |}.

Definition empty_world : World :=
  {| heap := []; rooms := []; clientConnections := []; sys := empty_sys |}.

(** Call a method on the Room object behind a reference. *)
Definition call_on {A : Type} (this : RoomRef) (m : M A) (w : World)
  : option A * World :=
  match nth_error (heap w) this with
  | Some r =>
      let (a, st) := m (r, sys w) in
      (Some a,
       set_sys (snd st) (set_heap (list_update this (fun _ => fst st) (heap w)) w))
  | None => (None, w)
  end.

Definition do_on {A : Type} (this : RoomRef) (m : M A) (w : World) : World :=
  snd (call_on this m w).

(** The query string of an upgrade request: [params.get] of each name. *)
Record Query := {
  query_leagueId : option string;
  query_draftPosition : option string;
  query_websocketUrl : option string;
  query_platformUserId : option string
}.

Definition missing_parameters : string :=
  "Missing required parameters: leagueId, draftPosition, websocketUrl".

(** The test of the connection handler:
    [!leagueId || !draftPosition || !yahooWebSocketUrl]. *)
Definition rejects (q : Query) : bool :=
  (negb (truthy_string (query_leagueId q))
   || negb (truthy_number (parseInt (or_string (query_draftPosition q) "0")))
   || negb (truthy_string (query_websocketUrl q)))%bool.

(** [new Room(...)] followed by [rooms.set(roomId, room)]. *)
Definition create_room (leagueId : string) (draftPosition : Number)
  (yahooWebSocketUrl platformUserId : string) (w : World) : RoomRef * World :=
  let room := List.length (heap w) in
  let r :=
    new_Room leagueId draftPosition yahooWebSocketUrl platformUserId
      (or_number (match config_maxReconnectAttempts config with
                  | Some n => n | None => 0 end) 5)
      (or_number (match config_connectionTimeout config with
                  | Some n => n | None => 0 end) 10000)
      (now (sys w)) in
  (room,
   set_rooms (map_set String.eqb leagueId room (rooms w))
     (set_heap (heap w ++ [r]) w)).

(** The Room the connection handler ends with in its variable [room].
    (The registry only holds references to allocated Rooms; the last case
    is there to make the function total.) *)
Definition get_or_create (leagueId : string) (draftPosition : Number)
  (url platformUserId : string) (w : World) : RoomRef * World :=
  match map_get String.eqb leagueId (rooms w) with
  | None => create_room leagueId draftPosition url platformUserId w
  | Some room =>
      match nth_error (heap w) room with
      | Some r =>
          if negb (String.eqb (yahooWebSocketUrl r) url)
          then
            create_room leagueId draftPosition url platformUserId
              (do_on room cleanup w)
          else (room, w)
      | None => (room, w)
      end
  end.

(** The [connection] handler of the WebSocket server.  The server hands it
    a new open socket; [uuid] is what [uuidv4()] returns. *)
Definition onConnection (q : Query) (uuid : string) (w : World) : World :=
  let ws := List.length (sockets (sys w)) in
  let w := set_sys (sys_new_socket OPEN (sys w)) w in
  if rejects q then
    set_sys (sys_close ws 1008 missing_parameters None (sys w)) w
  else
    let leagueId := or_string (query_leagueId q) "" in
    let draftPosition :=
      parseInt (or_string (query_draftPosition q) "0") in
    let yahooWebSocketUrl := or_string (query_websocketUrl q) "" in
    let platformUserId := or_string (query_platformUserId q) "unknown" in
    let clientId := uuid in
    let (room, w) :=
      get_or_create leagueId draftPosition yahooWebSocketUrl platformUserId w in
    let w := do_on room (addClient room ws clientId draftPosition) w in
    let w :=
      set_clientConnections
        (map_set String.eqb clientId (ws, room) (clientConnections w)) w in
    set_sys (sys_on ws (ClientHandlers clientId room) (sys w)) w.

(** A frame from a client: its text, and what [JSON.parse] returns on it;
    [NotJson] is a frame on which [JSON.parse] throws. *)
Inductive ClientFrame :=
| NotJson (message : string)
| Parsed (message : string) (jsonMessage : JsonValue).

(** What the [message] handler of a session takes a parsed frame for: it
    reads [jsonMessage.type], which throws on [null], and compares it with
    the two names. *)
Inductive ClientRequest :=
| Unreadable
| ToYahoo (data : option JsonValue)
| Reconnect (reconnectData : option JsonValue)
| Control.

Definition clientRequest (jsonMessage : JsonValue) : ClientRequest :=
  match jsonMessage with
  | JNull => Unreadable
  | _ =>
      if strict_equal (js_get jsonMessage "type")
                      (Some (JString "yahoo_message"))
      then ToYahoo (js_get jsonMessage "data")
      else if strict_equal (js_get jsonMessage "type")
                           (Some (JString "yahoo_reconnect"))
      then Reconnect (js_get jsonMessage "data")
      else Control
  end.

Definition failed_to_reconnect : ProxyMessage.t :=
  msg_error "Failed to reconnect to Yahoo".

(** The [message] handler of a session.  Whatever is thrown between
    [JSON.parse] and the end of the dispatch (by [JSON.parse], by reading
    [type] of [null], by [send] on a value it does not take) is caught by
    the inner [catch], which hands the text of the frame to [sendToYahoo]. *)
Definition onClientMessage (ws : WebSocket) (room : RoomRef)
  (f : ClientFrame) (w : World) : World :=
  match f with
  | NotJson message => do_on room (sendToYahoo (Some (JString message))) w
  | Parsed message jsonMessage =>
      match clientRequest jsonMessage with
      | Unreadable => do_on room (sendToYahoo (Some (JString message))) w
      | ToYahoo data =>
          match call_on room (sendToYahoo data) w with
          | (Some (Throw _), w') =>
              do_on room (sendToYahoo (Some (JString message))) w'
          | (_, w') => w'
          end
      | Reconnect reconnectData =>
          match
            call_on room (handleClientReconnectRequest room reconnectData) w
          with
          | (Some (Throw _), w') =>
              set_sys
                (sys_log (WsSend ws (Json failed_to_reconnect)) None (sys w'))
                w'
          | (_, w') => w'
          end
      | Control => w
      end
  end.

(** The [close] handler of a session. *)
Definition onClientClose (ws : WebSocket) (clientId : string) (room : RoomRef)
  (w : World) : World :=
  let w := do_on room (removeClient room ws) w in
  set_clientConnections (map_delete String.eqb clientId (clientConnections w)) w.

(** The callback of the timer [removeClient] starts. *)
Definition retire (this : RoomRef) (w : World) : World :=
  let w := do_on this (disconnectFromYahoo ;; cleanup) w in
  match nth_error (heap w) this with
  | Some r => set_rooms (map_delete String.eqb (id r) (rooms w)) w
  | None => w
  end.

(** [DELETE /rooms/:roomId]. *)
Fixpoint close_clients (cs : list (WebSocket * ClientInfo)) (s : Sys) : Sys :=
  match cs with
  | [] => s
  | (clientWs, _) :: cs' =>
      close_clients cs'
        (if is_OPEN s clientWs
         then sys_close clientWs 1001 "Room force cleanup" None s
         else s)
  end.

Definition deleteRoom (roomId : string) (w : World) : World :=
  match map_get String.eqb roomId (rooms w) with
  | None => w
  | Some room =>
      match nth_error (heap w) room with
      | Some r =>
          let w := set_sys (close_clients (clients r) (sys w)) w in
          let w := do_on room cleanup w in
          set_rooms (map_delete String.eqb roomId (rooms w)) w
      | None => w
      end
  end.

(** *** The event loop *)

Inductive Event :=
| Connection (q : Query) (uuid : string)
| ClientMessage (ws : WebSocket) (f : ClientFrame)
| ClientClose (ws : WebSocket)
| YahooOpen (ws : WebSocket)
| YahooMessage (ws : WebSocket) (data : string)
| YahooClose (ws : WebSocket) (code : Z) (reason : string)
| YahooError (ws : WebSocket) (error_message : string)
| TimerFire (t : Timeout)
| Elapse (ms : nat)
| DeleteRoom (roomId : string).

Definition set_state (ws : WebSocket) (v : ReadyState) (w : World) : World :=
  set_sys (set_sockets (list_update ws (set_readyState v) (sockets (sys w)))
                       (sys w)) w.

Fixpoint find_timer (t : Timeout) (l : list Timer) : option Timer :=
  match l with
  | [] => None
  | e :: l' => if Nat.eqb (handle e) t then Some e else find_timer t l'
  end.

Definition rearm (t : Timeout) (ms : Z) (l : list Timer) : list Timer :=
  map (fun e =>
         if Nat.eqb (handle e) t
         then {| handle := handle e; kind := kind e; owner := owner e;
                 due := due e + ms |}
         else e) l.

(** One turn of the event loop.  An event that cannot occur in the state
    (no such socket or handler, a timer that is not due) changes nothing.
    The library sets [readyState] before it calls a handler: [OPEN] for
    [open], [CLOSED] for [close], and [CLOSING] for [error], which a
    [close] follows. *)
Definition step (w : World) (e : Event) : World :=
  match e with
  | Connection q uuid => onConnection q uuid w
  | ClientMessage ws f =>
      match handlersOf (sys w) ws, readyStateOf (sys w) ws with
      | ClientHandlers _ room, (OPEN | CLOSING) => onClientMessage ws room f w
      | _, _ => w
      end
  | ClientClose ws =>
      match handlersOf (sys w) ws, readyStateOf (sys w) ws with
      | ClientHandlers clientId room, (OPEN | CLOSING) =>
          onClientClose ws clientId room (set_state ws CLOSED w)
      | _, _ => w
      end
  | YahooOpen ws =>
      match handlersOf (sys w) ws, readyStateOf (sys w) ws with
      | YahooHandlers this, CONNECTING =>
          do_on this (onYahooOpen this) (set_state ws OPEN w)
      | _, _ => w
      end
  | YahooMessage ws data =>
      match handlersOf (sys w) ws, readyStateOf (sys w) ws with
      | YahooHandlers this, (OPEN | CLOSING) =>
          do_on this (onYahooMessage data) w
      | _, _ => w
      end
  | YahooClose ws code reason =>
      match handlersOf (sys w) ws, readyStateOf (sys w) ws with
      | YahooHandlers this, (CONNECTING | OPEN | CLOSING) =>
          do_on this (onYahooClose code reason) (set_state ws CLOSED w)
      | _, _ => w
      end
  | YahooError ws error_message =>
      match handlersOf (sys w) ws, readyStateOf (sys w) ws with
      | YahooHandlers this, (CONNECTING | OPEN | CLOSING) =>
          do_on this (onYahooError error_message) (set_state ws CLOSING w)
      | _, _ => w
      end
  | TimerFire t =>
      match find_timer t (timers (sys w)) with
      | Some e =>
          if due e <=? now (sys w) then
            match kind e with
            | CleanupTimer =>
                retire (owner e)
                  (set_sys (set_timers (remove_timer t (timers (sys w)))
                                       (sys w)) w)
            | HeartbeatTimer =>
                do_on (owner e) heartbeatTick
                  (set_sys (set_timers (rearm t 30000 (timers (sys w)))
                                       (sys w)) w)
            end
          else w
      | None => w
      end
  | Elapse ms => set_sys (set_now (now (sys w) + Z.of_nat ms) (sys w)) w
  | DeleteRoom roomId => deleteRoom roomId w
  end.

Definition run (w : World) (es : list Event) : World := fold_left step es w.

End RoomMethods.

(** ** Observations on the log *)

(** What a run from [s] to [s'] added to the log. *)
Definition new_entries (s s' : Sys) : list Entry :=
  skipn (List.length (log s)) (log s').

Definition new_calls (s s' : Sys) : list Call := map call (new_entries s s').

Definition calls (w : World) : list Call := map call (log (sys w)).

(** The entry of [broadcastToClients] for one client. *)
Definition sent_to (m : ProxyMessage.t) (r : Room) (c : WebSocket * ClientInfo)
  : Entry :=
  {| call := WsSend (fst c) (Json m); caller := Some r |}.

(** The clients of a Room whose socket is open, in insertion order. *)
Definition open_clients (r : Room) (s : Sys) : list (WebSocket * ClientInfo) :=
  filter (fun c => is_OPEN s (fst c)) (clients r).

Definition json_of (e : Entry) : option (WebSocket * ProxyMessage.t) :=
  match call e with
  | WsSend ws (Json m) => Some (ws, m)
  | _ => None
  end.

(** The proxy messages sent, with the socket each was sent to. *)
Fixpoint json_sends (l : list Entry) : list (WebSocket * ProxyMessage.t) :=
  match l with
  | [] => []
  | e :: l' =>
      match json_of e with
      | Some x => x :: json_sends l'
      | None => json_sends l'
      end
  end.

Definition text_of (e : Entry) : option (WebSocket * string) :=
  match call e with
  | WsSend ws (Text t) => Some (ws, t)
  | _ => None
  end.

(** The text frames sent, with the socket each was sent to. *)
Fixpoint text_sends (l : list Entry) : list (WebSocket * string) :=
  match l with
  | [] => []
  | e :: l' =>
      match text_of e with
      | Some x => x :: text_sends l'
      | None => text_sends l'
      end
  end.

(** One message to every open client. *)
Definition fan_out (m : ProxyMessage.t) (r : Room) (s : Sys)
  : list (WebSocket * ProxyMessage.t) :=
  map (fun c => (fst c, m)) (open_clients r s).

(** ** Scenarios

    Concrete inputs on which the theorems below are exercised: the flows
    S1 to S6 of the specification. *)

Definition any_url (url : string) : bool := true.

(** A library that makes a frame of every value. *)
Definition any_data (data : option JsonValue) : bool := true.

Definition demo_config : Config :=
  {| config_maxReconnectAttempts := None; config_connectionTimeout := None |}.

(** [?leagueId=12345&draftPosition=1&websocketUrl=wss://u&platformUserId=user-a] *)
Definition query_a : Query :=
  {| query_leagueId := Some "12345"; query_draftPosition := Some "1";
     query_websocketUrl := Some "wss://u";
     query_platformUserId := Some "user-a" |}.

(** [?leagueId=12345&draftPosition=3&websocketUrl=wss://u&platformUserId=user-b] *)
Definition query_b : Query :=
  {| query_leagueId := Some "12345"; query_draftPosition := Some "3";
     query_websocketUrl := Some "wss://u";
     query_platformUserId := Some "user-b" |}.

(** The same league with another upstream URL. *)
Definition query_c : Query :=
  {| query_leagueId := Some "12345"; query_draftPosition := Some "3";
     query_websocketUrl := Some "wss://v";
     query_platformUserId := Some "user-b" |}.

Definition demo_run (es : list Event) : World :=
  run any_url any_data demo_config empty_world es.

(** The Room behind a reference, for reading a scenario. *)
Definition room_at (w : World) (this : RoomRef) : Room :=
  nth this (heap w) (new_Room "" 0 "" "" 0 0 0).

(** The first client has connected; the upstream socket (1) is connecting. *)
Definition world_dialing : World := demo_run [Connection query_a "c1"].

(** The upstream socket has opened and the join frame is out. *)
Definition world_open : World :=
  demo_run [Connection query_a "c1"; YahooOpen 1%nat].


(** Two clients join before the upstream socket has opened. *)
Definition world_two_quick_joins : World :=
  demo_run [Connection query_a "c1"; Connection query_b "c2"].

(** A reconnect request for another position, and one for another
    league. *)
Definition reconnect_5 : JsonValue := ReconnectData "12345" 5.

Definition reconnect_other_league : JsonValue := ReconnectData "99999" 1.

(** The frame that carries a value whose numbers are finite: the text
    [JSON.stringify] gives, on which [JSON.parse] returns the value. *)
Definition frame_of (jsonMessage : JsonValue) : ClientFrame :=
  Parsed (JSON_stringify jsonMessage) jsonMessage.

(** [{type: "yahoo_reconnect", data}] and [{type: "yahoo_message", data}] *)
Definition JsonYahooReconnect (data : JsonValue) : ClientFrame :=
  frame_of (JObject [("type", JString "yahoo_reconnect"); ("data", data)]).

Definition JsonYahooMessage (data : JsonValue) : ClientFrame :=
  frame_of (JObject [("type", JString "yahoo_message"); ("data", data)]).

(** A client connects, a second one connects for the same league with
    another upstream URL (the Room is replaced), the first client leaves
    and two seconds pass. *)
Definition world_replaced : World :=
  demo_run [Connection query_a "c1"; Connection query_c "c2";
            ClientClose 0%nat; Elapse 2000].


(** ** The handshake rule in the words of the specification

    The specification asks for a [draftPosition] that is an integer at
    least 1.  [decimal_integer] reads a text that is an integer and nothing
    else: an optional sign and decimal digits. *)

Fixpoint all_digits (s : string) : bool :=
  match s with
  | EmptyString => true
  | String c s' => (is_digit c && all_digits s')%bool
  end.

Definition decimal_integer (s : string) : option Z :=
  let (sign, t) := strip_sign s in
  match t with
  | EmptyString => None
  | String _ _ =>
      if all_digits t
      then match read_digits 10 None t with
           | Some n => Some (sign * n)
           | None => None
           end
      else None
  end.

Definition spec_draftPosition_ok (dp : option string) : bool :=
  match dp with
  | Some s =>
      match decimal_integer s with
      | Some n => 1 <=? n
      | None => false
      end
  | None => false
  end.

(** Rejection as the specification states it: [leagueId] missing or
    empty, [websocketUrl] missing or empty, or [draftPosition] not an
    integer at least 1. *)
Definition spec_rejects (q : Query) : bool :=
  (negb (truthy_string (query_leagueId q))
   || negb (truthy_string (query_websocketUrl q))
   || negb (spec_draftPosition_ok (query_draftPosition q)))%bool.

(** Every entry of the registry refers to an allocated Room. *)
Definition registry_ok (w : World) : Prop :=
  forall lid room,
    map_get String.eqb lid (rooms w) = Some room ->
    (room < List.length (heap w))%nat.

(** [?leagueId=12345&draftPosition=-5&websocketUrl=wss://u] *)
Definition query_minus_5 : Query :=
  {| query_leagueId := Some "12345"; query_draftPosition := Some "-5";
     query_websocketUrl := Some "wss://u"; query_platformUserId := None |}.


(** The environment in which the acceptor calls [addClient] for the second
    client: the open world, with the new client's socket (2) in it. *)
Definition sys_second_client : Sys := sys_new_socket OPEN (sys world_open).

(** The first client has received a message from upstream. *)
Definition events_relayed : list Event :=
  [Connection query_a "c1"; YahooOpen 1%nat; YahooMessage 1%nat "hello"].

Definition world_relayed : World := demo_run events_relayed.


(** ** Retirement

    A Room that loses its last client starts a timer of 2000 ms; the
    callback of the timer retires the Room. *)

(** The timer [removeClient] starts. *)
Definition retirement_timer (this : RoomRef) (s : Sys) : Timer :=
  {| handle := nextTimer s; kind := CleanupTimer; owner := this;
     due := now s + 2000 |}.

(** The pending timers once the timer behind a handle is cleared. *)
Definition cancel (t : option Timeout) (l : list Timer) : list Timer :=
  match t with
  | Some t => remove_timer t l
  | None => l
  end.

(** What a method of Room [this] does to the timers, from [(r, s)] to
    [st]: the clock stands still; a timer that is pending afterwards was
    pending before or belongs to this Room, and if it is a new retirement
    timer it is due in 2000 ms, is the Room's [cleanupTimeout], and the
    Room has no client; a timer that stays pending and was the Room's
    [cleanupTimeout] while the Room had no client still is, and the Room
    still has none. *)
Definition timer_discipline (this : RoomRef) (r : Room) (s : Sys)
  (st : Room * Sys) : Prop :=
  now (snd st) = now s
  /\ (forall e',
        In e' (timers (snd st)) ->
        In e' (timers s)
        \/ (owner e' = this
            /\ (kind e' = CleanupTimer ->
                due e' = now s + 2000
                /\ cleanupTimeout (fst st) = Some (handle e')
                /\ clients (fst st) = [])))
  /\ (forall e,
        In e (timers s) -> In e (timers (snd st)) ->
        cleanupTimeout r = Some (handle e) -> clients r = [] ->
        cleanupTimeout (fst st) = Some (handle e) /\ clients (fst st) = []).

(** Every pending retirement timer is the [cleanupTimeout] of its Room,
    and that Room has no client. *)
Definition pending_ok (w : World) : Prop :=
  forall e,
    In e (timers (sys w)) -> kind e = CleanupTimer ->
    exists r,
      nth_error (heap w) (owner e) = Some r
      /\ cleanupTimeout r = Some (handle e)
      /\ clients r = [].

(** A retirement timer pending in [w'] was pending in [w] for the same
    Room and not due later then, or is not due before 2000 ms from [w]. *)
Definition timer_origin (w w' : World) (e' : Timer) : Prop :=
  (exists e,
      In e (timers (sys w)) /\ kind e = CleanupTimer
      /\ owner e = owner e' /\ due e <= due e')
  \/ now (sys w) + 2000 <= due e'.

(** A turn of the event loop in which no time passes. *)
Definition advances (w w' : World) : Prop :=
  pending_ok w'
  /\ now (sys w') = now (sys w)
  /\ (forall e',
        In e' (timers (sys w')) -> kind e' = CleanupTimer ->
        timer_origin w w' e').

Definition is_Elapse (ev : Event) : bool :=
  match ev with
  | Elapse _ => true
  | _ => false
  end.

(** Room [this] has had no client in any state of the run since a state
    that lies [ms] milliseconds or more before the deadline. *)
Definition empty_since (this : RoomRef) (ms : Z) (tr : list World)
  (deadline : Z) : Prop :=
  exists tr1 w0 tr2,
    tr = tr1 ++ w0 :: tr2
    /\ now (sys w0) + ms <= deadline
    /\ Forall (fun w => clients (room_at w this) = []) (w0 :: tr2).

Definition timers_waited (tr : list World) (w : World) : Prop :=
  forall e,
    In e (timers (sys w)) -> kind e = CleanupTimer ->
    empty_since (owner e) 2000 tr (due e).

(** A retired Room: not in the registry, without upstream link, without
    timers. *)
Definition retired (w : World) (this : RoomRef) : Prop :=
  (forall lid, map_get String.eqb lid (rooms w) <> Some this)
  /\ yahooWs (room_at w this) = None
  /\ (forall e, In e (timers (sys w)) -> owner e <> this).

Section Runs.
Variable validUrl : string -> bool.
Variable sendable : option JsonValue -> bool.
Variable config : Config.

(** The states a run goes through, from the first on. *)
Fixpoint trace (w : World) (es : list Event) : list World :=
  w :: match es with
       | [] => []
       | e :: es' => trace (step validUrl sendable config w e) es'
       end.

End Runs.

(** Scenario S4: the only client leaves and two seconds pass; the
    heartbeat timer is 0, the retirement timer 1. *)
Definition events_grace : list Event :=
  [Connection query_a "c1"; YahooOpen 1%nat; ClientClose 0%nat; Elapse 2000].

(** Force cleanup of a Room in use. *)
Definition events_forced : list Event :=
  [Connection query_a "c1"; YahooOpen 1%nat; DeleteRoom "12345"].


(** ** Closes in the log *)

(** Every close among the entries has code 1000. *)
Definition closes_with_1000 (l : list Entry) : Prop :=
  forall e ws code reason,
    In e l -> call e = WsClose ws code reason -> code = 1000.

(** The log has grown, by entries whose closes have code 1000. *)
Definition extends_log (s s' : Sys) : Prop :=
  exists new, log s' = log s ++ new /\ closes_with_1000 new.


(** ** The calls of a turn

    What the log may gain in a turn of the event loop, entry by entry.
    The Room in an entry is the Room as it was when it made the call. *)

(** The reasons with which a Room closes its upstream link. *)
Definition known_close (reason : string) : Prop :=
  reason = "New client joined - forcing reconnection"
  \/ reason = "Client-initiated reconnection"
  \/ reason = "No clients remaining in room"
  \/ reason = "Room cleanup".

(** A Room dials its own URL, sends text and data to and closes its own
    link, sends proxy messages to its own clients, and handles its own
    timers; the application handlers close client sockets and answer a
    failed reconnect. *)
Definition entry_ok (e : Entry) : Prop :=
  match caller e with
  | Some c =>
      match call e with
      | NewWebSocket ws url =>
          url = yahooWebSocketUrl c /\ isConnectingToYahoo c = true
      | WsSend ws (Text _) => yahooWs c = Some ws
      | WsSend ws (Data _) => yahooWs c = Some ws
      | WsSend ws (Json m) =>
          (exists info, In (ws, info) (clients c))
          /\ ProxyMessage.type m <> yahoo_max_reconnect_reached
      | WsClose ws code reason =>
          yahooWs c = Some ws /\ code = 1000 /\ known_close reason
      | SetTimeout t ms => ms = 2000 /\ clients c = []
      | ClearTimeout t => cleanupTimeout c = Some t
      | SetInterval t ms => ms = 30000
      | ClearInterval t => heartbeatInterval c = Some t
      end
  | None =>
      match call e with
      | WsClose ws code reason =>
          (code = 1008 /\ reason = missing_parameters)
          \/ (code = 1001 /\ reason = "Room force cleanup")
      | WsSend ws (Json m) => m = failed_to_reconnect
      | _ => False
      end
  end.

(** The log has grown, by entries that satisfy [P]. *)
Definition adds (P : Entry -> Prop) (s s' : Sys) : Prop :=
  exists new, log s' = log s ++ new /\ Forall P new.

Definition no_dial (e : Entry) : Prop :=
  forall ws url, call e <> NewWebSocket ws url.

(** The events in which a client asks for a connection upstream: a
    handshake, and a reconnect request. *)
Definition asks_to_dial (ev : Event) : bool :=
  match ev with
  | Connection _ _ => true
  | ClientMessage _ (Parsed _ jsonMessage) =>
      match clientRequest jsonMessage with
      | Reconnect _ => true
      | _ => false
      end
  | _ => false
  end.

(** The methods and the application call that run in the other turns add
    entries that satisfy [P]. *)
Definition quiet_methods_add (P : Entry -> Prop) : Prop :=
  (forall this r s, adds P s (snd (exec (onYahooOpen this) r s)))
  /\ (forall d r s, adds P s (snd (exec (onYahooMessage d) r s)))
  /\ (forall c x r s, adds P s (snd (exec (onYahooClose c x) r s)))
  /\ (forall m r s, adds P s (snd (exec (onYahooError m) r s)))
  /\ (forall r s, adds P s (snd (exec heartbeatTick r s)))
  /\ (forall sendable m r s,
        adds P s (snd (exec (sendToYahoo sendable m) r s)))
  /\ (forall this ws r s, adds P s (snd (exec (removeClient this ws) r s)))
  /\ (forall r s, adds P s (snd (exec cleanup r s)))
  /\ (forall r s, adds P s (snd (exec (disconnectFromYahoo ;; cleanup) r s)))
  /\ (forall ws,
        P {| call := WsClose ws 1001 "Room force cleanup"; caller := None |}).

(** ** The characters of the join frame *)

Fixpoint all_chars (p : ascii -> bool) (s : string) : bool :=
  match s with
  | EmptyString => true
  | String c s' => (p c && all_chars p s')%bool
  end.

(** What [encodeURIComponent] lets through: the unreserved characters, and
    the percent sign of its escapes. *)
Definition uri_safe (c : ascii) : bool :=
  (uri_unreserved c || Ascii.eqb c "%")%bool.

(** ** Further scenarios *)

(** Thirty seconds after the upstream link opened: the heartbeat timer (0)
    is due. *)
Definition world_beat : World :=
  demo_run ([Connection query_a "c1"; YahooOpen 1%nat]
            ++ repeat (Elapse 3000) 10).

(** The entry of the retirement timer the last client of scenario S4 starts
    by leaving. *)
Definition entry_retirement : Entry :=
  {| call := SetTimeout 1%nat 2000;
     caller := Some (set_clients [] (room_at world_open 0%nat)) |}.

(** ** The HTTP routes

    The routes answer with JSON; [res.json] answers with status 200 unless
    [res.status] was called. *)

Module Health.
Record t := {
  status : string;
  activeRooms : Z;
  totalClients : Z;
  rooms : list string
}.
End Health.

Inductive Body :=
| HealthBody (h : Health.t)
| ErrorBody (error : string)
| StatusBody (st : Status.t)
| RoomsBody (totalRooms : Z) (rooms : list Status.t)
| CleanedBody (message roomId : string).

Record Response := {
  statusCode : Z;
  json : Body
}.

Definition room_not_found : Response :=
  {| statusCode := 404; json := ErrorBody "Room not found" |}.

(** [GET /health] *)
Definition getHealth (w : World) : Response :=
  {| statusCode := 200;
     json :=
       HealthBody
         {| Health.status := "healthy";
            Health.activeRooms := Z.of_nat (List.length (rooms w));
            Health.totalClients := Z.of_nat (List.length (clientConnections w));
            Health.rooms := map fst (rooms w) |} |}.

(** [GET /rooms/:roomId/status] *)
Definition getRoomStatus (roomId : string) (w : World) : Response :=
  match map_get String.eqb roomId (rooms w) with
  | None => room_not_found
  | Some room =>
      {| statusCode := 200;
         json := StatusBody (getStatus (room_at w room) (sys w)) |}
  end.

(** [GET /rooms] *)
Definition getRooms (w : World) : Response :=
  {| statusCode := 200;
     json :=
       RoomsBody (Z.of_nat (List.length (rooms w)))
         (map (fun kv => getStatus (room_at w (snd kv)) (sys w)) (rooms w)) |}.

(** [DELETE /rooms/:roomId]: the answer, and the state [deleteRoom] leaves. *)
Definition deleteRoomRoute (roomId : string) (w : World) : Response * World :=
  match map_get String.eqb roomId (rooms w) with
  | None => (room_not_found, w)
  | Some _ =>
      ({| statusCode := 200;
          json :=
            CleanedBody ("Room " ++ roomId ++ " has been cleaned up") roomId |},
       deleteRoom roomId w)
  end.

(** ** Shutdown

    [wss.clients] holds the sockets the server accepted, until their
    [close] event; the upstream sockets are not among them.  ([this.wss]
    is set once the server is set up; before that no socket is accepted.)
    [wss.close()] stops the server from accepting; it makes no call on a
    socket that is open, none being open any more when it is called. *)

Definition in_wss_clients (k : Socket) : bool :=
  match handlers k with
  | YahooHandlers _ => false
  | _ => negb (ReadyState_eqb (readyState k) CLOSED)
  end.

Definition wss_clients (s : Sys) : list WebSocket :=
  filter (fun ws =>
            match nth_error (sockets s) ws with
            | Some k => in_wss_clients k
            | None => false
            end)
         (seq 0 (List.length (sockets s))).

(** [forEach(ws => { if (ws.readyState === OPEN) ws.close(code, reason) })]
    over sockets. *)
Fixpoint close_each (code : Z) (reason : string) (l : list WebSocket)
  (s : Sys) : Sys :=
  match l with
  | [] => s
  | ws :: l' =>
      close_each code reason l'
        (if is_OPEN s ws then sys_close ws code reason None s else s)
  end.

Definition close_all (l : list WebSocket) (s : Sys) : Sys :=
  close_each 1001 "Server shutdown" l s.

(** [rooms.forEach(room => room.cleanup())] *)
Definition cleanup_all (l : list (string * RoomRef)) (w : World) : World :=
  fold_left (fun w kv => do_on (snd kv) cleanup w) l w.

(** [shutdown] *)
Definition shutdown (w : World) : World :=
  let w := set_sys (close_all (wss_clients (sys w)) (sys w)) w in
  let w := cleanup_all (rooms w) w in
  set_clientConnections [] (set_rooms [] w).

(** A turn of the process: the event loop handles an event, or [shutdown]
    runs. *)
Inductive Turn :=
| Handles (ev : Event)
| Shutdown.

Definition turn (validUrl : string -> bool)
  (sendable : option JsonValue -> bool) (config : Config) (w : World)
  (t : Turn) : World :=
  match t with
  | Handles ev => step validUrl sendable config w ev
  | Shutdown => shutdown w
  end.

(** The state of a socket once [close] has been called on it. *)
Definition closing_state (v : ReadyState) : ReadyState :=
  match v with
  | CLOSED => CLOSED
  | _ => CLOSING
  end.

(** From [s] to [s'] handlers are as they were and sockets have at most
    been closed. *)
Definition settles (s s' : Sys) : Prop :=
  (forall ws, handlersOf s' ws = handlersOf s ws)
  /\ (forall ws,
        readyStateOf s' ws = readyStateOf s ws
        \/ readyStateOf s' ws = closing_state (readyStateOf s ws)).

(** A Room that holds nothing. *)
Definition released (r : Room) : Prop :=
  yahooWs r = None /\ clients r = [] /\ heartbeatInterval r = None
  /\ cleanupTimeout r = None.

(** An entry of [cleanup]: the Room clears a timer it holds or closes the
    link it holds. *)
Definition cleanup_entry (e : Entry) : Prop :=
  exists c,
    caller e = Some c
    /\ match call e with
       | ClearInterval t => heartbeatInterval c = Some t
       | ClearTimeout t => cleanupTimeout c = Some t
       | WsClose l code reason =>
           yahooWs c = Some l /\ code = 1000 /\ reason = "Room cleanup"
       | _ => False
       end.

(** An entry of a loop that closes sockets: the application closes a socket
    of the list that was open in [s]. *)
Definition close_entry (code : Z) (reason : string) (l : list WebSocket)
  (s : Sys) (e : Entry) : Prop :=
  caller e = None
  /\ exists ws,
       call e = WsClose ws code reason /\ In ws l /\ is_OPEN s ws = true.

(** ** Configuration ([src/src/config.ts])

    [initConfig] reads the environment of the process. *)

(** [parseInt(s, 10)]: no hexadecimal prefix is looked for. *)
Definition parseInt10 (s : string) : Number :=
  let (sign, s1) := strip_sign (trimStart s) in
  match read_digits 10 None s1 with
  | Some n => round_to_double (sign * n)
  | None => NaN
  end.

Definition isNaN (n : Number) : bool :=
  match n with
  | NaN => true
  | _ => false
  end.

(** [a < b] on numbers: false when one of them is NaN. *)
Definition Number_ltb (a b : Number) : bool :=
  match a, b with
  | Finite x, Finite y => x <? y
  | Finite _, Infinity negative => negb negative
  | Infinity negative, Finite _ => negative
  | Infinity x, Infinity y => (x && negb y)%bool
  | _, _ => false
  end.

(** [process.env]: a variable that is not set is [undefined]. *)
Definition ProcessEnv : Type := string -> option string.

(** [interface Config] of [config.ts]. *)
Module ServerConfig.
Record t := {
  env : string;
  port : Number;
  shutdownTimeoutMs : Number;
  maxReconnectAttempts : Number;
  heartbeatInterval : Number;
  connectionTimeout : Number;
  logLevel : string
}.
End ServerConfig.

Definition initConfig (e : ProcessEnv) : Result ServerConfig.t :=
  let env := or_string (e "NODE_ENV") "development" in
  let port := parseInt10 (or_string (e "PORT") "3001") in
  let shutdownTimeoutMs :=
    parseInt10 (or_string (e "SHUTDOWN_TIMEOUT_MS") "30000") in
  let maxReconnectAttempts :=
    parseInt10 (or_string (e "MAX_RECONNECT_ATTEMPTS") "5") in
  let heartbeatInterval :=
    parseInt10 (or_string (e "HEARTBEAT_INTERVAL") "30000") in
  let connectionTimeout :=
    parseInt10 (or_string (e "CONNECTION_TIMEOUT") "10000") in
  let logLevel := or_string (e "LOG_LEVEL") "info" in
  let config :=
    {| ServerConfig.env := env;
       ServerConfig.port := port;
       ServerConfig.shutdownTimeoutMs := shutdownTimeoutMs;
       ServerConfig.maxReconnectAttempts := maxReconnectAttempts;
       ServerConfig.heartbeatInterval := heartbeatInterval;
       ServerConfig.connectionTimeout := connectionTimeout;
       ServerConfig.logLevel := logLevel |} in
  if (isNaN port || Number_ltb port 1 || Number_ltb 65535 port)%bool then
    Throw ("Invalid port: " ++ Number_toString port)
  else if (isNaN shutdownTimeoutMs || Number_ltb shutdownTimeoutMs 0)%bool then
    Throw ("Invalid shutdown timeout: " ++ Number_toString shutdownTimeoutMs)
  else Ok config.

(** The configuration as [initApp] receives it ([index.ts] hands the object
    over); the application reads two of its fields. *)
Definition app_config (c : ServerConfig.t) : Config :=
  {| config_maxReconnectAttempts := Some (ServerConfig.maxReconnectAttempts c);
     config_connectionTimeout := Some (ServerConfig.connectionTimeout c) |}.

(** An environment in which the variables of a list have a value. *)
Fixpoint env_of (l : list (string * string)) : ProcessEnv :=
  fun name =>
    match l with
    | [] => None
    | (k, v) :: l' => if String.eqb name k then Some v else env_of l' name
    end.

(** MAX_RECONNECT_ATTEMPTS=0, and the configuration read from it. *)
Definition env_zero_attempts : ProcessEnv :=
  env_of [("MAX_RECONNECT_ATTEMPTS", "0")].

Definition config_zero_attempts : ServerConfig.t :=
  {| ServerConfig.env := "development";
     ServerConfig.port := 3001;
     ServerConfig.shutdownTimeoutMs := 30000;
     ServerConfig.maxReconnectAttempts := 0;
     ServerConfig.heartbeatInterval := 30000;
     ServerConfig.connectionTimeout := 10000;
     ServerConfig.logLevel := "info" |}.

(** ** The logger ([SimpleLogger])

    A value handed to the logger is a string, or a value of which
    [JSON.stringify] gives the text. *)

Inductive LogValue :=
| LogString (s : string)
| LogJson (text : string).

(** [typeof v === 'string' ? v : JSON.stringify(v)] *)
Definition log_text (v : LogValue) : string :=
  match v with
  | LogString s => s
  | LogJson text => text
  end.

Record SimpleLogger := {
  logLevel : string;
  isDevelopment : bool
}.

Definition levels : list string := ["error"; "warn"; "info"; "debug"].

(** [Array.prototype.indexOf]: -1 when the value is not in the array. *)
Fixpoint indexOf_from (i : Z) (x : string) (l : list string) : Z :=
  match l with
  | [] => -1
  | y :: l' => if String.eqb y x then i else indexOf_from (i + 1) x l'
  end.

Definition indexOf (x : string) (l : list string) : Z := indexOf_from 0 x l.

Definition shouldLog (this : SimpleLogger) (level : string) : bool :=
  indexOf level levels <=? indexOf (logLevel this) levels.

(** [toUpperCase], on the ASCII letters (the level names are ASCII). *)
Definition upper_char (c : ascii) : ascii :=
  if in_range 97 122 c then ascii_of_N (N_of_ascii c - 32) else c.

Fixpoint toUpperCase (s : string) : string :=
  match s with
  | EmptyString => EmptyString
  | String c s' => String (upper_char c) (toUpperCase s')
  end.

Fixpoint spaces (n : nat) : string :=
  match n with
  | O => EmptyString
  | S n' => String " " (spaces n')
  end.

(** [s.padEnd(n)] *)
Definition padEnd (n : nat) (s : string) : string :=
  (s ++ spaces (n - String.length s))%string.

(** [l.join(sep)] *)
Fixpoint join (sep : string) (l : list string) : string :=
  match l with
  | [] => EmptyString
  | [x] => x
  | x :: l' => (x ++ sep ++ join sep l')%string
  end.

Definition esc : string := String (ascii_of_N 27) EmptyString.

(** [colors[level] || ''] *)
Definition color_of (level : string) : string :=
  if String.eqb level "error" then (esc ++ "[31m")%string
  else if String.eqb level "warn" then (esc ++ "[33m")%string
  else if String.eqb level "info" then (esc ++ "[36m")%string
  else if String.eqb level "debug" then (esc ++ "[90m")%string
  else EmptyString.

Definition reset : string := (esc ++ "[0m")%string.

(** [formatMessage]; [timestamp] is [new Date().toISOString()]. *)
Definition formatMessage (this : SimpleLogger) (timestamp level : string)
  (message : LogValue) (args : list LogValue) : string :=
  let levelStr := padEnd 5 (toUpperCase level) in
  let formattedMessage :=
    match args with
    | [] => log_text message
    | _ :: _ => (log_text message ++ " " ++ join " " (map log_text args))%string
    end in
  if isDevelopment this then
    (color_of level ++ "[" ++ timestamp ++ "] " ++ levelStr ++ reset ++ " "
     ++ formattedMessage)%string
  else
    ("{" ++ dquote ++ "timestamp" ++ dquote ++ ":"
     ++ JSON_stringify_string timestamp
     ++ "," ++ dquote ++ "level" ++ dquote ++ ":"
     ++ JSON_stringify_string (toUpperCase level)
     ++ "," ++ dquote ++ "message" ++ dquote ++ ":"
     ++ JSON_stringify_string formattedMessage ++ "}")%string.

(** The console methods the logger writes with. *)
Inductive Console := console_log | console_error | console_warn.

Definition log_with (c : Console) (level : string) (this : SimpleLogger)
  (timestamp : string) (message : LogValue) (args : list LogValue)
  : option (Console * string) :=
  if shouldLog this level
  then Some (c, formatMessage this timestamp level message args)
  else None.

(** [info], [error], [warn] and [debug]: what is written, if anything. *)
Definition logger_info := log_with console_log "info".
Definition logger_error := log_with console_error "error".
Definition logger_warn := log_with console_warn "warn".
Definition logger_debug := log_with console_log "debug".

(** [initLogging] *)
Definition initLogging (config : ServerConfig.t) : SimpleLogger :=
  {| logLevel := ServerConfig.logLevel config;
     isDevelopment := String.eqb (ServerConfig.env config) "development" |}.

(** A character that is not below U+0020 (not a C0 control character). *)
Definition printable (c : ascii) : bool := N.leb 32 (N_of_ascii c).

(** ** What the stores hold

    The handlers of a socket and its state, read off the list of sockets;
    [handlersOf] and [readyStateOf] are these on the sockets of a [Sys]. *)

Definition hand (l : list Socket) (ws : WebSocket) : Handlers :=
  match nth_error l ws with
  | Some k => handlers k
  | None => NoHandlers
  end.

Definition ready (l : list Socket) (ws : WebSocket) : ReadyState :=
  match nth_error l ws with
  | Some k => readyState k
  | None => CLOSED
  end.

(** The sockets there were keep their handlers, and none of them leaves or
    enters [CLOSED]. *)
Definition keeps (l l' : list Socket) : Prop :=
  (List.length l <= List.length l')%nat
  /\ forall ws, (ws < List.length l)%nat ->
                hand l' ws = hand l ws
                /\ (ready l' ws = CLOSED <-> ready l ws = CLOSED).

(** What a method of the Room [this] does to the sockets: it keeps the ones
    there were, and each one it adds is a link of this Room. *)
Definition socks_evolve (this : RoomRef) (l l' : list Socket) : Prop :=
  keeps l l'
  /\ forall ws, (List.length l <= ws)%nat -> (ws < List.length l')%nat ->
                hand l' ws = YahooHandlers this /\ ready l' ws <> CLOSED.

(** What a method of the Room [this] does to the Room: the identity stays,
    the link is the one there was, none, or a socket the method made, and
    the clients are among the ones there were and [extra]. *)
Definition footprint (this : RoomRef) (extra : list (WebSocket * ClientInfo))
  (r : Room) (s : Sys) (st : Room * Sys) : Prop :=
  id (fst st) = id r /\ leagueId (fst st) = leagueId r
  /\ socks_evolve this (sockets s) (sockets (snd st))
  /\ (yahooWs (fst st) = yahooWs r \/ yahooWs (fst st) = None
      \/ exists l, yahooWs (fst st) = Some l
                   /\ (List.length (sockets s) <= l)%nat
                   /\ (l < List.length (sockets (snd st)))%nat)
  /\ (forall c, In c (clients (fst st)) -> In c (clients r) \/ In c extra).

(** The registry and the Rooms: an entry of [rooms] has for key the id of
    the Room it refers to, the league of a Room is its id, a client of a Room is a
    socket whose session handlers refer to this Room (but for the clients
    [extra] of the Room [this]), and the link of a Room is a socket whose
    handlers refer to this Room. *)
Definition structure_ok_but (extra : list (WebSocket * ClientInfo))
  (this : RoomRef) (w : World) : Prop :=
  (forall lid i, In (lid, i) (rooms w) ->
                 exists r, nth_error (heap w) i = Some r /\ id r = lid)
  /\ (forall i r, nth_error (heap w) i = Some r -> leagueId r = id r)
  /\ (forall i r ws info,
        nth_error (heap w) i = Some r -> In (ws, info) (clients r) ->
        handlersOf (sys w) ws = ClientHandlers (clientId info) i
        \/ (i = this /\ In (ws, info) extra))
  /\ (forall i r l,
        nth_error (heap w) i = Some r -> yahooWs r = Some l ->
        handlersOf (sys w) l = YahooHandlers i).

Definition structure_ok (w : World) : Prop := structure_ok_but [] O w.

(** The table of sessions: an entry refers to a socket that has the
    handlers of this session and is not closed. *)
Definition sessions_ok (w : World) : Prop :=
  forall cid ws i,
    In (cid, (ws, i)) (clientConnections w) ->
    handlersOf (sys w) ws = ClientHandlers cid i
    /\ readyStateOf (sys w) ws <> CLOSED.

Definition consistent (w : World) : Prop := structure_ok w /\ sessions_ok w.

(** The ids [GET /health] lists, and the statuses [GET /rooms] lists. *)
Definition listed_rooms (w : World) : list string :=
  match json (getHealth w) with
  | HealthBody h => Health.rooms h
  | _ => []
  end.

Definition listed_statuses (w : World) : list Status.t :=
  match json (getRooms w) with
  | RoomsBody _ l => l
  | _ => []
  end.

(** [?leagueId=777&draftPosition=2&websocketUrl=wss://u&platformUserId=user-d] *)
Definition query_d : Query :=
  {| query_leagueId := Some "777"; query_draftPosition := Some "2";
     query_websocketUrl := Some "wss://u";
     query_platformUserId := Some "user-d" |}.

(** Two leagues, one client each: sockets 0 and 2 are the clients, 1 and 3
    the upstream links of the Rooms 0 and 1. *)
Definition events_two_leagues : list Event :=
  [Connection query_a "c1"; Connection query_d "c2"].

Definition world_two_leagues : World :=
  run any_url any_data demo_config empty_world events_two_leagues.

(** ** Intervals nobody holds

    What a method of a Room does to the timers: handles are given out in
    increasing order; a timer that is no longer pending was the Room's
    [heartbeatInterval] or [cleanupTimeout]; a timer that is pending and
    was not has a new handle; and a handle in one of the two fields was
    there or is new. *)
Definition timer_footprint (r : Room) (s : Sys) (st : Room * Sys) : Prop :=
  (nextTimer s <= nextTimer (snd st))%nat
  /\ (forall e, In e (timers s) ->
                In e (timers (snd st))
                \/ heartbeatInterval r = Some (handle e)
                \/ cleanupTimeout r = Some (handle e))
  /\ (forall e, In e (timers (snd st)) ->
                In e (timers s) \/ (nextTimer s <= handle e)%nat)
  /\ (forall t, heartbeatInterval (fst st) = Some t ->
                heartbeatInterval r = Some t \/ (nextTimer s <= t)%nat)
  /\ (forall t, cleanupTimeout (fst st) = Some t ->
                cleanupTimeout r = Some t \/ (nextTimer s <= t)%nat).

(** A heartbeat interval is pending under the handle [t], which was given
    out before, and no Room holds [t]. *)
Definition forgotten (w : World) (t : Timeout) : Prop :=
  (exists e, In e (timers (sys w)) /\ handle e = t)
  /\ (forall e, In e (timers (sys w)) -> handle e = t ->
                kind e = HeartbeatTimer)
  /\ (t < nextTimer (sys w))%nat
  /\ (forall i r, nth_error (heap w) i = Some r ->
                  heartbeatInterval r <> Some t /\ cleanupTimeout r <> Some t).

(** A second client joins while the link (socket 1) is open: the Room
    closes the link and dials again (socket 3), and the new link opens
    before the close event of the old one arrives. *)
Definition events_overlap : list Event :=
  [Connection query_a "c1"; YahooOpen 1%nat; Connection query_b "c2";
   YahooOpen 3%nat].

(** Then the old link closes, both clients leave, and two seconds later the
    Room is retired. *)
Definition events_after_overlap : list Event :=
  [YahooClose 1%nat 1000 ""; ClientClose 0%nat; ClientClose 2%nat;
   Elapse 2000; TimerFire 2%nat].

Definition world_overlap : World :=
  run any_url any_data demo_config empty_world events_overlap.

(** A link that is dialed and then abandoned.  The link (socket 1) is
    open; the client asks for a reconnection, and the Room closes socket 1
    and dials socket 2; the [close] event of socket 1 arrives, and its
    handler clears [isConnectingToYahoo]; the client leaves; another client
    joins (socket 3): the Room has no client and its link is not open, so it
    closes nothing, and it dials again (socket 4).  Socket 2 is still
    connecting, with the handlers of the Room on it. *)
Definition reconnect_1 : JsonValue := ReconnectData "12345" 1.

Definition events_abandoned_link : list Event :=
  [Connection query_a "c1"; YahooOpen 1%nat;
   ClientMessage 0%nat (JsonYahooReconnect reconnect_1);
   YahooClose 1%nat 1000 "Client-initiated reconnection";
   ClientClose 0%nat; Connection query_b "c3"].

Definition world_abandoned_link : World :=
  run any_url any_data demo_config empty_world events_abandoned_link.

(** ** The identity of a Room

    What a Room is created with and keeps: its id, its league, its upstream
    URL and its platform user. *)
Definition same_identity (r r' : Room) : Prop :=
  id r' = id r /\ leagueId r' = leagueId r
  /\ yahooWebSocketUrl r' = yahooWebSocketUrl r
  /\ platformUserId r' = platformUserId r.

(** What a method does to the identity of the Room and to the text of its
    position. *)
Definition keeps_identity (r : Room) (st : Room * Sys) : Prop :=
  same_identity r (fst st)
  /\ (printed (draftPosition r) -> printed (draftPosition (fst st))).

(** Every Room holds, beside its position, the text a template literal
    makes of it. *)
Definition positions_printed (w : World) : Prop :=
  forall i r, nth_error (heap w) i = Some r -> printed (draftPosition r).

(** From [w] to [w'] every Room is still there with its identity, and the
    positions are still printed. *)
Definition evolves (w w' : World) : Prop :=
  (forall i r, nth_error (heap w) i = Some r ->
               exists r', nth_error (heap w') i = Some r'
                          /\ same_identity r r')
  /\ (positions_printed w -> positions_printed w').


(** * Properties *)

(** ** Basic facts *)

Lemma skipn_length_app {A : Type} (l l' : list A) :
  skipn (List.length l) (l ++ l') = l'.
Proof. induction l; simpl; auto. Qed.

Lemma set_log_same (s : Sys) : set_log (log s) s = s.
Proof. destruct s; reflexivity. Qed.

Lemma new_entries_app (s s' : Sys) (l : list Entry) :
  log s' = log s ++ l -> new_entries s s' = l.
Proof. intros H. unfold new_entries. rewrite H. apply skipn_length_app. Qed.

Lemma json_sends_app (l l' : list Entry) :
  json_sends (l ++ l') = json_sends l ++ json_sends l'.
Proof.
  induction l as [|e l IH]; simpl; auto.
  destruct (json_of e); simpl; rewrite IH; reflexivity.
Qed.

Lemma text_sends_app (l l' : list Entry) :
  text_sends (l ++ l') = text_sends l ++ text_sends l'.
Proof.
  induction l as [|e l IH]; simpl; auto.
  destruct (text_of e); simpl; rewrite IH; reflexivity.
Qed.

Lemma json_sends_sent_to (m : ProxyMessage.t) (r : Room)
  (cs : list (WebSocket * ClientInfo)) :
  json_sends (map (sent_to m r) cs) = map (fun c => (fst c, m)) cs.
Proof. induction cs as [|c cs IH]; simpl; [|rewrite IH]; reflexivity. Qed.

Lemma text_sends_sent_to (m : ProxyMessage.t) (r : Room)
  (cs : list (WebSocket * ClientInfo)) :
  text_sends (map (sent_to m r) cs) = [].
Proof. induction cs as [|c cs IH]; simpl; auto. Qed.

Lemma open_clients_eq (r r' : Room) (s s' : Sys) :
  clients r' = clients r -> sockets s' = sockets s ->
  open_clients r' s' = open_clients r s.
Proof.
  intros Hc Hs. unfold open_clients, is_OPEN, readyStateOf.
  rewrite Hc, Hs. reflexivity.
Qed.

(** ** Broadcasts *)

Lemma broadcast_to_run (m : ProxyMessage.t)
  (cs : list (WebSocket * ClientInfo)) :
  forall (r : Room) (s : Sys),
    broadcast_to cs m (r, s)
    = (tt, (r, set_log (log s ++ map (sent_to m r)
                                     (filter (fun c => is_OPEN s (fst c)) cs))
                       s)).
Proof.
  induction cs as [|[ws info] cs IH]; intros r s; simpl.
  - rewrite app_nil_r, set_log_same. reflexivity.
  - unfold bind, the_sys, when; simpl.
    destruct (is_OPEN s ws) eqn:E; simpl.
    + unfold ws_send, emit; simpl. rewrite IH. simpl.
      unfold sys_log, set_log; simpl. rewrite <- app_assoc. reflexivity.
    + unfold ret. rewrite IH. reflexivity.
Qed.

Lemma broadcastToClients_run (m : ProxyMessage.t) (r : Room) (s : Sys) :
  broadcastToClients m (r, s)
  = (tt, (r, set_log (log s ++ map (sent_to m r) (open_clients r s)) s)).
Proof.
  unfold broadcastToClients, bind, this_room; simpl. apply broadcast_to_run.
Qed.

(** Unfold the plumbing of a method, leaving its branches. *)
Ltac run_room :=
  unfold exec, bind, ret, when, update, update_sys, this_room, the_sys,
    yahoo_open, ws_send_value, payload_of, ws_send, ws_close, ws_on, emit,
    new_WebSocket, start_timer, clearTimeout, clearInterval; simpl.

(** Read the new entries off a log of the form [log s ++ ...], and the
    messages among them. *)
Ltac read_log r s :=
  rewrite ?broadcastToClients_run; simpl;
  rewrite ?(open_clients_eq r _ s _) by reflexivity;
  unfold new_entries; simpl; rewrite <- ?app_assoc;
  rewrite skipn_length_app; simpl;
  rewrite ?json_sends_app, ?text_sends_app; simpl;
  rewrite ?json_sends_sent_to, ?text_sends_sent_to.

(** C10: every broadcast of a Room (the room-wide yahoo_connected,
    yahoo_message, yahoo_disconnected and yahoo_error frames) is sent to
    exactly those sessions of the client set whose socket is OPEN, in
    insertion order; the others are skipped, get nothing, and stay in the
    client set. *)
Theorem C10_broadcast_reaches_open_sockets_only
  (m : ProxyMessage.t) (r : Room) (s : Sys) :
    (let st := exec (broadcastToClients m) r s in
     fst st = r /\ sockets (snd st) = sockets s
     /\ new_entries s (snd st) = map (sent_to m r) (open_clients r s))
    /\ (forall this,
          let st := exec (onYahooOpen this) r s in
          clients (fst st) = clients r
          /\ json_sends (new_entries s (snd st))
             = fan_out (msg_connected "Connected to Yahoo WebSocket") r s)
    /\ (forall data,
          let st := exec (onYahooMessage data) r s in
          clients (fst st) = clients r
          /\ json_sends (new_entries s (snd st))
             = fan_out (msg_message data) r s)
    /\ (forall code reason,
          let st := exec (onYahooClose code reason) r s in
          clients (fst st) = clients r
          /\ json_sends (new_entries s (snd st))
             = fan_out (msg_disconnected code reason) r s)
    /\ (forall error_message,
          let st := exec (onYahooError error_message) r s in
          clients (fst st) = clients r
          /\ json_sends (new_entries s (snd st))
             = fan_out (msg_error error_message) r s).
Proof.
  split; [|split; [|split; [|split]]].
  - unfold exec. rewrite broadcastToClients_run. simpl.
    repeat split. apply new_entries_app. reflexivity.
  - intros this.
    unfold onYahooOpen, sendJoinMessageToYahoo, startHeartbeat. run_room.
    destruct (yahooWs r) as [ws|]; simpl;
      [destruct (yahooOpen _ _); simpl|]; run_room;
      rewrite broadcastToClients_run; simpl; (split; [reflexivity|]);
      read_log r s; reflexivity.
  - intros data. unfold onYahooMessage. run_room.
    rewrite broadcastToClients_run; simpl. split; [reflexivity|].
    read_log r s. reflexivity.
  - intros code reason. unfold onYahooClose, stopHeartbeat. run_room.
    destruct (heartbeatInterval r) as [t|]; simpl; run_room;
      rewrite broadcastToClients_run; simpl; (split; [reflexivity|]);
      read_log r s; reflexivity.
  - intros error_message. unfold onYahooError. run_room.
    rewrite broadcastToClients_run; simpl. split; [reflexivity|].
    read_log r s. reflexivity.
Qed.

(** ** Stores *)

Lemma nth_error_list_update_same {A : Type} (f : A -> A) (l : list A) :
  forall i, nth_error (list_update i f l) i = option_map f (nth_error l i).
Proof. induction l as [|x l IH]; intros [|i]; simpl; auto. Qed.

Lemma nth_error_list_update_other {A : Type} (f : A -> A) (l : list A) :
  forall i j, i <> j -> nth_error (list_update i f l) j = nth_error l j.
Proof.
  induction l as [|x l IH]; intros [|i] [|j] H; simpl; auto; congruence.
Qed.

Lemma length_list_update {A : Type} (f : A -> A) (l : list A) :
  forall i, List.length (list_update i f l) = List.length l.
Proof. induction l as [|x l IH]; intros [|i]; simpl; auto. Qed.

Lemma do_on_run {A : Type} (this : RoomRef) (m : M A) (w : World) (r : Room) :
  nth_error (heap w) this = Some r ->
  do_on this m w
  = set_sys (snd (exec m r (sys w)))
      (set_heap (list_update this (fun _ => fst (exec m r (sys w))) (heap w)) w).
Proof.
  intros H. unfold do_on, call_on, exec. rewrite H.
  destruct (m (r, sys w)) as [a st]. reflexivity.
Qed.

Lemma readyStateOf_known (s : Sys) (ws : WebSocket) (v : ReadyState) :
  readyStateOf s ws = v -> v <> CLOSED -> (ws < List.length (sockets s))%nat.
Proof.
  unfold readyStateOf. intros H Hv.
  destruct (nth_error (sockets s) ws) eqn:E.
  - apply nth_error_Some. congruence.
  - congruence.
Qed.

Lemma readyStateOf_set_state (w : World) (ws : WebSocket) (v : ReadyState) :
  (ws < List.length (sockets (sys w)))%nat ->
  readyStateOf (sys (set_state ws v w)) ws = v.
Proof.
  intros H. unfold readyStateOf, set_state; simpl.
  rewrite nth_error_list_update_same.
  destruct (nth_error (sockets (sys w)) ws) eqn:E; simpl; auto.
  apply nth_error_None in E. lia.
Qed.

(** ** The join frame *)

Arguments joinMessage : simpl never.
Arguments userAgent : simpl never.
Arguments Number_toString : simpl never.

Lemma joinMessage_eq (r r' : Room) :
  leagueId r' = leagueId r -> draftPosition r' = draftPosition r ->
  platformUserId r' = platformUserId r -> joinMessage r' = joinMessage r.
Proof.
  intros H1 H2 H3. unfold joinMessage, userAgent. rewrite H1, H2, H3.
  reflexivity.
Qed.

Lemma onYahooOpen_join (this : RoomRef) (r : Room) (s : Sys) (ws : WebSocket) :
  yahooWs r = Some ws -> is_OPEN s ws = true ->
  let st := exec (onYahooOpen this) r s in
  text_sends (new_entries s (snd st)) = [(ws, joinMessage r)]
  /\ hasJoined (fst st) = true
  /\ yahooWs (fst st) = Some ws
  /\ sockets (snd st) = sockets s.
Proof.
  intros Hws Hopen.
  unfold onYahooOpen, sendJoinMessageToYahoo, startHeartbeat. run_room.
  unfold yahooOpen; simpl. rewrite Hws, Hopen. simpl. run_room.
  rewrite broadcastToClients_run; simpl.
  repeat split; auto.
  read_log r s. rewrite (joinMessage_eq r) by reflexivity. reflexivity.
Qed.

Lemma sendJoin_gated (r : Room) (s : Sys) :
  hasJoined r = true -> exec sendJoinMessageToYahoo r s = (r, s).
Proof.
  intros H. unfold sendJoinMessageToYahoo. run_room. rewrite H.
  destruct (yahooWs r); simpl; rewrite ?andb_false_r; reflexivity.
Qed.

Section Upstream.
Variable validUrl : string -> bool.
Variable sendable : option JsonValue -> bool.
Variable config : Config.

(** The [open] event of the socket a Room holds as its upstream link. *)
Lemma step_YahooOpen_join
  (w : World) (ws : WebSocket) (this : RoomRef) (r : Room) :
  handlersOf (sys w) ws = YahooHandlers this ->
  readyStateOf (sys w) ws = CONNECTING ->
  nth_error (heap w) this = Some r ->
  yahooWs r = Some ws ->
  let w' := step validUrl sendable config w (YahooOpen ws) in
  text_sends (new_entries (sys w) (sys w')) = [(ws, joinMessage r)]
  /\ (exists r', nth_error (heap w') this = Some r'
                 /\ hasJoined r' = true
                 /\ exec sendJoinMessageToYahoo r' (sys w') = (r', sys w')).
Proof.
  intros Hh Hst Hr Hws. simpl. rewrite Hh, Hst.
  assert (Hlt : (ws < List.length (sockets (sys w)))%nat).
  { eapply readyStateOf_known; eauto. discriminate. }
  assert (Hopen : is_OPEN (sys (set_state ws OPEN w)) ws = true).
  { unfold is_OPEN. rewrite readyStateOf_set_state; auto. }
  rewrite (do_on_run this _ _ r) by exact Hr.
  destruct (onYahooOpen_join this r _ ws Hws Hopen) as (Ht & Hj & Hy & Hs).
  split.
  - simpl. exact Ht.
  - eexists. split; [|split].
    + simpl. rewrite nth_error_list_update_same.
      simpl in Hr. rewrite Hr. reflexivity.
    + exact Hj.
    + apply sendJoin_gated. exact Hj.
Qed.

End Upstream.

(** C5: one join frame per upstream open holds for the socket a Room holds
    as its link, and fails for a socket it has abandoned.  When the socket
    the Room holds as its upstream link opens, the Room sends exactly one
    text frame, the join frame
    [8|<leagueId>|<primaryDraftPosition>|<percent-encoded user-agent>|] with
    the user-agent [YahooFantasyProxy/1.0 (<platformUserId>)] encoded as a
    URI component (for league 12345, position 1 and user-a:
    [8|12345|1|YahooFantasyProxy%2F1.0%20(user-a)|]), and [hasJoined] is
    true afterwards.  But an upstream socket that opens is not always that
    link.  In [world_abandoned_link] socket 2 carries the [open] handler of
    Room 0 and is connecting, and the Room holds socket 4.  When socket 2
    opens, the handler clears [hasJoined] and calls
    [sendJoinMessageToYahoo], which looks at [this.yahooWs] (socket 4, not
    open) and sends nothing: the open is announced to the client with
    [yahoo_connected], and no join frame goes out on it.  When socket 4
    opens first and socket 2 after it, the join frame goes out twice, both
    times on socket 4: the gate [hasJoined], set by the first send, is
    cleared by the second open. *)
Theorem C5_open_of_an_abandoned_link_sends_no_join_frame :
  (forall (validUrl : string -> bool) (sendable : option JsonValue -> bool)
          (config : Config) (w : World) (ws : WebSocket) (this : RoomRef)
          (r : Room),
      handlersOf (sys w) ws = YahooHandlers this ->
      readyStateOf (sys w) ws = CONNECTING ->
      nth_error (heap w) this = Some r ->
      yahooWs r = Some ws ->
      let w' := step validUrl sendable config w (YahooOpen ws) in
      text_sends (new_entries (sys w) (sys w'))
      = [(ws, ("8|" ++ leagueId r ++ "|" ++ position_text (draftPosition r)
               ++ "|"
               ++ encodeURIComponent
                    ("YahooFantasyProxy/1.0 (" ++ platformUserId r ++ ")")
               ++ "|")%string)]
      /\ exists r', nth_error (heap w') this = Some r'
                    /\ hasJoined r' = true
                    /\ exec sendJoinMessageToYahoo r' (sys w') = (r', sys w'))
  /\ joinMessage (new_Room "12345" 1 "wss://u" "user-a" 5 10000 0)
     = "8|12345|1|YahooFantasyProxy%2F1.0%20(user-a)|"
  /\ (let w := world_abandoned_link in
      let w2 := step any_url any_data demo_config w (YahooOpen 2%nat) in
      let w42 :=
        run any_url any_data demo_config w [YahooOpen 4%nat; YahooOpen 2%nat] in
      (handlersOf (sys w) 2%nat = YahooHandlers 0%nat
       /\ readyStateOf (sys w) 2%nat = CONNECTING
       /\ yahooWs (room_at w 0%nat) = Some 4%nat
       /\ readyStateOf (sys w) 4%nat = CONNECTING)
      /\ (readyStateOf (sys w2) 2%nat = OPEN
          /\ text_sends (new_entries (sys w) (sys w2)) = []
          /\ json_sends (new_entries (sys w) (sys w2))
             = [(3%nat, msg_connected "Connected to Yahoo WebSocket")]
          /\ hasJoined (room_at w2 0%nat) = false)
      /\ text_sends (new_entries (sys w) (sys w42))
         = [(4%nat, "8|12345|1|YahooFantasyProxy%2F1.0%20(user-a)|");
            (4%nat, "8|12345|1|YahooFantasyProxy%2F1.0%20(user-a)|")]).
Proof.
  split; [|split].
  - intros validUrl sendable config w ws this r Hh Hst Hr Hws.
    exact (step_YahooOpen_join validUrl sendable config w ws this r
             Hh Hst Hr Hws).
  - vm_compute. reflexivity.
  - vm_compute. repeat split.
Qed.

(** ** The status snapshot *)

(** C9: [yahooConnected] of the status snapshot is a boolean only when the
    Room holds a socket; with no socket it is [null], not [false].  This
    is the value at a Room that holds no upstream link, here the Room
    registered for league 12345 after two clients joined before the first
    dial completed. *)
Theorem C9_yahooConnected_is_null_without_link :
  (forall (r : Room) (s : Sys),
      Status.yahooConnected (getStatus (set_yahooWs None r) s) = JsNull)
  /\ (forall (r : Room) (s : Sys) (ws : WebSocket),
         Status.yahooConnected (getStatus (set_yahooWs (Some ws) r) s)
         = JsBoolean (is_OPEN s ws))
  /\ map_get String.eqb "12345" (rooms world_two_quick_joins) = Some 0%nat
  /\ yahooWs (room_at world_two_quick_joins 0%nat) = None
  /\ Status.yahooConnected
       (getStatus (room_at world_two_quick_joins 0%nat)
                  (sys world_two_quick_joins)) = JsNull
  /\ JsNull <> JsBoolean false.
Proof.
  split; [intros; reflexivity|]. split; [intros; reflexivity|].
  vm_compute. repeat split. discriminate.
Qed.

(** ** Reconnect requests *)

Lemma list_update_same {A : Type} (l : list A) :
  forall (i : nat) (x : A),
    nth_error l i = Some x -> list_update i (fun _ => x) l = l.
Proof.
  induction l as [|y l IH]; intros [|i] x H; simpl in *; auto.
  - congruence.
  - rewrite IH; auto.
Qed.

Section Reconnect.
Variable validUrl : string -> bool.
Variable sendable : option JsonValue -> bool.
Variable config : Config.

Lemma strict_equal_string (a : option JsonValue) (s : string) :
  a <> Some (JString s) -> strict_equal a (Some (JString s)) = false.
Proof.
  intros H. destruct a as [[| | | |t| |]|]; simpl; auto.
  destruct (String.eqb_spec t s); congruence.
Qed.

Lemma reconnect_mismatch_throws (this : RoomRef) (data : JsonValue)
  (got : string) (r : Room) (s : Sys) :
  data <> JNull ->
  js_get data "leagueId" <> Some (JString (leagueId r)) ->
  template (js_get data "leagueId") = Some got ->
  handleClientReconnectRequest validUrl this (Some data) (r, s)
  = (Throw ("League ID mismatch: expected " ++ leagueId r ++ ", got "
            ++ got)%string, (r, s)).
Proof.
  intros Hn Hne Hg. apply strict_equal_string in Hne.
  unfold handleClientReconnectRequest. run_room.
  remember (js_get data "leagueId") as a eqn:Ea in *. clear Ea.
  destruct data; try contradiction; rewrite Hne; simpl; rewrite Hg;
    reflexivity.
Qed.


End Reconnect.


(** C8: a reconnect request for the Room's league and another position,
    arriving while the first dial is still in flight.  The Room stores the
    position and closes the connecting socket with code 1000 and
    "Client-initiated reconnection", but [connectToYahoo] returns at its
    guard, as [isConnectingToYahoo] is still set: no new link is dialed,
    the Room is left without a link, and after the error and close events
    of the aborted socket no join frame has been sent at all. *)
Theorem C8_reconnect_while_dialing_dials_nothing :
  let w := world_dialing in
  let w' :=
    step any_url any_data demo_config w
      (ClientMessage 0%nat (JsonYahooReconnect reconnect_5)) in
  let w'' :=
    run any_url any_data demo_config w'
      [YahooError 1%nat "WebSocket was closed before the connection was established";
       YahooClose 1%nat 1006 ""] in
  (leagueId (room_at w 0%nat) = "12345"
   /\ draftPosition (room_at w 0%nat) = 1
   /\ yahooWs (room_at w 0%nat) = Some 1%nat
   /\ readyStateOf (sys w) 1%nat = CONNECTING
   /\ isConnectingToYahoo (room_at w 0%nat) = true)
  /\ new_calls (sys w) (sys w')
     = [WsClose 1%nat 1000 "Client-initiated reconnection"]
  /\ draftPosition (room_at w' 0%nat) = 5
  /\ yahooWs (room_at w' 0%nat) = None
  /\ List.length (sockets (sys w'')) = List.length (sockets (sys w))
  /\ yahooWs (room_at w'' 0%nat) = None
  /\ text_sends (log (sys w'')) = [].
Proof.
  vm_compute. repeat split.
Qed.

(** ** The registry *)

(** C3: Room 0 was replaced in the registry by Room 1 (another upstream
    URL for the same league); when the retirement timer of Room 0 fires,
    the registry entry of the league is deleted by key, which removes
    Room 1: Room 1 still has its client, the session of that client is
    live and refers to it, and no retirement timer is pending. *)
Theorem C3_retirement_deletes_the_replacement_room :
  let w := world_replaced in
  let w' := step any_url any_data demo_config w (TimerFire 0%nat) in
  (map_get String.eqb "12345" (rooms w) = Some 1%nat
   /\ timers (sys w)
      = [{| handle := 0%nat; kind := CleanupTimer; owner := 0%nat;
            due := 2000 |}]
   /\ now (sys w) = 2000)
  /\ rooms w' = []
  /\ clients (room_at w' 1%nat)
     = [(2%nat, {| clientId := "c2"; clientDraftPosition := 3 |})]
  /\ clientConnections w' = [("c2", (2%nat, 1%nat))]
  /\ readyStateOf (sys w') 2%nat = OPEN
  /\ cleanupTimeout (room_at w' 1%nat) = None
  /\ timers (sys w') = [].
Proof.
  vm_compute. repeat split.
Qed.

(** The registry only ever holds references to allocated Rooms: every
    handler keeps [registry_ok], so it holds after every run of the event
    loop from the empty server. *)

Lemma map_get_delete {V : Type} (k k' : string) (m : list (string * V))
  (v : V) :
  map_get String.eqb k (map_delete String.eqb k' m) = Some v ->
  map_get String.eqb k m = Some v.
Proof.
  induction m as [|[k0 v0] m IH]; simpl; auto.
  destruct (String.eqb k' k0) eqn:E; simpl.
  - intros H. destruct (String.eqb k k0) eqn:E0; [|auto].
    apply String.eqb_eq in E, E0. subst k0 k'. exfalso.
    clear IH. induction m as [|[k1 v1] m IH]; simpl in H; [discriminate|].
    destruct (String.eqb k k1) eqn:E1; simpl in H; auto.
    rewrite E1 in H. auto.
  - destruct (String.eqb k k0); auto.
Qed.

Lemma map_get_set {V : Type} (k k' : string) (m : list (string * V))
  (v v' : V) :
  map_get String.eqb k (map_set String.eqb k' v' m) = Some v ->
  v = v' \/ map_get String.eqb k m = Some v.
Proof.
  induction m as [|[k0 v0] m IH]; simpl.
  - destruct (String.eqb k k'); [left; congruence|discriminate].
  - destruct (String.eqb k' k0) eqn:E; simpl.
    + apply String.eqb_eq in E. subst k0.
      destruct (String.eqb k k'); [left; congruence|auto].
    + destruct (String.eqb k k0); auto.
Qed.

Section Dispatch.
Variable validUrl : string -> bool.
Variable sendable : option JsonValue -> bool.

(** What holds before a client frame is handled holds after it, if the
    three things the handler may do keep it: a call of [sendToYahoo], a call
    of [handleClientReconnectRequest], and the answer to a failed
    reconnect. *)
Lemma onClientMessage_cases (P : World -> Prop) (ws : WebSocket)
  (room : RoomRef) (f : ClientFrame) (w : World) :
  P w ->
  (forall m w0, P w0 -> P (do_on room (sendToYahoo sendable m) w0)) ->
  (forall rd w0,
      P w0 -> P (do_on room (handleClientReconnectRequest validUrl room rd) w0)) ->
  (forall w0,
      P w0 ->
      P (set_sys (sys_log (WsSend ws (Json failed_to_reconnect)) None (sys w0))
           w0)) ->
  P (onClientMessage validUrl sendable ws room f w).
Proof.
  intros Hw Hs Hr Hl. unfold onClientMessage.
  destruct f as [message|message j]; [apply Hs, Hw|].
  destruct (clientRequest j) as [|data|rd|]; [apply Hs, Hw| | |exact Hw].
  - pose proof (Hs data w Hw) as H. unfold do_on in H.
    destruct (call_on room (sendToYahoo sendable data) w) as [[[|]|] w'];
      simpl in H; auto.
  - pose proof (Hr rd w Hw) as H. unfold do_on in H.
    destruct (call_on room (handleClientReconnectRequest validUrl room rd) w)
      as [[[|]|] w']; simpl in H; auto.
Qed.

End Dispatch.

Section Registry.
Variable validUrl : string -> bool.
Variable sendable : option JsonValue -> bool.
Variable config : Config.

Lemma do_on_registry_ok {A : Type} (this : RoomRef) (m : M A) (w : World) :
  registry_ok w -> registry_ok (do_on this m w).
Proof.
  intros Hok. unfold do_on, call_on.
  destruct (nth_error (heap w) this); [|exact Hok].
  destruct (m (r, sys w)) as [a st]. intros lid room H. simpl in *.
  rewrite length_list_update. exact (Hok lid room H).
Qed.

Lemma call_on_registry_ok {A : Type} (this : RoomRef) (m : M A) (w : World) :
  registry_ok w -> registry_ok (snd (call_on this m w)).
Proof. exact (do_on_registry_ok this m w). Qed.

Lemma set_sys_registry_ok (s : Sys) (w : World) :
  registry_ok w -> registry_ok (set_sys s w).
Proof. intros Hok. exact Hok. Qed.

Lemma delete_registry_ok (k : string) (w : World) :
  registry_ok w ->
  registry_ok (set_rooms (map_delete String.eqb k (rooms w)) w).
Proof.
  intros Hok lid room H. simpl in *. apply map_get_delete in H.
  exact (Hok lid room H).
Qed.

Lemma create_room_registry_ok (lid : string) (pos : Number) (url user : string)
  (w : World) :
  registry_ok w -> registry_ok (snd (create_room config lid pos url user w)).
Proof.
  intros Hok k room H. simpl in *. rewrite length_app. simpl.
  apply map_get_set in H. destruct H as [H|H]; [lia|].
  apply Hok in H. lia.
Qed.

Lemma get_or_create_registry_ok (lid : string) (pos : Number) (url user : string)
  (w : World) :
  registry_ok w -> registry_ok (snd (get_or_create config lid pos url user w)).
Proof.
  intros Hok. unfold get_or_create.
  destruct (map_get String.eqb lid (rooms w)) as [room|];
    [|apply create_room_registry_ok; exact Hok].
  destruct (nth_error (heap w) room) as [r|]; [|exact Hok].
  destruct (negb (yahooWebSocketUrl r =? url)%string); [|exact Hok].
  apply create_room_registry_ok, do_on_registry_ok, Hok.
Qed.

Lemma retire_registry_ok (this : RoomRef) (w : World) :
  registry_ok w -> registry_ok (retire this w).
Proof.
  intros Hok. unfold retire.
  pose proof (do_on_registry_ok this (disconnectFromYahoo ;; cleanup)%room w Hok)
    as H.
  destruct (nth_error _ this); [|exact H].
  apply delete_registry_ok, H.
Qed.

Lemma deleteRoom_registry_ok (roomId : string) (w : World) :
  registry_ok w -> registry_ok (deleteRoom roomId w).
Proof.
  intros Hok. unfold deleteRoom.
  destruct (map_get String.eqb roomId (rooms w)) as [room|]; [|exact Hok].
  destruct (nth_error (heap w) room) as [r|]; [|exact Hok].
  apply delete_registry_ok, do_on_registry_ok, Hok.
Qed.

Lemma onConnection_registry_ok (q : Query) (uuid : string) (w : World) :
  registry_ok w -> registry_ok (onConnection validUrl config q uuid w).
Proof.
  intros Hok. unfold onConnection. cbv zeta.
  destruct (rejects q); [exact Hok|].
  match goal with
  | |- context [get_or_create config ?l ?p ?u ?x ?w0] =>
      pose proof (get_or_create_registry_ok l p u x w0 Hok) as H;
      destruct (get_or_create config l p u x w0) as [room w1]
  end.
  simpl in H.
  match goal with
  | |- context [do_on room ?m w1] =>
      pose proof (do_on_registry_ok room m w1 H) as H1
  end.
  exact H1.
Qed.

Lemma step_registry_ok (w : World) (e : Event) :
  registry_ok w -> registry_ok (step validUrl sendable config w e).
Proof.
  intros Hok. destruct e; unfold step.
  - apply onConnection_registry_ok, Hok.
  - destruct (handlersOf (sys w) ws); try exact Hok.
    destruct (readyStateOf (sys w) ws); try exact Hok.
    all: apply onClientMessage_cases; auto using do_on_registry_ok.
  - destruct (handlersOf (sys w) ws); try exact Hok.
    destruct (readyStateOf (sys w) ws); try exact Hok.
    all: unfold onClientClose; cbv zeta;
      match goal with
      | |- context [do_on ?r ?m ?w0] =>
          exact (do_on_registry_ok r m w0 Hok)
      end.
  - destruct (handlersOf (sys w) ws); try exact Hok.
    destruct (readyStateOf (sys w) ws); try exact Hok.
    apply do_on_registry_ok. exact Hok.
  - destruct (handlersOf (sys w) ws); try exact Hok.
    destruct (readyStateOf (sys w) ws); try exact Hok.
    all: apply do_on_registry_ok; exact Hok.
  - destruct (handlersOf (sys w) ws); try exact Hok.
    destruct (readyStateOf (sys w) ws); try exact Hok.
    all: apply do_on_registry_ok; exact Hok.
  - destruct (handlersOf (sys w) ws); try exact Hok.
    destruct (readyStateOf (sys w) ws); try exact Hok.
    all: apply do_on_registry_ok; exact Hok.
  - destruct (find_timer t (timers (sys w))) as [e|]; [|exact Hok].
    destruct (due e <=? now (sys w)); [|exact Hok].
    destruct (kind e).
    + apply retire_registry_ok. exact Hok.
    + apply do_on_registry_ok. exact Hok.
  - exact Hok.
  - apply deleteRoom_registry_ok, Hok.
Qed.

Lemma run_registry_ok (es : list Event) (w : World) :
  registry_ok w -> registry_ok (run validUrl sendable config w es).
Proof.
  revert w. induction es as [|e es IH]; intros w Hok; [exact Hok|].
  simpl. apply IH, step_registry_ok, Hok.
Qed.

Lemma reachable_registry_ok (es : list Event) :
  registry_ok (run validUrl sendable config empty_world es).
Proof. apply run_registry_ok. intros lid room H. discriminate H. Qed.

End Registry.

(** ** The acceptor *)

Lemma trimStart_no_space (c : ascii) (s : string) :
  is_ascii_space c = false ->
  (forall d, is_space2 c d = false) ->
  (forall d e, is_space3 c d e = false) ->
  trimStart (String c s) = String c s.
Proof.
  intros H1 H2 H3.
  simpl. rewrite H1. destruct s as [|d s]; auto. rewrite H2.
  destruct s as [|e s]; auto. rewrite H3. reflexivity.
Qed.

Lemma digit_not_space (c : ascii) (s : string) :
  is_digit c = true -> trimStart (String c s) = String c s.
Proof.
  intros H. apply trimStart_no_space;
    destruct c as [[] [] [] [] [] [] [] []]; try discriminate H;
    intros; reflexivity.
Qed.

Lemma digit_no_sign (c : ascii) (s : string) :
  is_digit c = true -> strip_sign (String c s) = (1, String c s).
Proof.
  intros H.
  destruct c as [[] [] [] [] [] [] [] []]; try discriminate H; reflexivity.
Qed.

Lemma digits_no_hex_prefix (s : string) :
  all_digits s = true -> strip_hex_prefix s = (10, s).
Proof.
  destruct s as [|c [|d s]]; simpl; intros H; auto.
  - destruct c as [[] [] [] [] [] [] [] []]; reflexivity.
  - apply andb_prop in H. destruct H as [_ H].
    apply andb_prop in H. destruct H as [H _].
    destruct d as [[] [] [] [] [] [] [] []]; try discriminate H;
      destruct c as [[] [] [] [] [] [] [] []]; reflexivity.
Qed.

Lemma parseInt_digits (sign : Z) (t : string) :
  all_digits t = true ->
  (let (radix, s2) := strip_hex_prefix t in
   match read_digits radix None s2 with
   | Some n => round_to_double (sign * n)
   | None => NaN
   end)
  = match read_digits 10 None t with
    | Some n => round_to_double (sign * n)
    | None => NaN
    end.
Proof. intros H. rewrite (digits_no_hex_prefix t H). reflexivity. Qed.

(** The double nearest to an integer that is not zero is not zero. *)
Lemma round_to_double_truthy (n : Z) :
  n <> 0 -> truthy_number (round_to_double n) = true.
Proof.
  intros Hn. unfold round_to_double. cbv zeta.
  destruct (Z.abs n <? 2 ^ 53) eqn:E.
  - apply negb_true_iff, Z.eqb_neq. exact Hn.
  - apply Z.ltb_ge in E.
    set (a := Z.abs n) in *. set (e := Z.log2 a - 52).
    assert (Ha : 0 < a) by lia.
    pose proof (Z.log2_spec a Ha) as [Hlo _].
    assert (He : 2 ^ e <= 2 ^ Z.log2 a)
      by (apply Z.pow_le_mono_r; unfold e; lia).
    assert (Hp : 0 < 2 ^ e).
    { apply Z.pow_pos_nonneg; [lia|]. unfold e.
      assert (53 <= Z.log2 a); [|lia].
      apply Z.log2_le_pow2; [exact Ha|exact E]. }
    assert (Hq : 0 < a / 2 ^ e) by (apply Z.div_str_pos; lia).
    match goal with
    | |- context [if ?b then a / 2 ^ e + 1 else a / 2 ^ e] =>
        set (q' := if b then a / 2 ^ e + 1 else a / 2 ^ e);
        assert (Hq' : 0 < q') by (unfold q'; destruct b; lia)
    end.
    destruct (2 ^ 1024 <=? q' * 2 ^ e); [reflexivity|].
    apply negb_true_iff, Z.eqb_neq.
    assert (0 < q' * 2 ^ e) by (apply Z.mul_pos_pos; assumption).
    destruct (Z.sgn_spec n) as [[? ->]|[[? ->]|[? ->]]]; lia.
Qed.

Lemma parseInt_decimal_integer (s : string) (n : Z) :
  decimal_integer s = Some n -> parseInt s = round_to_double n.
Proof.
  unfold decimal_integer, parseInt.
  destruct s as [|c s]; [discriminate|].
  destruct (Ascii.eqb_spec c "-") as [->|Hm];
    [|destruct (Ascii.eqb_spec c "+") as [->|Hp]].
  - rewrite trimStart_no_space by (intros; reflexivity).
    change (strip_sign (String "-" s)) with (-1, s).
    destruct s as [|d s]; [discriminate|].
    destruct (all_digits (String d s)) eqn:E; [|discriminate].
    rewrite parseInt_digits by exact E.
    destruct (read_digits 10 None (String d s)); congruence.
  - rewrite trimStart_no_space by (intros; reflexivity).
    change (strip_sign (String "+" s)) with (1, s).
    destruct s as [|d s]; [discriminate|].
    destruct (all_digits (String d s)) eqn:E; [|discriminate].
    rewrite parseInt_digits by exact E.
    destruct (read_digits 10 None (String d s)); congruence.
  - destruct (is_digit c) eqn:Hd.
    + rewrite digit_not_space by exact Hd.
      rewrite digit_no_sign by exact Hd.
      destruct (all_digits (String c s)) eqn:E; [|discriminate].
      rewrite parseInt_digits by exact E.
      destruct (read_digits 10 None (String c s)); congruence.
    + assert (Hs : strip_sign (String c s) = (1, String c s)).
      { destruct c as [[] [] [] [] [] [] [] []]; try reflexivity;
          congruence. }
      rewrite Hs. simpl. rewrite Hd. simpl. discriminate.
Qed.

Lemma map_get_set_same {K V : Type} (eqb : K -> K -> bool) (k : K) (v : V)
  (m : list (K * V)) :
  eqb k k = true -> map_get eqb k (map_set eqb k v m) = Some v.
Proof.
  intros H. induction m as [|[k' v'] m IH]; simpl.
  - rewrite H. reflexivity.
  - destruct (eqb k k') eqn:E; simpl.
    + rewrite H. reflexivity.
    + rewrite E. exact IH.
Qed.

(** Split on the innermost condition of the goal, again and again. *)
Ltac branch :=
  repeat match goal with
         | |- context [match ?x with _ => _ end] =>
             lazymatch x with
             | context [match _ with _ => _ end] => fail
             | _ => destruct x eqn:?; simpl; run_room
             end
         end.

Lemma closes_with_1000_app (l l' : list Entry) :
  closes_with_1000 l -> closes_with_1000 l' -> closes_with_1000 (l ++ l').
Proof.
  intros H H' e ws code reason Hin Hc. apply in_app_iff in Hin.
  destruct Hin; eauto.
Qed.

Lemma extends_log_refl (s s' : Sys) : log s' = log s -> extends_log s s'.
Proof.
  intros H. exists []. rewrite app_nil_r. split; [exact H|].
  intros e ws code reason [].
Qed.

Lemma extends_log_trans (s s1 s2 : Sys) :
  extends_log s s1 -> extends_log s1 s2 -> extends_log s s2.
Proof.
  intros (n1 & H1 & C1) (n2 & H2 & C2). exists (n1 ++ n2).
  split; [rewrite H2, H1, app_assoc; reflexivity|].
  apply closes_with_1000_app; assumption.
Qed.

(** Run a method through its branches and read the new entries off. *)
Ltac log_extension :=
  run_room; branch;
  unfold extends_log, sys_close, sys_log, sys_on, sys_new_socket; simpl;
  rewrite <- ?app_assoc;
  (eexists; split;
   [first [reflexivity | symmetry; apply app_nil_r]
   |intros e ws0 code reason Hin Hc; simpl in Hin;
    repeat (destruct Hin as [<-|Hin];
            [first [discriminate Hc | injection Hc as _ <- _; reflexivity]|]);
    contradiction]).

Section Acceptor.
Variable validUrl : string -> bool.
Variable sendable : option JsonValue -> bool.
Variable config : Config.

Lemma addClient_clients (this : RoomRef) (ws : WebSocket) (cid : string)
  (pos : Number) (r : Room) (s : Sys) :
  clients (fst (exec (addClient validUrl this ws cid pos) r s))
  = map_set Nat.eqb ws {| clientId := cid; clientDraftPosition := pos |}
            (clients r).
Proof.
  unfold addClient, connectToYahoo. run_room. branch; reflexivity.
Qed.

Lemma cleanup_sockets_length (r : Room) (s : Sys) :
  List.length (sockets (snd (exec cleanup r s))) = List.length (sockets s).
Proof.
  unfold cleanup, stopHeartbeat. run_room. branch;
    unfold sys_close; simpl; rewrite ?length_list_update; reflexivity.
Qed.

Lemma addClient_sockets_length (this : RoomRef) (ws : WebSocket)
  (cid : string) (pos : Number) (r : Room) (s : Sys) :
  (List.length (sockets s)
   <= List.length (sockets (snd (exec (addClient validUrl this ws cid pos) r s))))%nat.
Proof.
  unfold addClient, connectToYahoo. run_room. branch;
    unfold sys_close, sys_on, sys_new_socket; simpl;
    rewrite ?length_list_update, ?length_app, ?length_list_update; simpl; lia.
Qed.

Lemma nth_error_snoc {A : Type} (l : list A) (x : A) :
  nth_error (l ++ [x]) (List.length l) = Some x.
Proof. induction l; simpl; auto. Qed.

Lemma create_room_registered (lid : string) (pos : Number) (url user : string)
  (w : World) :
  let rw := create_room config lid pos url user w in
  (exists r, nth_error (heap (snd rw)) (fst rw) = Some r)
  /\ map_get String.eqb lid (rooms (snd rw)) = Some (fst rw)
  /\ sys (snd rw) = sys w
  /\ clientConnections (snd rw) = clientConnections w.
Proof.
  unfold create_room; simpl. repeat split.
  - eexists. apply nth_error_snoc.
  - apply map_get_set_same. apply String.eqb_refl.
Qed.

Lemma get_or_create_registered (lid : string) (pos : Number) (url user : string)
  (w : World) :
  registry_ok w ->
  let rw := get_or_create config lid pos url user w in
  (exists r, nth_error (heap (snd rw)) (fst rw) = Some r)
  /\ map_get String.eqb lid (rooms (snd rw)) = Some (fst rw)
  /\ List.length (sockets (sys (snd rw))) = List.length (sockets (sys w))
  /\ clientConnections (snd rw) = clientConnections w.
Proof.
  intros Hok. unfold get_or_create.
  destruct (map_get String.eqb lid (rooms w)) as [room|] eqn:Hg.
  - destruct (nth_error (heap w) room) as [r|] eqn:Hr.
    + destruct (negb (yahooWebSocketUrl r =? url)%string) eqn:Hu.
      * destruct (create_room_registered lid pos url user (do_on room cleanup w))
          as (H1 & H2 & H3 & H4).
        split; [exact H1|]. split; [exact H2|]. split.
        -- rewrite H3. rewrite (do_on_run _ _ _ _ Hr). simpl.
           apply cleanup_sockets_length.
        -- rewrite H4. unfold do_on, call_on. rewrite Hr.
           destruct (cleanup (r, sys w)); reflexivity.
      * simpl. repeat split; eauto.
    + apply Hok in Hg. apply nth_error_None in Hr. lia.
  - destruct (create_room_registered lid pos url user w) as (H1 & H2 & H3 & H4).
    split; [exact H1|]. split; [exact H2|]. split; [|exact H4].
    rewrite H3. reflexivity.
Qed.

Lemma truthy_string_false (a : option string) :
  truthy_string a = false <-> a = None \/ a = Some ""%string.
Proof.
  destruct a as [[|c s]|]; simpl; split; intros H; auto;
    try discriminate; destruct H; discriminate.
Qed.

Lemma truthy_number_false (a : Number) :
  truthy_number a = false <-> a = NaN \/ a = Finite 0.
Proof.
  destruct a as [n| |]; simpl; split; intros H; auto.
  - right. apply negb_false_iff, Z.eqb_eq in H. congruence.
  - destruct H as [H|H]; [discriminate|]. injection H as ->. reflexivity.
  - discriminate.
  - destruct H; discriminate.
Qed.

Lemma truthy_string_true (a : option string) :
  truthy_string a = true -> exists c s, a = Some (String c s).
Proof. destruct a as [[|c s]|]; simpl; intros H; try discriminate; eauto. Qed.

Lemma cleanup_extends_log (r : Room) (s : Sys) :
  extends_log s (snd (exec cleanup r s)).
Proof. unfold cleanup, stopHeartbeat. log_extension. Qed.

Lemma addClient_extends_log (this : RoomRef) (ws : WebSocket) (cid : string)
  (pos : Number) (r : Room) (s : Sys) :
  extends_log s (snd (exec (addClient validUrl this ws cid pos) r s)).
Proof. unfold addClient, connectToYahoo. log_extension. Qed.

Lemma do_on_extends_log {A : Type} (this : RoomRef) (m : M A) (w : World) :
  (forall r, extends_log (sys w) (snd (exec m r (sys w)))) ->
  extends_log (sys w) (sys (do_on this m w)).
Proof.
  intros H. unfold do_on, call_on.
  destruct (nth_error (heap w) this) as [r|].
  - specialize (H r). unfold exec in H.
    destruct (m (r, sys w)) as [a st]. exact H.
  - apply extends_log_refl. reflexivity.
Qed.

Lemma get_or_create_extends_log (lid : string) (pos : Number) (url user : string)
  (w : World) :
  extends_log (sys w) (sys (snd (get_or_create config lid pos url user w))).
Proof.
  unfold get_or_create.
  destruct (map_get String.eqb lid (rooms w)) as [room|];
    [|apply extends_log_refl; reflexivity].
  destruct (nth_error (heap w) room) as [r|];
    [|apply extends_log_refl; reflexivity].
  destruct (negb (yahooWebSocketUrl r =? url)%string);
    [|apply extends_log_refl; reflexivity].
  simpl. apply do_on_extends_log. intros r0. apply cleanup_extends_log.
Qed.

Lemma accepted_closes_with_1000 (q : Query) (uuid : string) (w : World) :
  rejects q = false ->
  forall l code reason,
    In (WsClose l code reason)
       (new_calls (sys w) (sys (onConnection validUrl config q uuid w))) ->
    code = 1000.
Proof.
  intros Hacc.
  assert (H : extends_log (sys w) (sys (onConnection validUrl config q uuid w))).
  { unfold onConnection. rewrite Hacc.
    set (w0 := set_sys (sys_new_socket OPEN (sys w)) w).
    pose proof (get_or_create_extends_log
                  (or_string (query_leagueId q) "")
                  (parseInt (or_string (query_draftPosition q) "0"))
                  (or_string (query_websocketUrl q) "")
                  (or_string (query_platformUserId q) "unknown") w0) as H1.
    destruct (get_or_create config _ _ _ _ w0) as [room w1]. simpl in H1.
    apply extends_log_trans with (s1 := sys w1); [exact H1|].
    match goal with
    | |- extends_log _ (sys (set_sys (sys_on _ _ (sys ?w3)) _)) =>
        change (extends_log (sys w1) (sys_on (List.length (sockets (sys w)))
                                        (ClientHandlers uuid room) (sys w3)))
    end.
    match goal with
    | |- extends_log _ (sys_on _ _ (sys (set_clientConnections _ ?w2))) =>
        apply extends_log_trans with (s1 := sys w2);
        [|apply extends_log_refl; reflexivity]
    end.
    apply do_on_extends_log. intros r. apply addClient_extends_log. }
  destruct H as (new & Hlog & Hc).
  intros l code reason Hin. unfold new_calls in Hin.
  rewrite (new_entries_app _ _ _ Hlog) in Hin.
  apply in_map_iff in Hin. destruct Hin as (e & He & Hin).
  exact (Hc e l code reason Hin He).
Qed.

(** C6 (amended): the acceptor closes the new socket with code 1008 and
    "Missing required parameters: leagueId, draftPosition, websocketUrl"
    exactly when [leagueId] is missing or empty, [websocketUrl] is missing
    or empty, or [parseInt] of [draftPosition] (of "0" when it is missing
    or empty) is NaN or 0, and then changes nothing else; otherwise the
    socket joins the client set of the Room registered for its league with
    the number [parseInt] gave as its position, joins [clientConnections]
    and gets the session handlers, and whatever is closed in that turn is
    closed with code 1000.  A missing [draftPosition] or "0" is rejected
    and every integer at least 1 is accepted; the test does not ask for
    more.  The number [parseInt] gives is a double: for
    [draftPosition=9007199254740993] the position is 9007199254740992.
    The hypothesis holds in every state the server reaches
    ([reachable_registry_ok]). *)
Theorem C6_handshake_rejected_iff_parameter_falsy (w : World) (q : Query) (uuid : string) :
  registry_ok w ->
  let ws := List.length (sockets (sys w)) in
  let w' := step validUrl sendable config w (Connection q uuid) in
  let dp := parseInt (or_string (query_draftPosition q) "0") in
  (rejects q = true <->
     (query_leagueId q = None \/ query_leagueId q = Some ""%string)
     \/ (dp = NaN \/ dp = Finite 0)
     \/ (query_websocketUrl q = None \/ query_websocketUrl q = Some ""%string))
  /\ (rejects q = true ->
      new_calls (sys w) (sys w')
      = [WsClose ws 1008
           "Missing required parameters: leagueId, draftPosition, websocketUrl"]
      /\ heap w' = heap w /\ rooms w' = rooms w
      /\ clientConnections w' = clientConnections w)
  /\ (rejects q = false ->
      exists room r' lid,
        query_leagueId q = Some lid
        /\ map_get String.eqb lid (rooms w') = Some room
        /\ nth_error (heap w') room = Some r'
        /\ map_get Nat.eqb ws (clients r')
           = Some {| clientId := uuid; clientDraftPosition := dp |}
        /\ map_get String.eqb uuid (clientConnections w') = Some (ws, room)
        /\ handlersOf (sys w') ws = ClientHandlers uuid room)
  /\ (rejects q = false ->
      forall l code reason,
        In (WsClose l code reason) (new_calls (sys w) (sys w')) ->
        code = 1000)
  /\ (query_draftPosition q = None \/ query_draftPosition q = Some "0"%string ->
      rejects q = true)
  /\ (forall s n,
        query_draftPosition q = Some s -> decimal_integer s = Some n ->
        1 <= n ->
        truthy_string (query_leagueId q) = true ->
        truthy_string (query_websocketUrl q) = true ->
        rejects q = false)
  /\ parseInt "9007199254740993" = Finite 9007199254740992.
Proof.
  intros Hok. cbv zeta.
  remember (parseInt (or_string (query_draftPosition q) "0")) as dp eqn:Edp.
  split; [|split; [|split; [|split; [|split; [|split]]]]].
  - unfold rejects. rewrite <- Edp.
    rewrite !orb_true_iff, !negb_true_iff.
    rewrite !truthy_string_false, truthy_number_false. tauto.
  - intros Hrej. simpl. unfold onConnection. rewrite Hrej. simpl.
    repeat split. unfold new_calls, new_entries. simpl.
    rewrite skipn_length_app. reflexivity.
  - intros Hacc. simpl. unfold onConnection. rewrite Hacc.
    unfold rejects in Hacc. rewrite <- Edp in Hacc.
    apply orb_false_iff in Hacc. destruct Hacc as [Hacc Hurl].
    apply orb_false_iff in Hacc. destruct Hacc as [Hlid Hdp].
    apply negb_false_iff in Hlid, Hdp, Hurl.
    destruct (truthy_string_true _ Hlid) as (c & lid & Elid).
    rewrite <- Edp.
    set (w0 := set_sys (sys_new_socket OPEN (sys w)) w).
    assert (Hok0 : registry_ok w0) by exact Hok.
    pose proof (get_or_create_registered
                  (or_string (query_leagueId q) "") dp
                  (or_string (query_websocketUrl q) "")
                  (or_string (query_platformUserId q) "unknown") w0 Hok0) as H.
    simpl in H.
    destruct (get_or_create config _ _ _ _ w0) as [room w1] eqn:Eg.
    simpl in H. destruct H as ((r & Hr) & Hreg & Hlen & Hcc).
    exists room.
    rewrite (do_on_run _ _ _ _ Hr). simpl.
    eexists. exists (String c lid).
    split; [exact Elid|].
    split; [rewrite Elid in Hreg; exact Hreg|].
    split; [rewrite nth_error_list_update_same, Hr; reflexivity|].
    split.
    { rewrite addClient_clients.
      apply map_get_set_same. apply Nat.eqb_refl. }
    split; [apply map_get_set_same; apply String.eqb_refl|].
    unfold handlersOf, sys_on; simpl.
    rewrite nth_error_list_update_same.
    destruct (nth_error _ (List.length (sockets (sys w)))) eqn:En;
      [reflexivity|].
    apply nth_error_None in En.
    pose proof (addClient_sockets_length room
                  (List.length (sockets (sys w))) uuid dp r (sys w1)) as Hle.
    rewrite Hlen in Hle. unfold w0 in Hle. simpl in Hle.
    rewrite length_app in Hle. simpl in Hle. lia.
  - intros Hacc. simpl. apply accepted_closes_with_1000. exact Hacc.
  - intros [H|H]; unfold rejects; rewrite H; simpl;
      rewrite orb_true_r; reflexivity.
  - intros s n Hs Hd Hn Hl Hu. unfold rejects. rewrite Hl, Hu, Hs.
    assert (Hne : or_string (Some s) "0" = s).
    { destruct s; [discriminate Hd|reflexivity]. }
    rewrite Hne, (parseInt_decimal_integer _ _ Hd).
    rewrite round_to_double_truthy by lia. reflexivity.
  - vm_compute. reflexivity.
Qed.
End Acceptor.

Lemma C6_handshake_rejected_iff_parameter_falsy_witness :
  registry_ok empty_world
  /\ (rejects query_a = false ->
      exists room r' lid,
        query_leagueId query_a = Some lid
        /\ map_get String.eqb lid (rooms world_dialing) = Some room
        /\ nth_error (heap world_dialing) room = Some r'
        /\ map_get Nat.eqb 0%nat (clients r')
           = Some {| clientId := "c1";
                     clientDraftPosition :=
                       parseInt (or_string (query_draftPosition query_a) "0") |}
        /\ map_get String.eqb "c1" (clientConnections world_dialing)
           = Some (0%nat, room)
        /\ handlersOf (sys world_dialing) 0%nat = ClientHandlers "c1" room).
Proof.
  assert (H : registry_ok empty_world).
  { intros lid room E. simpl in E. discriminate E. }
  split; [exact H|].
  destruct (C6_handshake_rejected_iff_parameter_falsy any_url any_data demo_config
              empty_world query_a "c1" H) as (_ & _ & Hacc & _).
  exact Hacc.
Defined.

(** C6 as stated fails: "-5" is not an integer at least 1, so the
    specification's rule rejects the handshake, but [parseInt] gives -5,
    which is truthy, and the acceptor attaches the socket to a Room with
    draft position -5 and closes nothing. *)
Lemma C6_counterexample :
  spec_rejects query_minus_5 = true
  /\ rejects query_minus_5 = false
  /\ (let w := demo_run [Connection query_minus_5 "c1"] in
      rooms w = [("12345"%string, 0%nat)]
      /\ clients (room_at w 0%nat)
         = [(0%nat, {| clientId := "c1"; clientDraftPosition := -5 |})]
      /\ readyStateOf (sys w) 0%nat = OPEN
      /\ calls w
         = [NewWebSocket 1%nat "wss://u";
            WsSend 0%nat (Json (msg_joined "12345" false 1 (-5)))]).
Proof.
  vm_compute. repeat split.
Qed.

(** ** A client joins a Room that is in use *)

Arguments yahooOpen : simpl never.

Lemma yahooOpen_eq (r r' : Room) (s s' : Sys) :
  yahooWs r' = yahooWs r -> sockets s' = sockets s ->
  yahooOpen r' s' = yahooOpen r s.
Proof.
  intros H1 H2. unfold yahooOpen, is_OPEN, readyStateOf. rewrite H1, H2.
  reflexivity.
Qed.

Lemma yahooOpen_none (r : Room) (s : Sys) :
  yahooWs r = None -> yahooOpen r s = false.
Proof. intros H. unfold yahooOpen. rewrite H. reflexivity. Qed.

Lemma reinit_forced (r : Room) (s : Sys) :
  clients r <> [] \/ yahooOpen r s = true ->
  (negb (Nat.eqb (List.length (clients r)) 0) || yahooOpen r s)%bool = true.
Proof.
  intros [H|H].
  - destruct (clients r); [congruence|reflexivity].
  - rewrite H. apply orb_true_r.
Qed.

Lemma nth_error_update_snoc {A : Type} (f : A -> A) (l : list A) (x : A)
  (n : nat) :
  List.length l = n ->
  nth_error (list_update n f (l ++ [x])) n = Some (f x).
Proof.
  intros <-. rewrite nth_error_list_update_same, nth_error_snoc. reflexivity.
Qed.

Section Join.
Variable validUrl : string -> bool.
Variable sendable : option JsonValue -> bool.
Variable config : Config.

(** C2 (amended): [addClient] on a Room that has a client or an open
    upstream link.  If the Room holds a link, the link is closed with code
    1000 and reason "New client joined - forcing reconnection", by a Room
    whose [isIntentionalDisconnect] is set at that moment; nothing is dialed
    before that close, and every call after it (the dial, if there is one,
    and the answer to the client) is made by a Room whose [hasJoined] and
    [isIntentionalDisconnect] are false, the dial by a Room that has dropped
    the link.  If
    the Room holds no link (it has a client, and the dial for it is still in
    flight or has failed), nothing is closed.  In both cases whatever is
    dialed is dialed by a Room whose [hasJoined] and
    [isIntentionalDisconnect] are false and which holds no link, and both
    flags are false when [addClient] returns, whether [connectToYahoo] has
    dialed or has returned at its guard. *)
Theorem C2_forced_reinit_closes_before_dialing
  (this : RoomRef) (clientWs : WebSocket) (cid : string) (pos : Number)
  (r : Room) (s : Sys) :
  clients r <> [] \/ yahooOpen r s = true ->
  let st := exec (addClient validUrl this clientWs cid pos) r s in
  (forall l, yahooWs r = Some l ->
     exists before marked after,
       new_entries s (snd st)
       = before
         ++ {| call := WsClose l 1000 "New client joined - forcing reconnection";
               caller := Some marked |} :: after
       /\ isIntentionalDisconnect marked = true
       /\ (forall e ws url, In e before -> call e <> NewWebSocket ws url)
       /\ (forall e, In e after ->
             exists c, caller e = Some c /\ hasJoined c = false
                       /\ isIntentionalDisconnect c = false
                       /\ (forall ws url, call e = NewWebSocket ws url ->
                                          yahooWs c = None)))
  /\ (yahooWs r = None ->
      forall e ws code reason,
        In e (new_entries s (snd st)) -> call e <> WsClose ws code reason)
  /\ (forall e ws url,
        In e (new_entries s (snd st)) -> call e = NewWebSocket ws url ->
        exists c, caller e = Some c /\ hasJoined c = false
                  /\ isIntentionalDisconnect c = false /\ yahooWs c = None)
  /\ hasJoined (fst st) = false
  /\ isIntentionalDisconnect (fst st) = false.
Proof.
  intros Hc. apply reinit_forced in Hc.
  unfold addClient, connectToYahoo. run_room.
  destruct (cleanupTimeout r) as [t|]; simpl; run_room;
    rewrite ?(yahooOpen_eq r _ s _) by reflexivity; rewrite Hc; simpl;
    (destruct (yahooWs r) as [l0|] eqn:Hl; simpl; run_room;
     rewrite ?yahooOpen_none by (simpl; first [reflexivity | exact Hl]));
    (destruct (isConnectingToYahoo r); simpl;
     [|destruct (validUrl (yahooWebSocketUrl r)); simpl]);
    run_room; unfold sys_close, sys_log, sys_on, sys_new_socket; simpl;
    unfold new_entries; simpl; rewrite <- ?app_assoc;
    rewrite skipn_length_app; simpl.
  all: split;
    [intros l El;
     first [discriminate El
           | injection El as <-;
             first [ eexists (_ :: nil), _, _; split; [reflexivity|]
                   | exists nil; eexists _, _; split; [reflexivity|] ];
             (split; [reflexivity|]);
             (split; [intros e ws url Hin; simpl in Hin;
                      repeat (destruct Hin as [<-|Hin]; [discriminate|]);
                      contradiction|]);
             intros e Hin; simpl in Hin;
             repeat (destruct Hin as [<-|Hin];
                     [eexists; repeat split; simpl;
                      first [reflexivity | discriminate]|]);
             contradiction]
    |].
  all: split;
    [intros El; try discriminate El;
     intros e ws code reason Hin; simpl in Hin;
     repeat (destruct Hin as [<-|Hin]; [discriminate|]); contradiction
    |].
  all: split; [|split; reflexivity].
  all: intros e ws url Hin Hcall; simpl in Hin;
    repeat (destruct Hin as [<-|Hin];
            [first [discriminate Hcall
                   | eexists; repeat split; simpl;
                     first [reflexivity | exact Hl]]|]);
    contradiction.
Qed.

(** [addClient] on a Room whose upstream link is open, with no dial in
    flight and no retirement pending. *)
Lemma addClient_reinit (this : RoomRef) (clientWs : WebSocket) (cid : string)
  (pos : Number) (r : Room) (s : Sys) (l : WebSocket) :
  yahooWs r = Some l ->
  is_OPEN s l = true ->
  cleanupTimeout r = None ->
  isConnectingToYahoo r = false ->
  validUrl (yahooWebSocketUrl r) = true ->
  let st := exec (addClient validUrl this clientWs cid pos) r s in
  new_calls s (snd st)
  = [WsClose l 1000 "New client joined - forcing reconnection";
     NewWebSocket (List.length (sockets s)) (yahooWebSocketUrl r);
     WsSend clientWs
       (Json (msg_joined (id r) false
                (Z.of_nat
                   (List.length
                      (map_set Nat.eqb clientWs
                         {| clientId := cid; clientDraftPosition := pos |}
                         (clients r))))
                pos))]
  /\ yahooWs (fst st) = Some (List.length (sockets s))
  /\ leagueId (fst st) = leagueId r
  /\ draftPosition (fst st) = draftPosition r
  /\ platformUserId (fst st) = platformUserId r
  /\ nth_error (sockets (snd st)) (List.length (sockets s))
     = Some {| readyState := CONNECTING; handlers := YahooHandlers this |}.
Proof.
  intros Hl Ho Ht Hc Hv.
  assert (Hopen : yahooOpen r s = true) by (unfold yahooOpen; rewrite Hl; exact Ho).
  unfold addClient, connectToYahoo. run_room.
  rewrite Ht. simpl. run_room. rewrite Hopen, orb_true_r. simpl.
  rewrite Hl. simpl. run_room. rewrite yahooOpen_none by reflexivity.
  rewrite Hc. simpl. rewrite Hv. simpl. run_room.
  unfold sys_close, sys_log, sys_on, sys_new_socket; simpl.
  rewrite length_list_update.
  split; [|repeat split].
  - unfold new_calls, new_entries; simpl. rewrite <- ?app_assoc.
    rewrite skipn_length_app. reflexivity.
  - rewrite nth_error_update_snoc by apply length_list_update.
    reflexivity.
Qed.

End Join.

Lemma C2_forced_reinit_closes_before_dialing_witness :
  (clients (room_at world_open 0%nat) <> []
   \/ yahooOpen (room_at world_open 0%nat) sys_second_client = true)
  /\ (let st := exec (addClient any_url 0%nat 2%nat "c2" 3)
                     (room_at world_open 0%nat) sys_second_client in
      (forall e ws url,
          In e (new_entries sys_second_client (snd st)) ->
          call e = NewWebSocket ws url ->
          exists c, caller e = Some c /\ hasJoined c = false
                    /\ isIntentionalDisconnect c = false /\ yahooWs c = None)
      /\ hasJoined (fst st) = false
      /\ isIntentionalDisconnect (fst st) = false).
Proof.
  assert (H1 : clients (room_at world_open 0%nat) <> []
               \/ yahooOpen (room_at world_open 0%nat) sys_second_client
                  = true)
    by (right; vm_compute; reflexivity).
  split; [exact H1|].
  exact (proj2 (proj2 (C2_forced_reinit_closes_before_dialing any_url 0%nat
                         2%nat "c2" 3 (room_at world_open 0%nat)
                         sys_second_client H1))).
Defined.

(** C2 as stated fails on the reason: the second client of scenario S3
    joins, the Room has a client and an open link, and the link is closed
    with "New client joined - forcing reconnection"; no call carries the
    reason "new client joined — forcing reconnection". *)
Lemma C2_counterexample :
  let w := world_relayed in
  let w1 := step any_url any_data demo_config w (Connection query_b "c2") in
  (List.length (clients (room_at w 0%nat)) = 1%nat
   /\ yahooOpen (room_at w 0%nat) (sys w) = true
   /\ yahooWs (room_at w 0%nat) = Some 1%nat)
  /\ new_calls (sys w) (sys w1)
     = [WsClose 1%nat 1000 "New client joined - forcing reconnection";
        NewWebSocket 3%nat "wss://u";
        WsSend 2%nat (Json (msg_joined "12345" false 2 3))]
  /\ ~ In (WsClose 1%nat 1000 "new client joined — forcing reconnection")
          (new_calls (sys w) (sys w1)).
Proof.
  vm_compute. repeat split.
  intros H. repeat (destruct H as [H|H]; [discriminate H|]). exact H.
Qed.

(** ** Retirement *)

Lemma In_remove_timer (t : Timeout) (e : Timer) (l : list Timer) :
  In e (remove_timer t l) <-> In e l /\ handle e <> t.
Proof.
  unfold remove_timer. rewrite filter_In, negb_true_iff, Nat.eqb_neq.
  reflexivity.
Qed.

Ltac timers_in :=
  repeat match goal with
         | H : In _ (remove_timer _ _) |- _ =>
             apply In_remove_timer in H; destruct H as [H ?]
         | H : In _ (_ ++ _) |- _ => apply in_app_iff in H; destruct H as [H|H]
         | H : In _ [_] |- _ => destruct H as [H|[]]; subst
         | H : Some _ = Some _ |- _ => injection H as H; subst
         | H : Some _ = None |- _ => discriminate H
         | H : None = Some _ |- _ => discriminate H
         end.

(** As [branch], leaving broadcasts whole. *)
Ltac branch' :=
  repeat match goal with
         | |- context [match ?x with _ => _ end] =>
             lazymatch x with
             | context [match _ with _ => _ end] => fail
             | context [broadcastToClients] => fail
             | _ => destruct x eqn:?; simpl; run_room
             end
         end.

Ltac unfold_room :=
  run_room; repeat (branch'; rewrite ?broadcastToClients_run; simpl).

(** Run a method through all its branches and read the discipline off. *)
Ltac discipline :=
  unfold_room; unfold timer_discipline, sys_close, sys_log, sys_on,
    sys_new_socket; simpl;
  (split;
   [reflexivity
   |split;
    [ intros e' Hin; timers_in; auto
    | intros e Hin Hin' Hc He; timers_in; try congruence; auto ]]).

Lemma length_zero_nil {A : Type} (l : list A) :
  Nat.eqb (List.length l) 0 = true -> l = [].
Proof. destruct l; simpl; intros H; [reflexivity|discriminate H]. Qed.

Section Retirement.
Variable validUrl : string -> bool.
Variable sendable : option JsonValue -> bool.
Variable config : Config.

Lemma addClient_discipline (this : RoomRef) (ws : WebSocket) (cid : string)
  (pos : Number) (r : Room) (s : Sys) :
  timer_discipline this r s (exec (addClient validUrl this ws cid pos) r s).
Proof. unfold addClient, connectToYahoo. discipline. Qed.

Lemma removeClient_discipline (this : RoomRef) (ws : WebSocket) (r : Room)
  (s : Sys) :
  timer_discipline this r s (exec (removeClient this ws) r s).
Proof.
  unfold removeClient. discipline.
  all: try (right; split; [reflexivity|]; intros _;
            repeat split; auto using length_zero_nil).
  all: try (rewrite He in *; simpl in *; discriminate).
  all: split; [first [reflexivity|congruence]|auto using length_zero_nil].
Qed.

Lemma cleanup_discipline (this : RoomRef) (r : Room) (s : Sys) :
  timer_discipline this r s (exec cleanup r s).
Proof. unfold cleanup, stopHeartbeat. discipline. Qed.

Lemma retire_discipline (this : RoomRef) (r : Room) (s : Sys) :
  timer_discipline this r s (exec (disconnectFromYahoo ;; cleanup) r s).
Proof. unfold disconnectFromYahoo, cleanup, stopHeartbeat. discipline. Qed.

Lemma onYahooOpen_discipline (this : RoomRef) (r : Room) (s : Sys) :
  timer_discipline this r s (exec (onYahooOpen this) r s).
Proof.
  unfold onYahooOpen, sendJoinMessageToYahoo, startHeartbeat. discipline.
  all: right; split; [reflexivity|discriminate].
Qed.

Lemma onYahooMessage_discipline (this : RoomRef) (data : string) (r : Room)
  (s : Sys) :
  timer_discipline this r s (exec (onYahooMessage data) r s).
Proof. unfold onYahooMessage. discipline. Qed.

Lemma onYahooClose_discipline (this : RoomRef) (code : Z) (reason : string)
  (r : Room) (s : Sys) :
  timer_discipline this r s (exec (onYahooClose code reason) r s).
Proof. unfold onYahooClose, stopHeartbeat. discipline. Qed.

Lemma onYahooError_discipline (this : RoomRef) (m : string) (r : Room)
  (s : Sys) :
  timer_discipline this r s (exec (onYahooError m) r s).
Proof. unfold onYahooError. discipline. Qed.

Lemma heartbeatTick_discipline (this : RoomRef) (r : Room) (s : Sys) :
  timer_discipline this r s (exec heartbeatTick r s).
Proof. unfold heartbeatTick. discipline. Qed.

Lemma sendToYahoo_discipline (this : RoomRef) (m : option JsonValue) (r : Room)
  (s : Sys) :
  timer_discipline this r s (exec (sendToYahoo sendable m) r s).
Proof. unfold sendToYahoo. discipline. Qed.

Lemma reconnect_discipline (this : RoomRef) (rd : option JsonValue) (r : Room)
  (s : Sys) :
  timer_discipline this r s
    (exec (handleClientReconnectRequest validUrl this rd) r s).
Proof. unfold handleClientReconnectRequest, connectToYahoo. discipline. Qed.
Lemma advances_refl (w : World) : pending_ok w -> advances w w.
Proof.
  intros H. split; [exact H|]. split; [reflexivity|].
  intros e' Hin Hk. left. exists e'. repeat split; auto. lia.
Qed.

Lemma advances_trans (w w1 w2 : World) :
  advances w w1 -> advances w1 w2 -> advances w w2.
Proof.
  intros (_ & Hn1 & Ho1) (Hp2 & Hn2 & Ho2).
  split; [exact Hp2|]. split; [congruence|].
  intros e2 Hin Hk.
  destruct (Ho2 e2 Hin Hk) as [(e1 & Hin1 & Hk1 & Hown & Hdue)|Hnew].
  - destruct (Ho1 e1 Hin1 Hk1) as [(e & Hin0 & Hk0 & Hown0 & Hdue0)|Hnew].
    + left. exists e. repeat split; auto; [congruence|lia].
    + right. lia.
  - right. lia.
Qed.

Lemma advances_frame (w w1 w2 : World) :
  advances w w1 ->
  heap w2 = heap w1 -> timers (sys w2) = timers (sys w1) ->
  now (sys w2) = now (sys w1) ->
  advances w w2.
Proof.
  intros (Hp & Hn & Ho) Hh Ht Hnow.
  split; [|split].
  - intros e Hin Hk. rewrite Ht in Hin. rewrite Hh. apply Hp; auto.
  - congruence.
  - intros e Hin Hk. rewrite Ht in Hin.
    destruct (Ho e Hin Hk) as [H|H]; [left|right]; auto.
Qed.

Lemma advances_do_on {A : Type} (this : RoomRef) (m : M A) (w : World) :
  pending_ok w ->
  (forall r, nth_error (heap w) this = Some r ->
             timer_discipline this r (sys w) (exec m r (sys w))) ->
  advances w (do_on this m w).
Proof.
  intros Hp Hd.
  destruct (nth_error (heap w) this) as [r|] eqn:Hr.
  - rewrite (do_on_run _ _ _ _ Hr).
    destruct (Hd r eq_refl) as (Hn & Hnew & Hkeep).
    set (st := exec m r (sys w)) in *.
    split; [|split].
    + intros e Hin Hk. simpl in *.
      destruct (Hnew e Hin) as [Hold|(Hown & Hfresh)].
      * destruct (Hp e Hold Hk) as (re & Hre & Hc & He).
        destruct (Nat.eq_dec this (owner e)) as [Heq|Hne].
        -- rewrite <- Heq in *. rewrite Hr in Hre.
           injection Hre as Hre. subst re.
           exists (fst st). rewrite nth_error_list_update_same, Hr.
           destruct (Hkeep e Hold Hin Hc He). auto.
        -- exists re. rewrite nth_error_list_update_other by exact Hne. auto.
      * destruct (Hfresh Hk) as (_ & Hc & He). exists (fst st).
        rewrite Hown, nth_error_list_update_same, Hr. auto.
    + exact Hn.
    + intros e Hin Hk. simpl in *.
      destruct (Hnew e Hin) as [Hold|(Hown & Hfresh)].
      * left. exists e. repeat split; auto. lia.
      * right. destruct (Hfresh Hk) as (Hdue & _). lia.
  - unfold do_on, call_on. rewrite Hr. apply advances_refl. exact Hp.
Qed.

Lemma pending_ok_frame (w w' : World) :
  pending_ok w -> heap w' = heap w -> timers (sys w') = timers (sys w) ->
  now (sys w') = now (sys w) -> advances w w'.
Proof.
  intros Hp Hh Ht Hn. apply (advances_frame w w w'); auto.
  apply advances_refl. exact Hp.
Qed.

Lemma close_clients_timing (cs : list (WebSocket * ClientInfo)) :
  forall s, timers (close_clients cs s) = timers s
            /\ now (close_clients cs s) = now s.
Proof.
  induction cs as [|[ws info] cs IH]; intros s; simpl; auto.
  destruct (is_OPEN s ws); destruct (IH (sys_close ws 1001 "Room force cleanup" None s)) as (H1 & H2);
    destruct (IH s); auto.
Qed.

Lemma advances_remove_timer (t : Timeout) (w : World) :
  pending_ok w ->
  advances w (set_sys (set_timers (remove_timer t (timers (sys w))) (sys w)) w).
Proof.
  intros Hp. split; [|split].
  - intros e Hin Hk. simpl in *. apply In_remove_timer in Hin.
    destruct Hin as [Hin _]. apply Hp; auto.
  - reflexivity.
  - intros e Hin Hk. simpl in *. apply In_remove_timer in Hin.
    destruct Hin as [Hin _]. left. exists e. repeat split; auto. lia.
Qed.

Lemma advances_rearm (t : Timeout) (w : World) :
  pending_ok w ->
  advances w (set_sys (set_timers (rearm t 30000 (timers (sys w))) (sys w)) w).
Proof.
  intros Hp.
  assert (Hsrc : forall e',
             In e' (rearm t 30000 (timers (sys w))) ->
             exists e, In e (timers (sys w)) /\ handle e' = handle e
                       /\ kind e' = kind e /\ owner e' = owner e
                       /\ due e <= due e').
  { intros e' Hin. unfold rearm in Hin. apply in_map_iff in Hin.
    destruct Hin as (e & <- & Hin). exists e.
    destruct (Nat.eqb (handle e) t); simpl; repeat split; auto; lia. }
  split; [|split].
  - intros e' Hin Hk. simpl in *.
    destruct (Hsrc e' Hin) as (e & Hin0 & Hh & Hk0 & Ho & Hd).
    rewrite Hh, Ho. apply Hp; auto. congruence.
  - reflexivity.
  - intros e' Hin Hk. simpl in *.
    destruct (Hsrc e' Hin) as (e & Hin0 & Hh & Hk0 & Ho & Hd).
    left. exists e. repeat split; auto. congruence.
Qed.

Lemma advances_create_room (lid : string) (pos : Number) (url user : string)
  (w : World) :
  pending_ok w -> advances w (snd (create_room config lid pos url user w)).
Proof.
  intros Hp. unfold create_room; simpl. split; [|split].
  - intros e Hin Hk. simpl in *.
    destruct (Hp e Hin Hk) as (r & Hr & Hc & He).
    exists r. split; [|auto].
    rewrite nth_error_app1; [exact Hr|].
    apply nth_error_Some. congruence.
  - reflexivity.
  - intros e Hin Hk. left. exists e. repeat split; auto. lia.
Qed.

Lemma advances_get_or_create (lid : string) (pos : Number) (url user : string)
  (w : World) :
  pending_ok w -> advances w (snd (get_or_create config lid pos url user w)).
Proof.
  intros Hp. unfold get_or_create.
  destruct (map_get String.eqb lid (rooms w)) as [room|].
  - destruct (nth_error (heap w) room) as [r|] eqn:Hr.
    + destruct (negb (yahooWebSocketUrl r =? url)%string).
      * assert (H1 : advances w (do_on room cleanup w)).
        { apply advances_do_on; [exact Hp|]. intros r0 _.
          apply cleanup_discipline. }
        eapply advances_trans; [exact H1|].
        apply advances_create_room. apply H1.
      * apply advances_refl. exact Hp.
    + apply advances_refl. exact Hp.
  - apply advances_create_room. exact Hp.
Qed.

Lemma advances_onConnection (q : Query) (uuid : string) (w : World) :
  pending_ok w -> advances w (onConnection validUrl config q uuid w).
Proof.
  intros Hp. unfold onConnection.
  set (w0 := set_sys (sys_new_socket OPEN (sys w)) w).
  assert (H0 : advances w w0) by (apply pending_ok_frame; auto).
  destruct (rejects q).
  - eapply advances_frame; [exact H0| | |]; reflexivity.
  - pose proof (advances_get_or_create
                  (or_string (query_leagueId q) "")
                  (parseInt (or_string (query_draftPosition q) "0"))
                  (or_string (query_websocketUrl q) "")
                  (or_string (query_platformUserId q) "unknown")
                  w0 (proj1 H0)) as H1.
    destruct (get_or_create config _ _ _ _ w0) as [room w1]. simpl in H1.
    match goal with
    | |- advances _ (set_sys _ (set_clientConnections _ ?w2)) =>
        assert (H2 : advances w1 w2)
    end.
    { apply advances_do_on; [apply H1|]. intros r _.
      apply addClient_discipline. }
    eapply advances_frame;
      [exact (advances_trans _ _ _ H0 (advances_trans _ _ _ H1 H2))| | |];
      reflexivity.
Qed.

Lemma advances_onClientMessage (ws : WebSocket) (room : RoomRef)
  (f : ClientFrame) (w : World) :
  pending_ok w -> advances w (onClientMessage validUrl sendable ws room f w).
Proof.
  intros Hp. apply onClientMessage_cases.
  - apply advances_refl. exact Hp.
  - intros m w0 H0. apply (advances_trans _ _ _ H0).
    apply advances_do_on; [exact (proj1 H0)|]. intros r _.
    apply sendToYahoo_discipline.
  - intros rd w0 H0. apply (advances_trans _ _ _ H0).
    apply advances_do_on; [exact (proj1 H0)|]. intros r _.
    apply reconnect_discipline.
  - intros w0 H0. eapply advances_frame; [exact H0| | |]; reflexivity.
Qed.

Lemma advances_retire (this : RoomRef) (w : World) :
  pending_ok w -> advances w (retire this w).
Proof.
  intros Hp. unfold retire.
  assert (H1 : advances w (do_on this (disconnectFromYahoo ;; cleanup) w)).
  { apply advances_do_on; [exact Hp|]. intros r _. apply retire_discipline. }
  destruct (nth_error (heap (do_on this (disconnectFromYahoo ;; cleanup) w)) this);
    [|exact H1].
  eapply advances_frame; [exact H1| | |]; reflexivity.
Qed.

Lemma advances_deleteRoom (roomId : string) (w : World) :
  pending_ok w -> advances w (deleteRoom roomId w).
Proof.
  intros Hp. unfold deleteRoom.
  destruct (map_get String.eqb roomId (rooms w)) as [room|];
    [|apply advances_refl; exact Hp].
  destruct (nth_error (heap w) room) as [r|];
    [|apply advances_refl; exact Hp].
  set (w0 := set_sys (close_clients (clients r) (sys w)) w).
  assert (H0 : advances w w0).
  { destruct (close_clients_timing (clients r) (sys w)).
    apply pending_ok_frame; auto. }
  assert (H1 : advances w0 (do_on room cleanup w0)).
  { apply advances_do_on; [apply H0|]. intros r0 _. apply cleanup_discipline. }
  eapply advances_frame; [exact (advances_trans _ _ _ H0 H1)| | |]; reflexivity.
Qed.

Lemma advances_set_state (ws : WebSocket) (v : ReadyState) (w : World) :
  pending_ok w -> advances w (set_state ws v w).
Proof. intros Hp. apply pending_ok_frame; auto. Qed.

Lemma step_advances (w : World) (ev : Event) :
  pending_ok w -> is_Elapse ev = false ->
  advances w (step validUrl sendable config w ev).
Proof.
  intros Hp Hev.
  destruct ev as [q uuid|ws f|ws|ws|ws data|ws code reason|ws m|t|ms|roomId];
    simpl; try discriminate Hev.
  - apply advances_onConnection. exact Hp.
  - destruct (handlersOf (sys w) ws) as [|this|cid room];
      try (apply advances_refl; exact Hp).
    destruct (readyStateOf (sys w) ws);
      try (apply advances_refl; exact Hp);
      apply advances_onClientMessage; exact Hp.
  - destruct (handlersOf (sys w) ws) as [|this|cid room];
      try (apply advances_refl; exact Hp).
    destruct (readyStateOf (sys w) ws);
      try (apply advances_refl; exact Hp).
    all: unfold onClientClose;
      (eapply advances_frame; [|reflexivity|reflexivity|reflexivity]);
      (eapply advances_trans; [apply (advances_set_state ws CLOSED w Hp)|]);
      (apply advances_do_on; [apply advances_set_state; exact Hp|]);
      intros r _; apply removeClient_discipline.
  - destruct (handlersOf (sys w) ws) as [|this|cid room];
      try (apply advances_refl; exact Hp).
    destruct (readyStateOf (sys w) ws);
      try (apply advances_refl; exact Hp).
    eapply advances_trans; [apply (advances_set_state ws OPEN w Hp)|].
    apply advances_do_on; [apply advances_set_state; exact Hp|].
    intros r _. apply onYahooOpen_discipline.
  - destruct (handlersOf (sys w) ws) as [|this|cid room];
      try (apply advances_refl; exact Hp).
    destruct (readyStateOf (sys w) ws);
      try (apply advances_refl; exact Hp).
    all: apply advances_do_on; [exact Hp|];
      intros r _; apply onYahooMessage_discipline.
  - destruct (handlersOf (sys w) ws) as [|this|cid room];
      try (apply advances_refl; exact Hp).
    destruct (readyStateOf (sys w) ws);
      try (apply advances_refl; exact Hp).
    all: (eapply advances_trans; [apply (advances_set_state ws CLOSED w Hp)|]);
      (apply advances_do_on; [apply advances_set_state; exact Hp|]);
      intros r _; apply onYahooClose_discipline.
  - destruct (handlersOf (sys w) ws) as [|this|cid room];
      try (apply advances_refl; exact Hp).
    destruct (readyStateOf (sys w) ws);
      try (apply advances_refl; exact Hp).
    all: (eapply advances_trans; [apply (advances_set_state ws CLOSING w Hp)|]);
      (apply advances_do_on; [apply advances_set_state; exact Hp|]);
      intros r _; apply onYahooError_discipline.
  - destruct (find_timer t (timers (sys w))) as [e|];
      [|apply advances_refl; exact Hp].
    destruct (due e <=? now (sys w)); [|apply advances_refl; exact Hp].
    destruct (kind e).
    + eapply advances_trans; [apply (advances_remove_timer t w Hp)|].
      apply advances_retire. apply advances_remove_timer. exact Hp.
    + eapply advances_trans; [apply (advances_rearm t w Hp)|].
      apply advances_do_on; [apply advances_rearm; exact Hp|].
      intros r _. apply heartbeatTick_discipline.
  - apply advances_deleteRoom. exact Hp.
Qed.
Lemma run_snoc (w : World) (es : list Event) (e : Event) :
  run validUrl sendable config w (es ++ [e])
  = step validUrl sendable config (run validUrl sendable config w es) e.
Proof. unfold run. rewrite fold_left_app. reflexivity. Qed.

Lemma trace_snoc (es : list Event) (e : Event) :
  forall w,
    trace validUrl sendable config w (es ++ [e])
    = trace validUrl sendable config w es ++ [run validUrl sendable config w (es ++ [e])].
Proof.
  induction es as [|e0 es IH]; intros w; simpl.
  - reflexivity.
  - rewrite IH. reflexivity.
Qed.

Lemma room_at_nth (w : World) (this : RoomRef) (r : Room) :
  nth_error (heap w) this = Some r -> room_at w this = r.
Proof. intros H. unfold room_at. apply nth_error_nth. exact H. Qed.

Lemma pending_empty (w : World) (e : Timer) :
  pending_ok w -> In e (timers (sys w)) -> kind e = CleanupTimer ->
  clients (room_at w (owner e)) = [].
Proof.
  intros Hp Hin Hk. destruct (Hp e Hin Hk) as (r & Hr & _ & He).
  rewrite (room_at_nth _ _ _ Hr). exact He.
Qed.

Lemma empty_since_later (this : RoomRef) (tr : list World) (w' : World)
  (d d' : Z) :
  empty_since this 2000 tr d -> d <= d' ->
  clients (room_at w' this) = [] ->
  empty_since this 2000 (tr ++ [w']) d'.
Proof.
  intros (tr1 & w0 & tr2 & Htr & Hd & Hall) Hle He.
  exists tr1, w0, (tr2 ++ [w']). split; [|split].
  - rewrite Htr, <- app_assoc. reflexivity.
  - lia.
  - change (w0 :: tr2 ++ [w']) with ((w0 :: tr2) ++ [w']).
    apply Forall_app. split; [exact Hall|]. constructor; [exact He|constructor].
Qed.

Lemma run_invariant (es : list Event) :
  pending_ok (run validUrl sendable config empty_world es)
  /\ timers_waited (trace validUrl sendable config empty_world es)
       (run validUrl sendable config empty_world es).
Proof.
  induction es as [|ev es [Hp Hw]] using rev_ind.
  - split; intros e Hin; simpl in Hin; contradiction.
  - rewrite trace_snoc, run_snoc.
    set (w := run validUrl sendable config empty_world es) in *.
    destruct (is_Elapse ev) eqn:Hev.
    + destruct ev; try discriminate Hev. simpl.
      split.
      * intros e Hin Hk. apply Hp; auto.
      * intros e Hin Hk. simpl in Hin.
        apply empty_since_later with (d := due e); [apply Hw; auto|lia|].
        apply (pending_empty w e Hp Hin Hk).
    + destruct (step_advances w ev Hp Hev) as (Hp' & Hn & Ho).
      split; [exact Hp'|].
      intros e' Hin Hk.
      destruct (Ho e' Hin Hk) as [(e & Hin0 & Hk0 & Hown & Hdue)|Hnew].
      * rewrite <- Hown.
        apply empty_since_later with (d := due e); [apply Hw; auto|lia|].
        rewrite Hown. apply (pending_empty _ e' Hp' Hin Hk).
      * exists (trace validUrl sendable config empty_world es),
          (step validUrl sendable config w ev), [].
        split; [reflexivity|]. split; [lia|].
        constructor; [|constructor].
        apply (pending_empty _ e' Hp' Hin Hk).
Qed.

Lemma find_timer_In (t : Timeout) (l : list Timer) (e : Timer) :
  find_timer t l = Some e -> In e l /\ handle e = t.
Proof.
  induction l as [|x l IH]; simpl; [discriminate|].
  destruct (Nat.eqb (handle x) t) eqn:E.
  - intros H. injection H as <-. apply Nat.eqb_eq in E. auto.
  - intros H. destruct (IH H). auto.
Qed.

Lemma removeClient_restarts (this : RoomRef) (ws : WebSocket) (r : Room)
  (s : Sys) :
  map_delete Nat.eqb ws (clients r) = [] ->
  let st := exec (removeClient this ws) r s in
  clients (fst st) = []
  /\ cleanupTimeout (fst st) = Some (nextTimer s)
  /\ timers (snd st)
     = cancel (cleanupTimeout r) (timers s) ++ [retirement_timer this s].
Proof.
  intros He. unfold removeClient. run_room. rewrite He. simpl.
  destruct (cleanupTimeout r) as [t|]; simpl; run_room; auto.
Qed.

Lemma addClient_cancels (this : RoomRef) (ws : WebSocket) (cid : string)
  (pos : Number) (r : Room) (s : Sys) :
  let st := exec (addClient validUrl this ws cid pos) r s in
  cleanupTimeout (fst st) = None
  /\ timers (snd st) = cancel (cleanupTimeout r) (timers s)
  /\ (forall l code reason,
        In (WsClose l code reason) (new_calls s (snd st)) ->
        reason = "New client joined - forcing reconnection"%string).
Proof.
  unfold addClient, connectToYahoo. run_room.
  destruct (cleanupTimeout r) as [t|] eqn:Hct; simpl; run_room; branch;
    unfold sys_close, sys_log, sys_on, sys_new_socket, new_calls, new_entries;
    simpl; rewrite ?Hct; rewrite <- ?app_assoc; rewrite ?app_nil_r;
    try rewrite skipn_length_app; simpl;
    (split; [reflexivity|split; [reflexivity|]]);
    intros l0 code reason Hin;
    repeat (destruct Hin as [Hin|Hin];
            [first [discriminate Hin | injection Hin as _ _ <-; reflexivity]|]);
    contradiction.
Qed.
Lemma retire_run (r : Room) (s : Sys) :
  let st := exec (disconnectFromYahoo ;; cleanup) r s in
  (id (fst st) = id r
   /\ yahooWs (fst st) = None
   /\ clients (fst st) = []
   /\ cleanupTimeout (fst st) = None
   /\ heartbeatInterval (fst st) = None
   /\ isIntentionalDisconnect (fst st) = true)
  /\ timers (snd st)
     = cancel (cleanupTimeout r) (cancel (heartbeatInterval r) (timers s))
  /\ (forall l, yahooWs r = Some l ->
                In (WsClose l 1000 "No clients remaining in room")
                   (new_calls s (snd st)))
  /\ (forall l code reason,
        In (WsClose l code reason) (new_calls s (snd st)) ->
        yahooWs r = Some l /\ code = 1000).
Proof.
  unfold disconnectFromYahoo, cleanup, stopHeartbeat. run_room.
  destruct (yahooWs r) as [l|] eqn:Hy; simpl; run_room;
    destruct (heartbeatInterval r) as [h|] eqn:Hh; simpl; run_room;
    destruct (cleanupTimeout r) as [t|] eqn:Ht; simpl; run_room;
    rewrite ?Hy, ?Hh, ?Ht; simpl; run_room;
    unfold sys_close, sys_log, new_calls, new_entries; simpl;
    rewrite <- ?app_assoc; rewrite ?app_nil_r;
    try rewrite skipn_length_app; simpl;
    try (replace (skipn (List.length (log s)) (log s)) with (@nil Entry)
          by (rewrite <- (app_nil_r (log s)) at 2;
              rewrite skipn_length_app; reflexivity); simpl).
  all: split; [repeat split; simpl; auto|].
  all: split; [rewrite ?Hy, ?Hh, ?Ht; reflexivity|].
  all: split.
  all: try (intros l0 Hl0; first [discriminate Hl0
                                 | injection Hl0 as <-; simpl; auto]).
  all: intros l0 code reason Hin; simpl in Hin;
    repeat (destruct Hin as [Hin|Hin];
            [first [discriminate Hin
                   | injection Hin as <- <- _; auto]|]);
    contradiction.
Qed.

Lemma timer_expiry (w : World) (t : Timeout) (e : Timer) (r : Room) :
  find_timer t (timers (sys w)) = Some e ->
  kind e = CleanupTimer ->
  due e <= now (sys w) ->
  nth_error (heap w) (owner e) = Some r ->
  let w' := step validUrl sendable config w (TimerFire t) in
  rooms w' = map_delete String.eqb (id r) (rooms w)
  /\ (exists r',
         nth_error (heap w') (owner e) = Some r'
         /\ yahooWs r' = None /\ clients r' = []
         /\ cleanupTimeout r' = None /\ heartbeatInterval r' = None
         /\ isIntentionalDisconnect r' = true)
  /\ timers (sys w')
     = cancel (cleanupTimeout r)
         (cancel (heartbeatInterval r) (remove_timer t (timers (sys w))))
  /\ (forall l, yahooWs r = Some l ->
                In (WsClose l 1000 "No clients remaining in room")
                   (new_calls (sys w) (sys w')))
  /\ (forall l code reason,
        In (WsClose l code reason) (new_calls (sys w) (sys w')) ->
        yahooWs r = Some l /\ code = 1000).
Proof.
  intros Hf Hk Hd Hr. cbv zeta. simpl. rewrite Hf.
  apply Z.leb_le in Hd. rewrite Hd, Hk.
  unfold retire.
  set (w1 := set_sys (set_timers (remove_timer t (timers (sys w))) (sys w)) w).
  assert (Hr1 : nth_error (heap w1) (owner e) = Some r) by exact Hr.
  rewrite (do_on_run _ _ _ _ Hr1).
  destruct (retire_run r (sys w1)) as ((Hid & Hy & Hc & Hct & Hhb & Hint)
                                       & Htm & Hclose & Honly).
  remember (exec (disconnectFromYahoo ;; cleanup) r (sys w1)) as st eqn:Est.
  cbn [heap set_sys set_heap]. change (heap w1) with (heap w).
  rewrite nth_error_list_update_same, Hr. cbn [option_map].
  rewrite Hid.
  split; [reflexivity|]. split.
  { exists (fst st). cbn [heap set_rooms set_sys set_heap].
    rewrite nth_error_list_update_same, Hr. auto 10. }
  split; [exact Htm|].
  split; [exact Hclose|exact Honly].
Qed.

Lemma connection_reuses_room (w : World) (q : Query) (uuid : string)
  (room : RoomRef) (r : Room) :
  rejects q = false ->
  map_get String.eqb (or_string (query_leagueId q) "") (rooms w) = Some room ->
  nth_error (heap w) room = Some r ->
  yahooWebSocketUrl r = or_string (query_websocketUrl q) "" ->
  let w' := step validUrl sendable config w (Connection q uuid) in
  List.length (heap w') = List.length (heap w)
  /\ rooms w' = rooms w
  /\ timers (sys w') = cancel (cleanupTimeout r) (timers (sys w))
  /\ (exists r', nth_error (heap w') room = Some r'
                 /\ cleanupTimeout r' = None
                 /\ id r' = id r)
  /\ (forall l code reason,
        In (WsClose l code reason) (new_calls (sys w) (sys w')) ->
        reason = "New client joined - forcing reconnection"%string).
Proof.
  intros Hacc Hreg Hr Hurl. cbv zeta. simpl. unfold onConnection.
  rewrite Hacc. unfold get_or_create. simpl. rewrite Hreg, Hr.
  rewrite Hurl, String.eqb_refl. simpl.
  set (w0 := set_sys (sys_new_socket OPEN (sys w)) w).
  assert (Hr0 : nth_error (heap w0) room = Some r) by exact Hr.
  rewrite (do_on_run _ _ _ _ Hr0).
  match goal with
  | |- context [exec ?m r (sys w0)] =>
      destruct (addClient_cancels room
                  (List.length (sockets (sys w))) uuid
                  (parseInt (or_string (query_draftPosition q) "0")) r (sys w0)) as (Hct & Htm & Hcl);
      remember (exec m r (sys w0)) as st eqn:Est
  end.
  cbn [heap rooms sys set_sys set_heap set_clientConnections timers sys_on
       set_sockets].
  change (heap w0) with (heap w).
  split; [apply length_list_update|]. split; [reflexivity|].
  split; [exact Htm|]. split.
  - exists (fst st). rewrite nth_error_list_update_same, Hr.
    repeat split; auto.
    rewrite Est. unfold addClient, connectToYahoo. run_room. branch;
      reflexivity.
  - exact Hcl.
Qed.


End Retirement.



(** * The rest of the Room class *)

(** ** Dialing *)

Section Dialing.
Variable validUrl : string -> bool.
Variable sendable : option JsonValue -> bool.

(** X1: [connectToYahoo] called twice in a row does what one call does:
    the second call returns the same result and leaves the state of the
    first (a dial in flight, or an open link, makes it return at once; a
    constructor that throws throws again).  One call creates at most one
    socket, and none while the Room is connecting or its link is open. *)
Theorem connectToYahoo_twice_dials_once (this : RoomRef) (r : Room) (s : Sys) :
  let once := connectToYahoo validUrl this (r, s) in
  let twice := connectToYahoo validUrl this (snd once) in
  twice = once
  /\ (List.length (sockets (snd (snd once))) <= S (List.length (sockets s)))%nat
  /\ (isConnectingToYahoo r = true \/ yahooOpen r s = true ->
      once = (Ok tt, (r, s))).
Proof.
  unfold connectToYahoo. run_room.
  destruct (isConnectingToYahoo r) eqn:Hc; simpl.
  - repeat split; auto. rewrite Hc. reflexivity.
  - destruct (yahooOpen r s) eqn:Ho; simpl.
    + rewrite Hc, Ho. simpl. repeat split; auto.
    + destruct (validUrl (yahooWebSocketUrl r)) eqn:Hv; simpl.
      * split; [reflexivity|]. split.
        -- unfold sys_on, sys_log, sys_new_socket; simpl.
           rewrite length_list_update, length_app. simpl. lia.
        -- intros [H|H]; discriminate H.
      * rewrite (yahooOpen_eq r _ s s) by reflexivity. rewrite Ho, Hv. simpl.
        split; [|split; [lia|intros [H|H]; discriminate H]].
        destruct r; reflexivity.
Qed.


Lemma strict_equal_eq (a b : option JsonValue) :
  strict_equal a b = true -> a = b.
Proof.
  destruct a as [[| x | x | x | x | x | x]|], b as [[| y | y | y | y | y | y]|];
    simpl; intros H; try discriminate H; try reflexivity.
  - apply eqb_prop in H. congruence.
  - destruct x as [x|x|], y as [y|y|]; simpl in H; try discriminate H.
    + apply Z.eqb_eq in H. congruence.
    + apply eqb_prop in H. congruence.
  - apply String.eqb_eq in H. congruence.
  - apply String.eqb_eq in H. congruence.
Qed.

Lemma reconnect_dials (this : RoomRef) (data : JsonValue) (text : string)
  (r : Room) (s : Sys) :
  js_get data "leagueId" = Some (JString (leagueId r)) ->
  template (js_get data "draftPosition") = Some text ->
  printed (draftPosition r) ->
  isConnectingToYahoo r = false ->
  validUrl (yahooWebSocketUrl r) = true ->
  let up := List.length (sockets s) in
  let res := handleClientReconnectRequest validUrl this (Some data) (r, s) in
  fst res = Ok tt
  /\ new_calls s (snd (snd res))
     = match yahooWs r with
       | Some l => [WsClose l 1000 "Client-initiated reconnection"]
       | None => []
       end ++ [NewWebSocket up (yahooWebSocketUrl r)]
  /\ yahooWs (fst (snd res)) = Some up
  /\ leagueId (fst (snd res)) = leagueId r
  /\ draftPosition (fst (snd res))
     = {| position_value := js_get data "draftPosition";
          position_text := text |}
  /\ platformUserId (fst (snd res)) = platformUserId r
  /\ nth_error (sockets (snd (snd res))) up
     = Some {| readyState := CONNECTING; handlers := YahooHandlers this |}.
Proof.
  intros Hl Ht Hp Hc Hv.
  unfold handleClientReconnectRequest, connectToYahoo, new_calls. run_room.
  destruct data as [| | | | | |props]; try discriminate Hl.
  simpl in Hl, Ht |- *. rewrite Hl. simpl. rewrite String.eqb_refl. simpl.
  destruct (strict_equal (property "draftPosition" props)
                         (position_value (draftPosition r))) eqn:E;
    [|rewrite Ht]; simpl;
    run_room; (destruct (yahooWs r) as [l|] eqn:Hws); simpl; run_room;
    rewrite Hc; simpl; run_room;
    try rewrite yahooOpen_none by (simpl; first [reflexivity|assumption]);
    simpl; rewrite Hv; simpl; run_room;
    unfold sys_close, sys_log, sys_new_socket, sys_on; simpl;
    rewrite ?length_list_update;
    (split; [reflexivity|]);
    (split; [unfold new_entries; simpl; rewrite <- ?app_assoc;
             rewrite skipn_length_app; reflexivity|]);
    (split; [reflexivity|]); (split; [reflexivity|]);
    (split;
     [first
        [ reflexivity
        | apply strict_equal_eq in E; unfold printed in Hp;
          destruct (draftPosition r) as [v t]; simpl in *; congruence ]|]);
    (split; [reflexivity|]).
  all: rewrite nth_error_update_snoc;
    [reflexivity|rewrite ?length_list_update; reflexivity].
Qed.

End Dialing.

Section Reconnected.
Variable validUrl : string -> bool.
Variable sendable : option JsonValue -> bool.
Variable config : Config.

(** X3: a reconnect request for the Room's own league, received while no
    dial is in flight, closes the link the Room holds (if any) with code
    1000 and "Client-initiated reconnection" and dials the Room's URL;
    the requester gets no frame back.  The Room then holds as its position
    the [draftPosition] of the request, whatever value that is (no
    [draftPosition] at all is [undefined]), and when the new link opens,
    the join frame on it carries that value as a template literal prints
    it.  The request is the [data] of a frame
    [{type: "yahoo_reconnect", data}]; a position that cannot be printed
    (the conversion throws) is not covered. *)
Theorem reconnect_request_redials_and_rejoins
  (w : World) (ws : WebSocket) (cid : string) (room : RoomRef) (r : Room)
  (message : string) (jsonMessage data : JsonValue) (text : string) :
  handlersOf (sys w) ws = ClientHandlers cid room ->
  readyStateOf (sys w) ws = OPEN ->
  nth_error (heap w) room = Some r ->
  clientRequest jsonMessage = Reconnect (Some data) ->
  js_get data "leagueId" = Some (JString (leagueId r)) ->
  template (js_get data "draftPosition") = Some text ->
  printed (draftPosition r) ->
  isConnectingToYahoo r = false ->
  validUrl (yahooWebSocketUrl r) = true ->
  let up := List.length (sockets (sys w)) in
  let w1 :=
    step validUrl sendable config w
      (ClientMessage ws (Parsed message jsonMessage)) in
  let w2 := step validUrl sendable config w1 (YahooOpen up) in
  new_calls (sys w) (sys w1)
  = match yahooWs r with
    | Some l => [WsClose l 1000 "Client-initiated reconnection"]
    | None => []
    end ++ [NewWebSocket up (yahooWebSocketUrl r)]
  /\ position_value (draftPosition (room_at w1 room))
     = js_get data "draftPosition"
  /\ text_sends (new_entries (sys w1) (sys w2))
     = [(up,
         ("8|" ++ leagueId r ++ "|" ++ text ++ "|"
          ++ encodeURIComponent
               ("YahooFantasyProxy/1.0 (" ++ platformUserId r ++ ")")
          ++ "|")%string)].
Proof.
  intros Hh Hst Hr Hreq Hl Ht Hp Hc Hv. cbv zeta.
  destruct (reconnect_dials validUrl room data text r (sys w) Hl Ht Hp Hc Hv)
    as (Hok & Hcalls & Hws & Hlid & Hpos & Huser & Hsock).
  remember (handleClientReconnectRequest validUrl room (Some data) (r, sys w))
    as res eqn:Eres.
  assert (Hw1 :
            step validUrl sendable config w
              (ClientMessage ws (Parsed message jsonMessage))
            = set_sys (snd (snd res))
                (set_heap (list_update room (fun _ => fst (snd res)) (heap w))
                          w)).
  { simpl. rewrite Hh, Hst. unfold onClientMessage, call_on.
    rewrite Hreq, Hr.
    rewrite <- Eres. destruct res as [[u|err] st]; [reflexivity|].
    discriminate Hok. }
  rewrite Hw1. clear Hw1 Eres.
  set (w1 := set_sys _ _).
  assert (Hh1 : handlersOf (sys w1) (List.length (sockets (sys w)))
                = YahooHandlers room).
  { unfold handlersOf, w1, set_sys; cbn [sys]. rewrite Hsock. reflexivity. }
  assert (Hst1 : readyStateOf (sys w1) (List.length (sockets (sys w)))
                 = CONNECTING).
  { unfold readyStateOf, w1, set_sys; cbn [sys]. rewrite Hsock. reflexivity. }
  assert (Hr1 : nth_error (heap w1) room = Some (fst (snd res))).
  { unfold w1; simpl. rewrite nth_error_list_update_same, Hr. reflexivity. }
  split; [exact Hcalls|]. split.
  - unfold room_at. rewrite (nth_error_nth _ _ _ Hr1), Hpos. reflexivity.
  - pose proof (step_YahooOpen_join validUrl sendable config w1
                  (List.length (sockets (sys w))) room (fst (snd res))
                  Hh1 Hst1 Hr1 Hws) as H.
    cbv zeta in H. destruct H as (H & _). rewrite H.
    unfold joinMessage, userAgent. rewrite Hlid, Hpos, Huser. reflexivity.
Qed.

End Reconnected.

Lemma reconnect_request_redials_and_rejoins_witness :
  (handlersOf (sys world_open) 0%nat = ClientHandlers "c1" 0%nat
   /\ readyStateOf (sys world_open) 0%nat = OPEN
   /\ nth_error (heap world_open) 0%nat = Some (room_at world_open 0%nat)
   /\ js_get reconnect_5 "leagueId"
      = Some (JString (leagueId (room_at world_open 0%nat)))
   /\ template (js_get reconnect_5 "draftPosition") = Some "5"
   /\ printed (draftPosition (room_at world_open 0%nat))
   /\ isConnectingToYahoo (room_at world_open 0%nat) = false
   /\ any_url (yahooWebSocketUrl (room_at world_open 0%nat)) = true)
  /\ text_sends
       (new_entries
          (sys (step any_url any_data demo_config world_open
                  (ClientMessage 0%nat (JsonYahooReconnect reconnect_5))))
          (sys (step any_url any_data demo_config
                  (step any_url any_data demo_config world_open
                     (ClientMessage 0%nat (JsonYahooReconnect reconnect_5)))
                  (YahooOpen 2%nat))))
     = [(2%nat, "8|12345|5|YahooFantasyProxy%2F1.0%20(user-a)|")].
Proof.
  assert (H1 : handlersOf (sys world_open) 0%nat = ClientHandlers "c1" 0%nat)
    by (vm_compute; reflexivity).
  assert (H2 : readyStateOf (sys world_open) 0%nat = OPEN)
    by (vm_compute; reflexivity).
  assert (H3 : nth_error (heap world_open) 0%nat
               = Some (room_at world_open 0%nat))
    by (vm_compute; reflexivity).
  assert (Hq : clientRequest
                 (JObject [("type", JString "yahoo_reconnect");
                           ("data", reconnect_5)])
               = Reconnect (Some reconnect_5))
    by reflexivity.
  assert (H4 : js_get reconnect_5 "leagueId"
               = Some (JString (leagueId (room_at world_open 0%nat))))
    by (vm_compute; reflexivity).
  assert (H5 : template (js_get reconnect_5 "draftPosition") = Some "5")
    by (vm_compute; reflexivity).
  assert (H6 : printed (draftPosition (room_at world_open 0%nat)))
    by (vm_compute; reflexivity).
  assert (H7 : isConnectingToYahoo (room_at world_open 0%nat) = false)
    by (vm_compute; reflexivity).
  assert (H8 : any_url (yahooWebSocketUrl (room_at world_open 0%nat)) = true)
    by reflexivity.
  split;
    [exact (conj H1 (conj H2 (conj H3 (conj H4 (conj H5 (conj H6
              (conj H7 H8)))))))|].
  pose proof (reconnect_request_redials_and_rejoins any_url any_data demo_config
                world_open 0%nat "c1" 0%nat (room_at world_open 0%nat)
                (JSON_stringify
                   (JObject [("type", JString "yahoo_reconnect");
                             ("data", reconnect_5)]))
                _ reconnect_5 "5" H1 H2 H3 Hq H4 H5 H6 H7 H8) as H.
  cbv zeta in H. destruct H as (_ & _ & H).
  vm_compute in H. vm_compute. exact H.
Defined.

(** ** Leaving, relaying and the heartbeat *)

Lemma map_get_delete_same {K V : Type} (eqb : K -> K -> bool) (k : K)
  (m : list (K * V)) :
  map_get eqb k (map_delete eqb k m) = None.
Proof.
  induction m as [|[k' v] m IH]; simpl; [reflexivity|].
  destruct (eqb k k') eqn:E; simpl; [exact IH|]. rewrite E. exact IH.
Qed.

Lemma removeClient_others_remain (this : RoomRef) (ws : WebSocket) (r : Room)
  (s : Sys) :
  map_delete Nat.eqb ws (clients r) <> [] ->
  exec (removeClient this ws) r s
  = (set_clients (map_delete Nat.eqb ws (clients r)) r, s).
Proof.
  intros Hne. unfold removeClient. run_room.
  destruct (map_delete Nat.eqb ws (clients r)) as [|c cs] eqn:E;
    [contradiction|reflexivity].
Qed.

Lemma sendToYahoo_run (sendable : option JsonValue -> bool)
  (data : option JsonValue) (r : Room) (s : Sys) :
  sendToYahoo sendable data (r, s)
  = match yahooWs r with
    | Some l =>
        if is_OPEN s l then
          match payload_of sendable data with
          | Some p => (Ok tt, (r, sys_log (WsSend l p) (Some r) s))
          | None =>
              (Throw "The first argument must be of type string or an instance of Buffer",
               (r, s))
          end
        else (Ok tt, (r, s))
    | None => (Ok tt, (r, s))
    end.
Proof.
  unfold sendToYahoo, ws_send_value.
  unfold bind, ret, this_room, yahoo_open, ws_send, emit; simpl.
  unfold yahooOpen.
  destruct (yahooWs r) as [l|]; [|reflexivity].
  destruct (is_OPEN s l); [|reflexivity].
  destruct (payload_of sendable data); reflexivity.
Qed.

Lemma heartbeatTick_run (r : Room) (s : Sys) :
  exec heartbeatTick r s
  = match yahooWs r with
    | Some l =>
        if is_OPEN s l
        then (set_lastHeartbeat (now s) r,
              sys_log (WsSend l (Text "c")) (Some r) s)
        else (r, s)
    | None => (r, s)
    end.
Proof.
  unfold heartbeatTick. run_room. unfold yahooOpen.
  destruct (yahooWs r) as [l|]; [|reflexivity].
  destruct (is_OPEN s l); reflexivity.
Qed.

Lemma find_timer_rearm (t : Timeout) (ms : Z) (l : list Timer) (e : Timer) :
  find_timer t l = Some e ->
  find_timer t (rearm t ms l)
  = Some {| handle := handle e; kind := kind e; owner := owner e;
            due := due e + ms |}.
Proof.
  induction l as [|x l IH]; simpl; [discriminate|].
  destruct (Nat.eqb (handle x) t) eqn:E; simpl; rewrite E.
  - intros H. injection H as <-. reflexivity.
  - exact IH.
Qed.

Lemma cleanup_again (r : Room) (s : Sys) :
  yahooWs r = None -> clients r = [] -> heartbeatInterval r = None ->
  cleanupTimeout r = None -> hasJoined r = false ->
  isIntentionalDisconnect r = true ->
  exec cleanup r s = (r, s).
Proof.
  intros H1 H2 H3 H4 H5 H6. unfold cleanup, stopHeartbeat. run_room.
  rewrite H3. simpl. rewrite H4. simpl. rewrite H1. simpl.
  destruct r; simpl in *; subst; reflexivity.
Qed.

Lemma cleanup_run (r : Room) (s : Sys) :
  let st := exec cleanup r s in
  (yahooWs (fst st) = None /\ clients (fst st) = []
   /\ heartbeatInterval (fst st) = None /\ cleanupTimeout (fst st) = None
   /\ hasJoined (fst st) = false /\ isIntentionalDisconnect (fst st) = true)
  /\ timers (snd st)
     = cancel (cleanupTimeout r) (cancel (heartbeatInterval r) (timers s))
  /\ new_calls s (snd st)
     = match heartbeatInterval r with
       | Some t => [ClearInterval t]
       | None => []
       end
       ++ match cleanupTimeout r with
          | Some t => [ClearTimeout t]
          | None => []
          end
       ++ match yahooWs r with
          | Some l => [WsClose l 1000 "Room cleanup"]
          | None => []
          end.
Proof.
  unfold cleanup, stopHeartbeat. run_room. branch.
  all: unfold new_calls, new_entries, sys_close, sys_log; simpl.
  all: rewrite <- ?app_assoc; rewrite ?skipn_length_app, ?skipn_all; simpl.
  all: repeat split.
  all: assumption.
Qed.

(** X4: [cleanup] releases what the Room holds and nothing else: it clears
    the heartbeat interval and the retirement timer if they are set, closes
    the upstream link, if any, with code 1000 and "Room cleanup", and
    empties the client set without closing or telling the clients.
    Afterwards the Room holds no link, no client and no timer, and a second
    [cleanup] changes nothing and makes no call. *)
Theorem cleanup_releases_everything_once (r : Room) (s : Sys) :
  let st := exec cleanup r s in
  (yahooWs (fst st) = None /\ clients (fst st) = []
   /\ heartbeatInterval (fst st) = None /\ cleanupTimeout (fst st) = None
   /\ hasJoined (fst st) = false /\ isIntentionalDisconnect (fst st) = true)
  /\ timers (snd st)
     = cancel (cleanupTimeout r) (cancel (heartbeatInterval r) (timers s))
  /\ new_calls s (snd st)
     = match heartbeatInterval r with
       | Some t => [ClearInterval t]
       | None => []
       end
       ++ match cleanupTimeout r with
          | Some t => [ClearTimeout t]
          | None => []
          end
       ++ match yahooWs r with
          | Some l => [WsClose l 1000 "Room cleanup"]
          | None => []
          end
  /\ exec cleanup (fst st) (snd st) = st.
Proof.
  pose proof (cleanup_run r s) as H. cbv zeta in *.
  remember (exec cleanup r s) as st eqn:Est.
  destruct H as ((H1 & H2 & H3 & H4 & H5 & H6) & Ht & Hc).
  split; [auto 10|]. split; [exact Ht|]. split; [exact Hc|].
  rewrite (cleanup_again _ _ H1 H2 H3 H4 H5 H6). destruct st; reflexivity.
Qed.

Section Sessions.
Variable validUrl : string -> bool.
Variable sendable : option JsonValue -> bool.
Variable config : Config.

(** X5: when a client leaves a Room in which other clients remain, only
    the bookkeeping changes: the socket is closed, the client is out of
    the Room's client set and its session out of [clientConnections].  No
    call is made (the upstream link is neither closed nor re-dialed, the
    others are not told), no timer is started and the registry is as
    before. *)
Theorem client_leaving_a_shared_room_changes_nothing_else
  (w : World) (ws : WebSocket) (cid : string) (room : RoomRef) (r : Room) :
  handlersOf (sys w) ws = ClientHandlers cid room ->
  readyStateOf (sys w) ws = OPEN \/ readyStateOf (sys w) ws = CLOSING ->
  nth_error (heap w) room = Some r ->
  map_delete Nat.eqb ws (clients r) <> [] ->
  let w' := step validUrl sendable config w (ClientClose ws) in
  nth_error (heap w') room
  = Some (set_clients (map_delete Nat.eqb ws (clients r)) r)
  /\ map_get Nat.eqb ws (map_delete Nat.eqb ws (clients r)) = None
  /\ map_get String.eqb cid (clientConnections w') = None
  /\ readyStateOf (sys w') ws = CLOSED
  /\ rooms w' = rooms w
  /\ timers (sys w') = timers (sys w)
  /\ new_calls (sys w) (sys w') = [].
Proof.
  intros Hh Hst Hr Hne w'.
  assert (Hlt : (ws < List.length (sockets (sys w)))%nat).
  { destruct Hst as [Hst|Hst];
      apply (readyStateOf_known _ _ _ Hst); discriminate. }
  assert (E : w' = onClientClose ws cid room (set_state ws CLOSED w)).
  { subst w'. simpl. rewrite Hh. destruct Hst as [-> | ->]; reflexivity. }
  rewrite E. unfold onClientClose.
  set (w0 := set_state ws CLOSED w).
  assert (Hr0 : nth_error (heap w0) room = Some r) by exact Hr.
  rewrite (do_on_run _ _ _ _ Hr0).
  rewrite (removeClient_others_remain room ws r (sys w0) Hne).
  cbn [fst snd heap rooms clientConnections sys set_sys set_heap
       set_clientConnections].
  change (heap w0) with (heap w).
  split; [rewrite nth_error_list_update_same, Hr; reflexivity|].
  split; [apply map_get_delete_same|].
  split; [apply map_get_delete_same|].
  split; [apply (readyStateOf_set_state w ws CLOSED Hlt)|].
  split; [reflexivity|]. split; [reflexivity|].
  unfold new_calls, new_entries. simpl. rewrite skipn_all. reflexivity.
Qed.

(** X6: what a client frame that is no reconnect request sends upstream.
    The frame goes upstream when the link of the client's Room is open:
    a frame that is not JSON, and the frame [null], as they came; of a
    frame with [type: "yahoo_message"] the [data]: a string as it is, a
    number as its text, another value (an object, an array, a boolean,
    [null], no [data] at all) as the frame the library makes of it, and
    when the library refuses the value, the frame as it came instead; of
    any other frame nothing.  When the Room has no open link the frame is
    dropped: nothing is sent, nothing is queued and the client gets no
    error.  The Room, the registry, the sockets and the timers stay as
    they are either way. *)
Theorem client_frames_are_relayed_verbatim_or_dropped
  (w : World) (ws : WebSocket) (cid : string) (room : RoomRef) (r : Room)
  (f : ClientFrame) :
  handlersOf (sys w) ws = ClientHandlers cid room ->
  readyStateOf (sys w) ws = OPEN ->
  nth_error (heap w) room = Some r ->
  (forall message j,
      f = Parsed message j ->
      js_get j "type" <> Some (JString "yahoo_reconnect")) ->
  let w' := step validUrl sendable config w (ClientMessage ws f) in
  (heap w' = heap w /\ rooms w' = rooms w
   /\ clientConnections w' = clientConnections w
   /\ sockets (sys w') = sockets (sys w)
   /\ timers (sys w') = timers (sys w))
  /\ exists sent,
       new_calls (sys w) (sys w')
       = match yahooWs r with
         | Some l => if is_OPEN (sys w) l then map (WsSend l) sent else []
         | None => []
         end
       /\ match f with
          | NotJson message => sent = [Text message]
          | Parsed message JNull => sent = [Text message]
          | Parsed message j =>
              if strict_equal (js_get j "type") (Some (JString "yahoo_message"))
              then
                match js_get j "data" with
                | Some (JString s) => sent = [Text s]
                | Some (JNumber n) => sent = [Text (Number_toString n)]
                | Some (JFraction text) => sent = [Text text]
                | data =>
                    sent = if sendable data then [Data data]
                           else [Text message]
                end
              else sent = []
          end.
Proof.
  intros Hh Hst Hr Hf w'.
  assert (Hrelay :
            forall message w0,
              w0 = do_on room (sendToYahoo sendable (Some (JString message))) w ->
              (heap w0 = heap w /\ rooms w0 = rooms w
               /\ clientConnections w0 = clientConnections w
               /\ sockets (sys w0) = sockets (sys w)
               /\ timers (sys w0) = timers (sys w))
              /\ new_calls (sys w) (sys w0)
                 = match yahooWs r with
                   | Some l =>
                       if is_OPEN (sys w) l
                       then map (WsSend l) [Text message] else []
                   | None => []
                   end).
  { intros message w0 ->. rewrite (do_on_run _ _ _ _ Hr).
    unfold exec. rewrite sendToYahoo_run.
    destruct (yahooWs r) as [l|]; [destruct (is_OPEN (sys w) l)|];
      cbn [fst snd heap rooms clientConnections sys set_sys set_heap
           payload_of];
      rewrite (list_update_same _ _ _ Hr); repeat split.
    all: unfold new_calls, new_entries; simpl;
      rewrite ?skipn_length_app, ?skipn_all; reflexivity. }
  assert (Hdata :
            forall message data w0,
              w0 = match call_on room (sendToYahoo sendable data) w with
                   | (Some (Throw _), w1) =>
                       do_on room
                         (sendToYahoo sendable (Some (JString message))) w1
                   | (_, w1) => w1
                   end ->
              (heap w0 = heap w /\ rooms w0 = rooms w
               /\ clientConnections w0 = clientConnections w
               /\ sockets (sys w0) = sockets (sys w)
               /\ timers (sys w0) = timers (sys w))
              /\ new_calls (sys w) (sys w0)
                 = match yahooWs r with
                   | Some l =>
                       if is_OPEN (sys w) l
                       then map (WsSend l)
                              [match payload_of sendable data with
                               | Some p => p
                               | None => Text message
                               end]
                       else []
                   | None => []
                   end).
  { intros message data w0 ->. unfold call_on. rewrite Hr.
    rewrite sendToYahoo_run.
    destruct (yahooWs r) as [l|] eqn:Hl;
      [destruct (is_OPEN (sys w) l) eqn:Ho;
       [destruct (payload_of sendable data) as [p|]|]|];
      cbn [fst snd heap rooms clientConnections sys set_sys set_heap];
      rewrite ?(list_update_same _ _ _ Hr).
    2: { replace (set_sys (sys w) (set_heap (heap w) w)) with w
           by (destruct w; reflexivity).
         destruct (Hrelay message _ eq_refl) as (H1 & H2).
         split; [exact H1|]. rewrite H2, ?Hl, ?Ho. reflexivity. }
    all: repeat split.
    all: unfold new_calls, new_entries; simpl;
      rewrite ?skipn_length_app, ?skipn_all; reflexivity. }
  subst w'. simpl. rewrite Hh, Hst. unfold onClientMessage.
  destruct f as [message|message j].
  - destruct (Hrelay message _ eq_refl) as (H1 & H2).
    split; [exact H1|]. eexists. split; [exact H2|reflexivity].
  - specialize (Hf message j eq_refl).
    apply strict_equal_string in Hf.
    destruct j as [| b | n | text | s | l | l];
      try (destruct (Hrelay message _ eq_refl) as (H1 & H2);
           split; [exact H1|]; eexists; split; [exact H2|reflexivity]).
    all: unfold clientRequest; rewrite Hf.
    all: destruct (strict_equal _ (Some (JString "yahoo_message"))) eqn:Et;
      try (simpl in Et; discriminate Et).
    all: try (match goal with
              | |- context [call_on _ (sendToYahoo _ ?d) _] =>
                  destruct (Hdata message d _ eq_refl) as (H1 & H2)
              end;
              split; [exact H1|]; eexists; split; [exact H2|];
              unfold payload_of;
              match goal with
              | |- context [match ?d with _ => _ end] =>
                  destruct d as [[| | | | | |]|]
              end;
              try reflexivity; destruct (sendable _); reflexivity).
    all: split; [repeat split|].
    all: exists []; split; [|reflexivity].
    all: unfold new_calls, new_entries; rewrite skipn_all; simpl.
    all: destruct (yahooWs r) as [l0|]; [destruct (is_OPEN (sys w) l0)|];
      reflexivity.
Qed.

(** X7: when the heartbeat timer of a Room fires, the Room sends the text
    frame "c" on its upstream link and stamps [lastHeartbeat] with the
    time, if it holds a link that is open; otherwise it sends nothing and
    stays as it is.  The timer stays pending for the same Room; sockets,
    registry and sessions are untouched. *)
Theorem heartbeat_beats_only_on_an_open_link
  (w : World) (t : Timeout) (e : Timer) (r : Room) :
  find_timer t (timers (sys w)) = Some e ->
  kind e = HeartbeatTimer ->
  due e <= now (sys w) ->
  nth_error (heap w) (owner e) = Some r ->
  let w' := step validUrl sendable config w (TimerFire t) in
  new_calls (sys w) (sys w')
  = match yahooWs r with
    | Some l => if is_OPEN (sys w) l then [WsSend l (Text "c")] else []
    | None => []
    end
  /\ nth_error (heap w') (owner e)
     = Some (if yahooOpen r (sys w)
             then set_lastHeartbeat (now (sys w)) r
             else r)
  /\ (exists e', find_timer t (timers (sys w')) = Some e'
                 /\ kind e' = HeartbeatTimer /\ owner e' = owner e)
  /\ sockets (sys w') = sockets (sys w)
  /\ rooms w' = rooms w
  /\ clientConnections w' = clientConnections w.
Proof.
  intros Hf Hk Hd Hr. cbv zeta. simpl. rewrite Hf.
  apply Z.leb_le in Hd. rewrite Hd, Hk.
  set (w1 := set_sys (set_timers (rearm t 30000 (timers (sys w))) (sys w)) w).
  assert (Hr1 : nth_error (heap w1) (owner e) = Some r) by exact Hr.
  rewrite (do_on_run _ _ _ _ Hr1). rewrite heartbeatTick_run.
  unfold yahooOpen.
  assert (Hopen : forall l, is_OPEN (sys w1) l = is_OPEN (sys w) l)
    by reflexivity.
  destruct (yahooWs r) as [l|]; [rewrite Hopen; destruct (is_OPEN (sys w) l)|].
  all: cbn [fst snd heap rooms clientConnections sys set_sys set_heap].
  all: change (heap w1) with (heap w).
  all: rewrite nth_error_list_update_same, Hr; cbn [option_map].
  all: split;
    [unfold new_calls, new_entries; simpl;
     rewrite ?skipn_length_app, ?skipn_all; reflexivity|].
  all: split; [reflexivity|].
  all: split;
    [eexists; split; [apply (find_timer_rearm t 30000 _ e Hf)|];
     simpl; auto|].
  all: repeat split.
Qed.

End Sessions.

Lemma client_leaving_a_shared_room_changes_nothing_else_witness :
  (handlersOf (sys world_two_quick_joins) 0%nat = ClientHandlers "c1" 0%nat
   /\ readyStateOf (sys world_two_quick_joins) 0%nat = OPEN
   /\ nth_error (heap world_two_quick_joins) 0%nat
      = Some (room_at world_two_quick_joins 0%nat)
   /\ map_delete Nat.eqb 0%nat (clients (room_at world_two_quick_joins 0%nat))
      <> [])
  /\ new_calls (sys world_two_quick_joins)
       (sys (step any_url any_data demo_config world_two_quick_joins
               (ClientClose 0%nat)))
     = [].
Proof.
  assert (H1 : handlersOf (sys world_two_quick_joins) 0%nat
               = ClientHandlers "c1" 0%nat)
    by (vm_compute; reflexivity).
  assert (H2 : readyStateOf (sys world_two_quick_joins) 0%nat = OPEN)
    by (vm_compute; reflexivity).
  assert (H3 : nth_error (heap world_two_quick_joins) 0%nat
               = Some (room_at world_two_quick_joins 0%nat))
    by (vm_compute; reflexivity).
  assert (H4 : map_delete Nat.eqb 0%nat
                 (clients (room_at world_two_quick_joins 0%nat)) <> [])
    by (intro E; vm_compute in E; discriminate E).
  split; [exact (conj H1 (conj H2 (conj H3 H4)))|].
  destruct (client_leaving_a_shared_room_changes_nothing_else
              any_url any_data demo_config world_two_quick_joins 0%nat "c1" 0%nat
              (room_at world_two_quick_joins 0%nat) H1 (or_introl H2) H3 H4)
    as (_ & _ & _ & _ & _ & _ & H).
  exact H.
Defined.

Lemma client_frames_are_relayed_verbatim_or_dropped_witness :
  (handlersOf (sys world_open) 0%nat = ClientHandlers "c1" 0%nat
   /\ readyStateOf (sys world_open) 0%nat = OPEN
   /\ nth_error (heap world_open) 0%nat = Some (room_at world_open 0%nat)
   /\ (forall message j,
          JsonYahooMessage (JNumber 42) = Parsed message j ->
          js_get j "type" <> Some (JString "yahoo_reconnect")))
  /\ new_calls (sys world_open)
       (sys (step any_url any_data demo_config world_open
               (ClientMessage 0%nat (JsonYahooMessage (JNumber 42)))))
     = [WsSend 1%nat (Text "42")].
Proof.
  assert (H1 : handlersOf (sys world_open) 0%nat = ClientHandlers "c1" 0%nat)
    by (vm_compute; reflexivity).
  assert (H2 : readyStateOf (sys world_open) 0%nat = OPEN)
    by (vm_compute; reflexivity).
  assert (H3 : nth_error (heap world_open) 0%nat
               = Some (room_at world_open 0%nat))
    by (vm_compute; reflexivity).
  assert (H4 : forall message j,
             JsonYahooMessage (JNumber 42) = Parsed message j ->
             js_get j "type" <> Some (JString "yahoo_reconnect"))
    by (intros message j E; injection E as _ <-; discriminate).
  split; [exact (conj H1 (conj H2 (conj H3 H4)))|].
  destruct (client_frames_are_relayed_verbatim_or_dropped
              any_url any_data demo_config world_open 0%nat "c1" 0%nat
              (room_at world_open 0%nat) (JsonYahooMessage (JNumber 42))
              H1 H2 H3 H4)
    as (_ & sent & H & E).
  simpl in E. rewrite H, E. vm_compute. reflexivity.
Defined.

Lemma heartbeat_beats_only_on_an_open_link_witness :
  (find_timer 0%nat (timers (sys world_beat))
   = Some {| handle := 0%nat; kind := HeartbeatTimer; owner := 0%nat;
             due := 30000 |}
   /\ 30000 <= now (sys world_beat)
   /\ nth_error (heap world_beat) 0%nat = Some (room_at world_beat 0%nat))
  /\ new_calls (sys world_beat)
       (sys (step any_url any_data demo_config world_beat (TimerFire 0%nat)))
     = [WsSend 1%nat (Text "c")].
Proof.
  assert (H1 : find_timer 0%nat (timers (sys world_beat))
               = Some {| handle := 0%nat; kind := HeartbeatTimer;
                         owner := 0%nat; due := 30000 |})
    by (vm_compute; reflexivity).
  assert (H2 : 30000 <= now (sys world_beat))
    by (vm_compute; discriminate).
  assert (H3 : nth_error (heap world_beat) 0%nat
               = Some (room_at world_beat 0%nat))
    by (vm_compute; reflexivity).
  split; [exact (conj H1 (conj H2 H3))|].
  destruct (heartbeat_beats_only_on_an_open_link
              any_url any_data demo_config world_beat 0%nat _
              (room_at world_beat 0%nat) H1 eq_refl H2 H3)
    as (H & _).
  rewrite H. vm_compute. reflexivity.
Defined.

(** * What a turn of the event loop may call *)

Lemma adds_refl (P : Entry -> Prop) (s s' : Sys) :
  log s' = log s -> adds P s s'.
Proof. intros H. exists []. rewrite app_nil_r. auto. Qed.

Lemma adds_trans (P : Entry -> Prop) (s s1 s2 : Sys) :
  adds P s s1 -> adds P s1 s2 -> adds P s s2.
Proof.
  intros (l1 & H1 & F1) (l2 & H2 & F2). exists (l1 ++ l2).
  rewrite H2, H1, app_assoc. split; [reflexivity|].
  apply Forall_app; auto.
Qed.

Lemma broadcast_entries_ok (m : ProxyMessage.t) (r : Room) (s : Sys) :
  ProxyMessage.type m <> yahoo_max_reconnect_reached ->
  Forall entry_ok (map (sent_to m r) (open_clients r s)).
Proof.
  intros Hm. apply Forall_forall. intros e He.
  apply in_map_iff in He. destruct He as ([ws info] & <- & Hin).
  apply filter_In in Hin. destruct Hin as [Hin _].
  simpl. split; [exists info; exact Hin|exact Hm].
Qed.

Lemma broadcast_no_dial (m : ProxyMessage.t) (r : Room)
  (cs : list (WebSocket * ClientInfo)) :
  Forall no_dial (map (sent_to m r) cs).
Proof.
  apply Forall_forall. intros e He.
  apply in_map_iff in He. destruct He as (c & <- & _).
  intros ws url. discriminate.
Qed.

Lemma In_map_set {V : Type} (k : nat) (v : V) (m : list (nat * V)) :
  In (k, v) (map_set Nat.eqb k v m).
Proof.
  induction m as [|[k' v'] m IH]; simpl; [auto|].
  destruct (Nat.eqb k k'); simpl; auto.
Qed.

(** One entry of a method, read against [entry_ok]. *)
Ltac entry :=
  unfold entry_ok, known_close; simpl;
  repeat match goal with
         | H : Nat.eqb (List.length _) 0 = true |- _ =>
             apply length_zero_nil in H
         | H : Some _ = Some _ |- _ => injection H as H; subst
         end;
  first
    [ assumption
    | reflexivity
    | discriminate
    | solve [auto 8]
    | solve [split; [eexists; apply In_map_set|discriminate]] ].

(** The entries a method adds, once it is unfolded into its branches. *)
Ltac entries :=
  unfold adds; simpl; rewrite <- ?app_assoc;
  (eexists; split;
   [first [reflexivity | symmetry; apply app_nil_r]
   |repeat first
      [ apply Forall_nil
      | apply Forall_cons; [entry|]
      | apply Forall_app; split
      | apply broadcast_entries_ok; discriminate ]]).

Ltac no_dial_entries :=
  unfold adds; simpl; rewrite <- ?app_assoc;
  (eexists; split;
   [first [reflexivity | symmetry; apply app_nil_r]
   |repeat first
      [ apply Forall_nil
      | apply Forall_cons; [intros ? ?; discriminate|]
      | apply Forall_app; split
      | apply broadcast_no_dial ]]).

Ltac unfold_methods :=
  unfold addClient, removeClient, cleanup, disconnectFromYahoo, onYahooOpen,
    onYahooMessage, onYahooClose, onYahooError, heartbeatTick, sendToYahoo,
    handleClientReconnectRequest, connectToYahoo, sendJoinMessageToYahoo,
    startHeartbeat, stopHeartbeat.

Section Turns.
Variable validUrl : string -> bool.
Variable sendable : option JsonValue -> bool.
Variable config : Config.

Lemma onYahooOpen_entries (this : RoomRef) (r : Room) (s : Sys) :
  adds entry_ok s (snd (exec (onYahooOpen this) r s)).
Proof. unfold_methods. unfold_room; entries. Qed.

Lemma onYahooMessage_entries (data : string) (r : Room) (s : Sys) :
  adds entry_ok s (snd (exec (onYahooMessage data) r s)).
Proof. unfold_methods. unfold_room; entries. Qed.

Lemma onYahooClose_entries (code : Z) (reason : string) (r : Room) (s : Sys) :
  adds entry_ok s (snd (exec (onYahooClose code reason) r s)).
Proof. unfold_methods. unfold_room; entries. Qed.

Lemma onYahooError_entries (m : string) (r : Room) (s : Sys) :
  adds entry_ok s (snd (exec (onYahooError m) r s)).
Proof. unfold_methods. unfold_room; entries. Qed.

Lemma heartbeatTick_entries (r : Room) (s : Sys) :
  adds entry_ok s (snd (exec heartbeatTick r s)).
Proof. unfold_methods. unfold_room; entries. Qed.

Lemma sendToYahoo_entries (takes : option JsonValue -> bool)
  (m : option JsonValue) (r : Room) (s : Sys) :
  adds entry_ok s (snd (exec (sendToYahoo takes m) r s)).
Proof. unfold_methods. unfold_room; entries. Qed.

Lemma cleanup_entries (r : Room) (s : Sys) :
  adds entry_ok s (snd (exec cleanup r s)).
Proof. unfold_methods. unfold_room; entries. Qed.

Lemma retire_entries (r : Room) (s : Sys) :
  adds entry_ok s (snd (exec (disconnectFromYahoo ;; cleanup) r s)).
Proof. unfold_methods. unfold_room; entries. Qed.

Lemma removeClient_entries (this : RoomRef) (ws : WebSocket) (r : Room)
  (s : Sys) :
  adds entry_ok s (snd (exec (removeClient this ws) r s)).
Proof. unfold_methods. unfold_room; entries. Qed.

Lemma addClient_entries (this : RoomRef) (ws : WebSocket) (cid : string)
  (pos : Number) (r : Room) (s : Sys) :
  adds entry_ok s (snd (exec (addClient validUrl this ws cid pos) r s)).
Proof. unfold_methods. unfold_room; entries. Qed.

Lemma reconnect_entries (this : RoomRef) (rd : option JsonValue) (r : Room)
  (s : Sys) :
  adds entry_ok s
    (snd (exec (handleClientReconnectRequest validUrl this rd) r s)).
Proof. unfold_methods. unfold_room; entries. Qed.

Lemma quiet_methods_do_not_dial : quiet_methods_add no_dial.
Proof.
  unfold quiet_methods_add.
  repeat split; intros;
    try (unfold_methods; unfold_room; no_dial_entries).
  intros ws0 url. discriminate.
Qed.

Lemma quiet_methods_entries : quiet_methods_add entry_ok.
Proof.
  unfold quiet_methods_add.
  repeat split;
    auto using onYahooOpen_entries, onYahooMessage_entries,
      onYahooClose_entries, onYahooError_entries, heartbeatTick_entries,
      sendToYahoo_entries, removeClient_entries, cleanup_entries,
      retire_entries.
  intros ws. simpl. right. split; reflexivity.
Qed.

Section Quiet.
Variable P : Entry -> Prop.

Lemma do_on_adds {A : Type} (this : RoomRef) (m : M A) (w : World) :
  (forall r, adds P (sys w) (snd (exec m r (sys w)))) ->
  adds P (sys w) (sys (do_on this m w)).
Proof.
  intros H. unfold do_on, call_on.
  destruct (nth_error (heap w) this) as [r|].
  - specialize (H r). unfold exec in H.
    destruct (m (r, sys w)) as [a st]. exact H.
  - apply adds_refl. reflexivity.
Qed.

Lemma close_clients_adds (cs : list (WebSocket * ClientInfo)) :
  (forall ws,
      P {| call := WsClose ws 1001 "Room force cleanup"; caller := None |}) ->
  forall s, adds P s (close_clients cs s).
Proof.
  intros HP. induction cs as [|[ws info] cs IH]; intros s; simpl.
  - apply adds_refl. reflexivity.
  - eapply adds_trans; [|apply IH].
    destruct (is_OPEN s ws); [|apply adds_refl; reflexivity].
    exists [{| call := WsClose ws 1001 "Room force cleanup"; caller := None |}].
    split; [reflexivity|]. constructor; [apply HP|constructor].
Qed.

(** A turn in which no client asks for a connection runs the quiet
    methods only. *)
Lemma quiet_step_adds (w : World) (ev : Event) :
  quiet_methods_add P -> asks_to_dial ev = false ->
  adds P (sys w) (sys (step validUrl sendable config w ev)).
Proof.
  intros (Hopen & Hmsg & Hclose & Herr & Hbeat & Hsend & Hrem & Hclean
          & Hret & Hforce) Hq.
  destruct ev; try discriminate Hq; simpl.
  - destruct (handlersOf (sys w) ws) as [| |cid room];
      try (apply adds_refl; reflexivity).
    assert (H : adds P (sys w) (sys (onClientMessage validUrl sendable ws room f w))).
    { unfold onClientMessage.
      destruct f as [message|message j];
        [apply do_on_adds; intros r; apply Hsend|].
      simpl in Hq.
      destruct (clientRequest j) as [|data|rd|]; try discriminate Hq.
      - apply do_on_adds; intros r; apply Hsend.
      - pose proof (do_on_adds room (sendToYahoo sendable data) w
                      (fun r => Hsend _ _ r _)) as H.
        unfold do_on in H.
        destruct (call_on room (sendToYahoo sendable data) w)
          as [[[u|err]|] w']; simpl in H; try exact H.
        eapply adds_trans; [exact H|].
        apply do_on_adds; intros r; apply Hsend.
      - apply adds_refl; reflexivity. }
    destruct (readyStateOf (sys w) ws);
      first [exact H | apply adds_refl; reflexivity].
  - destruct (handlersOf (sys w) ws) as [| |cid room];
      try (apply adds_refl; reflexivity).
    assert (H : adds P (sys w)
                  (sys (onClientClose ws cid room (set_state ws CLOSED w)))).
    { unfold onClientClose.
      exact (do_on_adds room (removeClient room ws) (set_state ws CLOSED w)
               (fun r => Hrem room ws r _)). }
    destruct (readyStateOf (sys w) ws);
      first [exact H | apply adds_refl; reflexivity].
  - destruct (handlersOf (sys w) ws) as [|this|];
      try (apply adds_refl; reflexivity).
    destruct (readyStateOf (sys w) ws); try (apply adds_refl; reflexivity).
    exact (do_on_adds this (onYahooOpen this) (set_state ws OPEN w)
             (fun r => Hopen this r _)).
  - destruct (handlersOf (sys w) ws) as [|this|];
      try (apply adds_refl; reflexivity).
    destruct (readyStateOf (sys w) ws); try (apply adds_refl; reflexivity).
    all: apply do_on_adds; intros r; apply Hmsg.
  - destruct (handlersOf (sys w) ws) as [|this|];
      try (apply adds_refl; reflexivity).
    destruct (readyStateOf (sys w) ws); try (apply adds_refl; reflexivity).
    all: exact (do_on_adds this (onYahooClose code reason)
                  (set_state ws CLOSED w) (fun r => Hclose code reason r _)).
  - destruct (handlersOf (sys w) ws) as [|this|];
      try (apply adds_refl; reflexivity).
    destruct (readyStateOf (sys w) ws); try (apply adds_refl; reflexivity).
    all: exact (do_on_adds this (onYahooError error_message)
                  (set_state ws CLOSING w) (fun r => Herr error_message r _)).
  - destruct (find_timer t (timers (sys w))) as [e|];
      [|apply adds_refl; reflexivity].
    destruct (due e <=? now (sys w)); [|apply adds_refl; reflexivity].
    destruct (kind e).
    + unfold retire.
      match goal with
      | |- context [do_on ?this ?m ?w0] =>
          pose proof (do_on_adds this m w0 (fun r => Hret r _)) as H;
          destruct (nth_error (heap (do_on this m w0)) this); exact H
      end.
    + match goal with
      | |- context [do_on ?this ?m ?w0] =>
          exact (do_on_adds this m w0 (fun r => Hbeat r _))
      end.
  - apply adds_refl. reflexivity.
  - unfold deleteRoom.
    destruct (map_get String.eqb roomId (rooms w)) as [room|];
      [|apply adds_refl; reflexivity].
    destruct (nth_error (heap w) room) as [r|];
      [|apply adds_refl; reflexivity].
    cbv zeta.
    apply adds_trans with (s1 := close_clients (clients r) (sys w));
      [apply close_clients_adds; exact Hforce|].
    match goal with
    | |- context [do_on ?this ?m ?w0] =>
        exact (do_on_adds this m w0 (fun r => Hclean r _))
    end.
Qed.

End Quiet.

Lemma get_or_create_entries (lid : string) (pos : Number) (url user : string)
  (w : World) :
  adds entry_ok (sys w) (sys (snd (get_or_create config lid pos url user w))).
Proof.
  unfold get_or_create.
  destruct (map_get String.eqb lid (rooms w)) as [room|];
    [|apply adds_refl; reflexivity].
  destruct (nth_error (heap w) room) as [r|];
    [|apply adds_refl; reflexivity].
  destruct (negb (yahooWebSocketUrl r =? url)%string);
    [|apply adds_refl; reflexivity].
  simpl. apply do_on_adds. intros r0. apply cleanup_entries.
Qed.

Lemma onConnection_entries (q : Query) (uuid : string) (w : World) :
  adds entry_ok (sys w) (sys (onConnection validUrl config q uuid w)).
Proof.
  unfold onConnection. destruct (rejects q).
  - eexists. split; [reflexivity|]. constructor; [|constructor].
    simpl. left. split; reflexivity.
  - set (w0 := set_sys (sys_new_socket OPEN (sys w)) w).
    pose proof (get_or_create_entries
                  (or_string (query_leagueId q) "")
                  (parseInt (or_string (query_draftPosition q) "0"))
                  (or_string (query_websocketUrl q) "")
                  (or_string (query_platformUserId q) "unknown") w0) as H1.
    destruct (get_or_create config _ _ _ _ w0) as [room w1]. simpl in H1.
    apply adds_trans with (s1 := sys w1); [exact H1|].
    match goal with
    | |- adds _ _ (sys (set_sys (sys_on _ _ (sys ?w3)) _)) =>
        change (adds entry_ok (sys w1)
                  (sys_on (List.length (sockets (sys w)))
                     (ClientHandlers uuid room) (sys w3)))
    end.
    match goal with
    | |- adds _ _ (sys_on _ _ (sys (set_clientConnections _ ?w2))) =>
        apply adds_trans with (s1 := sys w2);
        [|apply adds_refl; reflexivity]
    end.
    apply do_on_adds. intros r. apply addClient_entries.
Qed.

Lemma step_entries (w : World) (ev : Event) :
  adds entry_ok (sys w) (sys (step validUrl sendable config w ev)).
Proof.
  destruct (asks_to_dial ev) eqn:Hq;
    [|apply quiet_step_adds; [apply quiet_methods_entries|exact Hq]].
  destruct ev; try discriminate Hq; simpl.
  - apply onConnection_entries.
  - destruct (handlersOf (sys w) ws) as [| |cid room];
      try (apply adds_refl; reflexivity).
    assert (H : adds entry_ok (sys w)
                  (sys (onClientMessage validUrl sendable ws room f w))).
    { apply (onClientMessage_cases validUrl sendable
               (fun w' => adds entry_ok (sys w) (sys w'))).
      - apply adds_refl. reflexivity.
      - intros m w0 H0. apply (adds_trans _ _ _ _ H0).
        apply do_on_adds. intros r. apply sendToYahoo_entries.
      - intros rd w0 H0. apply (adds_trans _ _ _ _ H0).
        apply do_on_adds. intros r. apply reconnect_entries.
      - intros w0 H0. apply (adds_trans _ _ _ _ H0).
        eexists. split; [reflexivity|]. constructor; [|constructor].
        reflexivity. }
    destruct (readyStateOf (sys w) ws);
      first [exact H | apply adds_refl; reflexivity].
Qed.

Lemma new_entries_ok (w : World) (ev : Event) (e : Entry) :
  In e (new_entries (sys w) (sys (step validUrl sendable config w ev))) -> entry_ok e.
Proof.
  destruct (step_entries w ev) as (new & Hlog & Hall).
  rewrite (new_entries_app _ _ _ Hlog). intros Hin.
  exact (proj1 (Forall_forall _ _) Hall e Hin).
Qed.

(** X9: whatever the state and the event, a frame sent in the turn stays
    within its Room.  A text frame, and a frame the library makes of other
    data, is sent by a Room on the socket it holds as its upstream link; a
    proxy message is sent by a Room to a socket of
    its own client set and is never of type [yahoo_max_reconnect_reached];
    the one frame the application sends itself is the [yahoo_error] that
    answers a failed reconnect. *)
Theorem frames_stay_within_the_room
  (w : World) (ev : Event) (e : Entry) (ws : WebSocket) (p : Payload) :
  In e (new_entries (sys w) (sys (step validUrl sendable config w ev))) ->
  call e = WsSend ws p ->
  match p, caller e with
  | Text _, Some c => yahooWs c = Some ws
  | Data _, Some c => yahooWs c = Some ws
  | Json m, Some c =>
      (exists info, In (ws, info) (clients c))
      /\ ProxyMessage.type m <> yahoo_max_reconnect_reached
  | Json m, None => m = failed_to_reconnect
  | Text _, None => False
  | Data _, None => False
  end.
Proof.
  intros Hin Hc. pose proof (new_entries_ok w ev e Hin) as H.
  unfold entry_ok in H. rewrite Hc in H.
  destruct (caller e) as [c|]; destruct p as [t|m|v]; exact H.
Qed.

(** X10: whatever the state, the event and the configuration, a timer set
    in the turn is the retirement timer of 2000 ms, set by a Room that has
    no client, or a heartbeat interval of 30000 ms. *)
Theorem timers_have_fixed_delays
  (w : World) (ev : Event) (e : Entry) (t : Timeout) (ms : Z) :
  In e (new_entries (sys w) (sys (step validUrl sendable config w ev))) ->
  (call e = SetTimeout t ms ->
   ms = 2000 /\ exists c, caller e = Some c /\ clients c = [])
  /\ (call e = SetInterval t ms -> ms = 30000).
Proof.
  intros Hin. pose proof (new_entries_ok w ev e Hin) as H.
  unfold entry_ok in H.
  split; intros Hc; rewrite Hc in H; destruct (caller e) as [c|];
    try contradiction; try exact H.
  destruct H as [H1 H2]. split; [exact H1|]. exists c. auto.
Qed.

(** X11: the proxy dials only when a client asks: a socket is created
    upstream only in the turn of a handshake or of a reconnect request.
    No upstream event (open, message, close, error), no timer, no client
    frame or close and no force cleanup makes the proxy dial. *)
Theorem only_a_client_request_dials
  (w : World) (ev : Event) (ws : WebSocket) (url : string) :
  In (NewWebSocket ws url)
     (new_calls (sys w) (sys (step validUrl sendable config w ev))) ->
  (exists q uuid, ev = Connection q uuid)
  \/ (exists c message j,
         ev = ClientMessage c (Parsed message j)
         /\ js_get j "type" = Some (JString "yahoo_reconnect")).
Proof.
  intros Hin.
  destruct (asks_to_dial ev) eqn:Hq.
  - destruct ev; try discriminate Hq; [left; eauto|].
    destruct f as [message|message j]; try discriminate Hq.
    right. exists ws0, message, j. split; [reflexivity|].
    simpl in Hq. unfold clientRequest in Hq.
    destruct j; try discriminate Hq.
    destruct (strict_equal (js_get (JObject properties) "type")
                           (Some (JString "yahoo_message")));
      [discriminate Hq|].
    destruct (strict_equal (js_get (JObject properties) "type")
                           (Some (JString "yahoo_reconnect"))) eqn:E;
      [|discriminate Hq].
    apply strict_equal_eq. exact E.
  - exfalso.
    destruct (quiet_step_adds no_dial w ev quiet_methods_do_not_dial Hq)
      as (new & Hlog & Hall).
    unfold new_calls in Hin. rewrite (new_entries_app _ _ _ Hlog) in Hin.
    apply in_map_iff in Hin. destruct Hin as (e & He & Hin).
    exact (proj1 (Forall_forall _ _) Hall e Hin ws url He).
Qed.

End Turns.

Lemma frames_stay_within_the_room_witness :
  In (sent_to (msg_message "hello") (room_at world_open 0%nat)
        (0%nat, {| clientId := "c1"; clientDraftPosition := 1 |}))
     (new_entries (sys world_open)
        (sys (step any_url any_data demo_config world_open
                (YahooMessage 1%nat "hello"))))
  /\ (exists info, In (0%nat, info) (clients (room_at world_open 0%nat))).
Proof.
  assert (H1 : In (sent_to (msg_message "hello") (room_at world_open 0%nat)
                     (0%nat, {| clientId := "c1"; clientDraftPosition := 1 |}))
                  (new_entries (sys world_open)
                     (sys (step any_url any_data demo_config world_open
                             (YahooMessage 1%nat "hello")))))
    by (vm_compute; left; reflexivity).
  split; [exact H1|].
  exact (proj1 (frames_stay_within_the_room any_url any_data demo_config world_open
                  (YahooMessage 1%nat "hello") _ 0%nat
                  (Json (msg_message "hello")) H1 eq_refl)).
Defined.

Lemma timers_have_fixed_delays_witness :
  In entry_retirement
     (new_entries (sys world_open)
        (sys (step any_url any_data demo_config world_open (ClientClose 0%nat))))
  /\ (call entry_retirement = SetTimeout 1%nat 2000 ->
      2000 = 2000
      /\ exists c, caller entry_retirement = Some c /\ clients c = []).
Proof.
  assert (H1 : In entry_retirement
                  (new_entries (sys world_open)
                     (sys (step any_url any_data demo_config world_open
                             (ClientClose 0%nat)))))
    by (vm_compute; left; reflexivity).
  split; [exact H1|].
  exact (proj1 (timers_have_fixed_delays any_url any_data demo_config world_open
                  (ClientClose 0%nat) entry_retirement 1%nat 2000 H1)).
Defined.

Lemma only_a_client_request_dials_witness :
  In (NewWebSocket 1%nat "wss://u")
     (new_calls (sys empty_world)
        (sys (step any_url any_data demo_config empty_world
                (Connection query_a "c1"))))
  /\ ((exists q uuid, Connection query_a "c1" = Connection q uuid)
      \/ (exists c message j,
             Connection query_a "c1" = ClientMessage c (Parsed message j)
             /\ js_get j "type" = Some (JString "yahoo_reconnect"))).
Proof.
  assert (H1 : In (NewWebSocket 1%nat "wss://u")
                  (new_calls (sys empty_world)
                     (sys (step any_url any_data demo_config empty_world
                             (Connection query_a "c1")))))
    by (vm_compute; left; reflexivity).
  split; [exact H1|].
  exact (only_a_client_request_dials any_url any_data demo_config empty_world
           (Connection query_a "c1") 1%nat "wss://u" H1).
Defined.

(** * The user-agent field of the join frame *)

Lemma all_chars_mem (p : ascii -> bool) (s : string) (c : ascii) :
  all_chars p s = true -> mem_ascii c s = true -> p c = true.
Proof.
  induction s as [|d s IH]; simpl; [discriminate|].
  intros H Hm. apply andb_prop in H. destruct H as [Hd Hs].
  apply orb_prop in Hm. destruct Hm as [Hm|Hm]; [|auto].
  apply Ascii.eqb_eq in Hm. subst d. exact Hd.
Qed.

Lemma hex_digit_safe (a : N) :
  (a < 16)%N -> uri_safe (hex_digit a) = true.
Proof.
  intros H.
  assert (E : (a = 0 \/ a = 1 \/ a = 2 \/ a = 3 \/ a = 4 \/ a = 5 \/ a = 6
               \/ a = 7 \/ a = 8 \/ a = 9 \/ a = 10 \/ a = 11 \/ a = 12
               \/ a = 13 \/ a = 14 \/ a = 15)%N) by lia.
  repeat (destruct E as [->|E]; [reflexivity|]). subst a. reflexivity.
Qed.

Lemma percent_encode_safe (c : ascii) :
  all_chars uri_safe (percent_encode c) = true.
Proof.
  pose proof (N_ascii_bounded c) as Hc.
  unfold percent_encode. simpl.
  rewrite !hex_digit_safe;
    [reflexivity|apply N.mod_lt; lia|apply N.Div0.div_lt_upper_bound; lia].
Qed.

Lemma encodeURIComponent_safe (s : string) :
  all_chars uri_safe (encodeURIComponent s) = true.
Proof.
  induction s as [|c s IH]; simpl; [reflexivity|].
  destruct (uri_unreserved c) eqn:E; simpl.
  - unfold uri_safe at 1. rewrite E, IH. reflexivity.
  - rewrite IH.
    pose proof (percent_encode_safe c) as H. unfold percent_encode in *.
    simpl in H. exact H.
Qed.

Lemma N_of_hex_digit (a : N) :
  (a < 16)%N ->
  N_of_ascii (hex_digit a) = (if N.ltb a 10 then 48 + a else 55 + a)%N.
Proof.
  intros H. unfold hex_digit.
  destruct (N.ltb a 10); apply N_ascii_embedding; lia.
Qed.

Lemma hex_digit_inj (a b : N) :
  (a < 16)%N -> (b < 16)%N -> hex_digit a = hex_digit b -> a = b.
Proof.
  intros Ha Hb H. apply (f_equal N_of_ascii) in H.
  rewrite !N_of_hex_digit in H by assumption.
  destruct (N.ltb_spec a 10), (N.ltb_spec b 10); lia.
Qed.

Lemma percent_encode_inj (c d : ascii) :
  percent_encode c = percent_encode d -> c = d.
Proof.
  unfold percent_encode. intros H. injection H as H1 H2.
  pose proof (N_ascii_bounded c) as Hc. pose proof (N_ascii_bounded d) as Hd.
  apply hex_digit_inj in H1;
    [|apply N.Div0.div_lt_upper_bound; lia
     |apply N.Div0.div_lt_upper_bound; lia].
  apply hex_digit_inj in H2; [|apply N.mod_lt; lia|apply N.mod_lt; lia].
  rewrite <- (ascii_N_embedding c), <- (ascii_N_embedding d).
  f_equal.
  rewrite (N.div_mod (N_of_ascii c) 16), (N.div_mod (N_of_ascii d) 16) by lia.
  rewrite H1, H2. reflexivity.
Qed.

Lemma encodeURIComponent_inj (s : string) :
  forall t, encodeURIComponent s = encodeURIComponent t -> s = t.
Proof.
  assert (Hp : uri_unreserved "%" = false) by reflexivity.
  induction s as [|c s IH]; intros [|d t]; simpl.
  - reflexivity.
  - destruct (uri_unreserved d); discriminate.
  - destruct (uri_unreserved c); discriminate.
  - destruct (uri_unreserved c) eqn:Ec, (uri_unreserved d) eqn:Ed; simpl.
    + intros H. injection H as -> H. f_equal. apply IH. exact H.
    + intros H. injection H as -> _. rewrite Hp in Ec. discriminate Ec.
    + intros H. injection H as <- _. rewrite Hp in Ed. discriminate Ed.
    + intros H. injection H as H1 H2 H3.
      assert (E : c = d).
      { apply percent_encode_inj. unfold percent_encode. simpl.
        rewrite H1, H2. reflexivity. }
      subst d. f_equal. apply IH. exact H3.
Qed.

Lemma append_inj_l (s t u : string) : (s ++ t = s ++ u)%string -> t = u.
Proof.
  induction s as [|c s IH]; simpl; [auto|].
  intros H. injection H as H. auto.
Qed.

Lemma append_char_inj (c : ascii) (s : string) :
  forall t, (s ++ String c "" = t ++ String c "")%string -> s = t.
Proof.
  induction s as [|a s IH]; intros [|b t]; simpl; intros H.
  - reflexivity.
  - injection H as _ H. destruct t; discriminate H.
  - injection H as _ H. destruct s; discriminate H.
  - injection H as -> H. f_equal. apply IH. exact H.
Qed.

(** X12: whatever the [platformUserId] of the query string, the user-agent
    field of the join frame consists of unreserved characters and percent
    signs only; in particular it holds no [|], so that the field cannot
    break the frame [8|league|position|user-agent|] into more fields. *)
Theorem user_agent_cannot_break_the_join_frame (r : Room) :
  all_chars uri_safe (userAgent r) = true
  /\ mem_ascii "|" (userAgent r) = false
  /\ (forall c, mem_ascii c (userAgent r) = true ->
                uri_unreserved c = true \/ c = "%"%char).
Proof.
  assert (H : all_chars uri_safe (userAgent r) = true)
    by (unfold userAgent; apply encodeURIComponent_safe).
  split; [exact H|]. split.
  - destruct (mem_ascii "|" (userAgent r)) eqn:E; [|reflexivity].
    pose proof (all_chars_mem _ _ _ H E) as Hc. discriminate Hc.
  - intros c Hc. pose proof (all_chars_mem _ _ _ H Hc) as Hs.
    unfold uri_safe in Hs. apply orb_prop in Hs.
    destruct Hs as [Hs|Hs]; [left; exact Hs|right].
    apply Ascii.eqb_eq in Hs. exact Hs.
Qed.

(** X13: the user-agent field tells the [platformUserId] apart: two Rooms
    have the same user-agent field exactly when they have the same
    [platformUserId] (percent-encoding loses nothing). *)
Theorem user_agent_determines_the_platform_user (r r' : Room) :
  userAgent r' = userAgent r <-> platformUserId r' = platformUserId r.
Proof.
  split.
  - unfold userAgent. intros H. apply encodeURIComponent_inj in H.
    apply append_inj_l in H. apply append_char_inj in H. exact H.
  - unfold userAgent. intros ->. reflexivity.
Qed.

(** * Closing sockets *)

Lemma readyStateOf_sys_close (l : WebSocket) (code : Z) (reason : string)
  (who : option Room) (s : Sys) (ws : WebSocket) :
  readyStateOf (sys_close l code reason who s) ws
  = if Nat.eqb ws l then closing_state (readyStateOf s ws)
    else readyStateOf s ws.
Proof.
  unfold readyStateOf, sys_close. simpl.
  destruct (Nat.eqb ws l) eqn:E.
  - apply Nat.eqb_eq in E. subst l. rewrite nth_error_list_update_same.
    destruct (nth_error (sockets s) ws) as [k|]; simpl; [|reflexivity].
    unfold closing.
    destruct (readyState k) eqn:Ek; simpl; rewrite ?Ek; reflexivity.
  - apply Nat.eqb_neq in E.
    rewrite nth_error_list_update_other by congruence. reflexivity.
Qed.

Lemma handlersOf_sys_close (l : WebSocket) (code : Z) (reason : string)
  (who : option Room) (s : Sys) (ws : WebSocket) :
  handlersOf (sys_close l code reason who s) ws = handlersOf s ws.
Proof.
  unfold handlersOf, sys_close. simpl.
  destruct (Nat.eq_dec l ws) as [->|Hne].
  - rewrite nth_error_list_update_same.
    destruct (nth_error (sockets s) ws) as [k|]; simpl; [|reflexivity].
    unfold closing. destruct (readyState k); reflexivity.
  - rewrite nth_error_list_update_other by exact Hne. reflexivity.
Qed.

Lemma settles_refl (s s' : Sys) : sockets s' = sockets s -> settles s s'.
Proof.
  intros H. unfold settles, handlersOf, readyStateOf. rewrite H. auto.
Qed.

Lemma settles_trans (s s1 s2 : Sys) :
  settles s s1 -> settles s1 s2 -> settles s s2.
Proof.
  intros (Hh1 & Hr1) (Hh2 & Hr2). split.
  - intros ws. rewrite Hh2. apply Hh1.
  - intros ws. destruct (Hr1 ws) as [E1|E1], (Hr2 ws) as [E2|E2];
      rewrite E2, E1; auto.
    right. destruct (readyStateOf s ws); reflexivity.
Qed.

Lemma settles_sys_close (l : WebSocket) (code : Z) (reason : string)
  (who : option Room) (s : Sys) :
  settles s (sys_close l code reason who s).
Proof.
  split; intros ws.
  - apply handlersOf_sys_close.
  - rewrite readyStateOf_sys_close. destruct (Nat.eqb ws l); auto.
Qed.

Lemma settles_not_open (s s' : Sys) (ws : WebSocket) :
  settles s s' -> is_OPEN s ws = false -> is_OPEN s' ws = false.
Proof.
  intros (_ & Hr) H. unfold is_OPEN in *.
  destruct (Hr ws) as [E|E]; rewrite E; [exact H|].
  destruct (readyStateOf s ws); reflexivity.
Qed.

Lemma settles_closing (s s' : Sys) (ws : WebSocket) :
  settles s s' -> readyStateOf s ws = CLOSING -> readyStateOf s' ws = CLOSING.
Proof.
  intros (_ & Hr) H. destruct (Hr ws) as [E|E]; rewrite E, H; reflexivity.
Qed.

Lemma close_each_settles (code : Z) (reason : string) (l : list WebSocket) :
  forall s, settles s (close_each code reason l s).
Proof.
  induction l as [|ws l IH]; intros s; simpl.
  - apply settles_refl. reflexivity.
  - eapply settles_trans; [|apply IH].
    destruct (is_OPEN s ws); [apply settles_sys_close|].
    apply settles_refl. reflexivity.
Qed.

Lemma close_each_closes (code : Z) (reason : string) (l : list WebSocket)
  (ws : WebSocket) :
  forall s,
    In ws l -> is_OPEN s ws = true ->
    readyStateOf (close_each code reason l s) ws = CLOSING.
Proof.
  induction l as [|x l IH]; intros s Hin Hopen; simpl; [contradiction|].
  destruct (Nat.eq_dec x ws) as [->|Hne].
  - rewrite Hopen. apply (settles_closing _ _ _ (close_each_settles _ _ _ _)).
    rewrite readyStateOf_sys_close, Nat.eqb_refl.
    unfold is_OPEN in Hopen.
    destruct (readyStateOf s ws); try discriminate Hopen. reflexivity.
  - destruct Hin as [Hin|Hin]; [contradiction|].
    apply IH; [exact Hin|].
    destruct (is_OPEN s x); [|exact Hopen].
    unfold is_OPEN. rewrite readyStateOf_sys_close.
    apply Nat.eqb_neq in Hne. rewrite Nat.eqb_sym, Hne. exact Hopen.
Qed.

Lemma close_each_adds (code : Z) (reason : string) (l : list WebSocket) :
  forall s s0,
    (forall ws, is_OPEN s ws = true -> is_OPEN s0 ws = true) ->
    adds (close_entry code reason l s0) s (close_each code reason l s).
Proof.
  induction l as [|x l IH]; intros s s0 Hs; simpl.
  - apply adds_refl. reflexivity.
  - assert (Hw : forall s1 s2,
               adds (close_entry code reason l s0) s1 s2 ->
               adds (close_entry code reason (x :: l) s0) s1 s2).
    { intros s1 s2 (new & Hlog & Hall). exists new. split; [exact Hlog|].
      apply Forall_forall. intros e He.
      destruct (proj1 (Forall_forall _ _) Hall e He) as (Hc & ws & Hw & Hin & Ho).
      split; [exact Hc|]. exists ws. simpl. auto. }
    destruct (is_OPEN s x) eqn:Hx.
    + apply adds_trans with (s1 := sys_close x code reason None s).
      * exists [{| call := WsClose x code reason; caller := None |}].
        split; [reflexivity|]. constructor; [|constructor].
        split; [reflexivity|]. exists x. simpl. auto.
      * apply Hw. apply IH. intros ws Hopen. apply Hs.
        destruct (is_OPEN s ws) eqn:E; [reflexivity|].
        rewrite (settles_not_open _ _ _ (settles_sys_close _ _ _ _ _) E)
          in Hopen.
        discriminate Hopen.
    + apply Hw. apply IH. exact Hs.
Qed.

Lemma close_each_frame (code : Z) (reason : string) (l : list WebSocket) :
  forall s,
    timers (close_each code reason l s) = timers s
    /\ now (close_each code reason l s) = now s
    /\ nextTimer (close_each code reason l s) = nextTimer s
    /\ List.length (sockets (close_each code reason l s))
       = List.length (sockets s).
Proof.
  induction l as [|x l IH]; intros s; simpl; [auto|].
  destruct (IH (if is_OPEN s x then sys_close x code reason None s else s))
    as (H1 & H2 & H3 & H4).
  rewrite H1, H2, H3, H4.
  destruct (is_OPEN s x); simpl; rewrite ?length_list_update; auto.
Qed.

Lemma close_clients_each (cs : list (WebSocket * ClientInfo)) :
  forall s,
    close_clients cs s
    = close_each 1001 "Room force cleanup" (map fst cs) s.
Proof.
  induction cs as [|[ws info] cs IH]; intros s; simpl; [reflexivity|].
  apply IH.
Qed.

(** ** [cleanup] once more *)

Ltac cleanup_entry_tac :=
  unfold cleanup_entry; simpl; eexists; split; [reflexivity|]; simpl;
  repeat match goal with
         | H : Some _ = Some _ |- _ => injection H as H; subst
         end;
  auto.

Lemma cleanup_adds (r : Room) (s : Sys) :
  adds cleanup_entry s (snd (exec cleanup r s)).
Proof.
  unfold cleanup, stopHeartbeat. unfold_room.
  all: unfold adds; simpl; rewrite <- ?app_assoc.
  all: eexists; split; [first [reflexivity | symmetry; apply app_nil_r]|].
  all: repeat first [apply Forall_nil | apply Forall_cons; [cleanup_entry_tac|]].
Qed.

Lemma cleanup_settles (r : Room) (s : Sys) :
  settles s (snd (exec cleanup r s)).
Proof.
  unfold cleanup, stopHeartbeat. unfold_room.
  all: first [ apply settles_refl; reflexivity
             | eapply settles_trans;
               [|apply settles_sys_close]; apply settles_refl; reflexivity ].
Qed.

Lemma cleanup_closes_the_link (r : Room) (s : Sys) (l : WebSocket) :
  yahooWs r = Some l -> is_OPEN (snd (exec cleanup r s)) l = false.
Proof.
  intros Hl. unfold cleanup, stopHeartbeat. unfold_room.
  all: try congruence.
  all: repeat match goal with
         | H : Some _ = Some _ |- _ => injection H as H; subst
         end.
  all: unfold is_OPEN; rewrite readyStateOf_sys_close, Nat.eqb_refl.
  all: match goal with
       | |- context [closing_state ?v] => destruct v; reflexivity
       end.
Qed.

Lemma cleanup_released (r : Room) (s : Sys) :
  released (fst (exec cleanup r s)).
Proof.
  destruct (cleanup_run r s) as ((H1 & H2 & H3 & H4 & _) & _).
  unfold released. auto.
Qed.

Lemma released_cleanup (r : Room) (s : Sys) :
  released r -> released (fst (exec cleanup r s)).
Proof. intros _. apply cleanup_released. Qed.

(** * The force-cleanup route *)

Lemma do_on_cleanup (room : RoomRef) (r : Room) (w : World) :
  nth_error (heap w) room = Some r ->
  let w' := do_on room cleanup w in
  nth_error (heap w') room = Some (fst (exec cleanup r (sys w)))
  /\ sys w' = snd (exec cleanup r (sys w))
  /\ rooms w' = rooms w
  /\ clientConnections w' = clientConnections w
  /\ (forall j, j <> room -> nth_error (heap w') j = nth_error (heap w) j).
Proof.
  intros Hr. cbv zeta. rewrite (do_on_run _ _ _ _ Hr).
  cbn [heap sys rooms clientConnections set_sys set_heap].
  rewrite nth_error_list_update_same, Hr.
  repeat split. intros j Hj.
  apply nth_error_list_update_other. congruence.
Qed.

(** X14: [DELETE /rooms/:roomId] for a registered Room answers
    200 with "Room <roomId> has been cleaned up" and retires the Room at
    once: every client of the Room whose socket was open is closing, the
    Room holds no link, no client and no timer, and the registry has no
    entry for the id.  The calls it makes are closes with 1001 and "Room
    force cleanup" on clients of the Room that were open, and the calls of
    the Room's [cleanup].  The sessions stay in [clientConnections] until
    the sockets close. *)
Theorem force_cleanup_retires_the_room_at_once
  (w : World) (roomId : string) (room : RoomRef) (r : Room) :
  map_get String.eqb roomId (rooms w) = Some room ->
  nth_error (heap w) room = Some r ->
  let res := deleteRoomRoute roomId w in
  let w' := snd res in
  fst res
  = {| statusCode := 200;
       json := CleanedBody ("Room " ++ roomId ++ " has been cleaned up")
                 roomId |}
  /\ rooms w' = map_delete String.eqb roomId (rooms w)
  /\ map_get String.eqb roomId (rooms w') = None
  /\ clientConnections w' = clientConnections w
  /\ (exists r', nth_error (heap w') room = Some r' /\ released r')
  /\ (forall ws info,
        In (ws, info) (clients r) -> is_OPEN (sys w) ws = true ->
        readyStateOf (sys w') ws = CLOSING)
  /\ adds (fun e =>
             close_entry 1001 "Room force cleanup" (map fst (clients r))
               (sys w) e
             \/ cleanup_entry e)
          (sys w) (sys w').
Proof.
  intros Hreg Hr. cbv zeta. unfold deleteRoomRoute. rewrite Hreg.
  cbn [fst snd]. unfold deleteRoom. rewrite Hreg, Hr.
  set (w0 := set_sys (close_clients (clients r) (sys w)) w).
  assert (Hr0 : nth_error (heap w0) room = Some r) by exact Hr.
  destruct (do_on_cleanup room r w0 Hr0) as (Hh & Hs & Hrm & Hcc & _).
  cbv zeta in *.
  remember (do_on room cleanup w0) as w1 eqn:Ew1.
  cbn [rooms clientConnections heap sys set_rooms].
  rewrite Hrm, Hcc, Hh, Hs.
  change (rooms w0) with (rooms w).
  change (clientConnections w0) with (clientConnections w).
  change (sys w0) with (close_clients (clients r) (sys w)).
  rewrite close_clients_each.
  split; [reflexivity|]. split; [reflexivity|].
  split; [apply map_get_delete_same|]. split; [reflexivity|].
  split; [eexists; split; [reflexivity|apply cleanup_released]|].
  split.
  - intros ws info Hin Hopen.
    apply (settles_closing _ _ _ (cleanup_settles _ _)).
    apply close_each_closes; [|exact Hopen].
    apply in_map_iff. exists (ws, info). auto.
  - eapply adds_trans.
    + pose proof (close_each_adds 1001 "Room force cleanup"
                    (map fst (clients r)) (sys w) (sys w) (fun _ H => H))
        as (new & Hlog & Hall).
      exists new. split; [exact Hlog|].
      apply Forall_forall. intros e He. left.
      exact (proj1 (Forall_forall _ _) Hall e He).
    + destruct (cleanup_adds r (close_each 1001 "Room force cleanup"
                                  (map fst (clients r)) (sys w)))
        as (new & Hlog & Hall).
      exists new. split; [exact Hlog|].
      apply Forall_forall. intros e He. right.
      exact (proj1 (Forall_forall _ _) Hall e He).
Qed.

Lemma force_cleanup_retires_the_room_at_once_witness :
  (map_get String.eqb "12345" (rooms world_open) = Some 0%nat
   /\ nth_error (heap world_open) 0%nat = Some (room_at world_open 0%nat))
  /\ readyStateOf (sys (snd (deleteRoomRoute "12345" world_open))) 0%nat
     = CLOSING.
Proof.
  assert (H1 : map_get String.eqb "12345" (rooms world_open) = Some 0%nat)
    by (vm_compute; reflexivity).
  assert (H2 : nth_error (heap world_open) 0%nat
               = Some (room_at world_open 0%nat))
    by (vm_compute; reflexivity).
  split; [exact (conj H1 H2)|].
  destruct (force_cleanup_retires_the_room_at_once world_open "12345" 0%nat
              (room_at world_open 0%nat) H1 H2)
    as (_ & _ & _ & _ & _ & H & _).
  apply (H 0%nat {| clientId := "c1"; clientDraftPosition := 1 |}).
  - vm_compute. left. reflexivity.
  - vm_compute. reflexivity.
Defined.

(** X15: [DELETE /rooms/:roomId] for an id that is not
    registered answers 404 "Room not found" and changes nothing.  After a
    [DELETE] of an id, whatever it answered, the id is not registered: the
    status route answers 404 for it and a second [DELETE] answers 404 and
    changes nothing. *)
Theorem delete_leaves_no_room_behind (w : World) (roomId : string) :
  registry_ok w ->
  let w' := snd (deleteRoomRoute roomId w) in
  (map_get String.eqb roomId (rooms w) = None ->
   deleteRoomRoute roomId w = (room_not_found, w))
  /\ (statusCode (fst (deleteRoomRoute roomId w)) = 404
      <-> map_get String.eqb roomId (rooms w) = None)
  /\ getRoomStatus roomId w' = room_not_found
  /\ deleteRoomRoute roomId w' = (room_not_found, w').
Proof.
  intros Hok. cbv zeta.
  assert (Hgone : map_get String.eqb roomId
                    (rooms (snd (deleteRoomRoute roomId w))) = None).
  { unfold deleteRoomRoute.
    destruct (map_get String.eqb roomId (rooms w)) as [room|] eqn:Hreg;
      [|exact Hreg].
    cbn [snd]. unfold deleteRoom. rewrite Hreg.
    pose proof (Hok _ _ Hreg) as Hlt. apply nth_error_Some in Hlt.
    destruct (nth_error (heap w) room) as [r|]; [|congruence].
    cbv zeta. cbn [rooms set_rooms]. apply map_get_delete_same. }
  split; [|split; [|split]].
  - intros Hnone. unfold deleteRoomRoute. rewrite Hnone. reflexivity.
  - unfold deleteRoomRoute.
    destruct (map_get String.eqb roomId (rooms w)); simpl; split;
      intros H; first [reflexivity|discriminate H].
  - unfold getRoomStatus. rewrite Hgone. reflexivity.
  - unfold deleteRoomRoute at 1. rewrite Hgone. reflexivity.
Qed.

Lemma delete_leaves_no_room_behind_witness :
  registry_ok world_open
  /\ getRoomStatus "12345" (snd (deleteRoomRoute "12345" world_open))
     = room_not_found.
Proof.
  assert (H : registry_ok world_open)
    by (apply (reachable_registry_ok any_url any_data demo_config)).
  split; [exact H|].
  exact (proj1 (proj2 (proj2 (delete_leaves_no_room_behind world_open "12345"
                                H)))).
Defined.

(** * Shutdown *)

Lemma set_sys_same (w : World) : set_sys (sys w) w = w.
Proof. destruct w; reflexivity. Qed.

Lemma do_on_cleanup_facts (room : RoomRef) (w : World) :
  let w' := do_on room cleanup w in
  settles (sys w) (sys w')
  /\ adds cleanup_entry (sys w) (sys w')
  /\ rooms w' = rooms w
  /\ clientConnections w' = clientConnections w
  /\ List.length (heap w') = List.length (heap w)
  /\ (forall j r, nth_error (heap w) j = Some r ->
                  (j <> room \/ released r) ->
                  exists r', nth_error (heap w') j = Some r'
                             /\ (j <> room -> r' = r)
                             /\ (released r -> released r'))
  /\ (forall r, nth_error (heap w) room = Some r ->
                exists r', nth_error (heap w') room = Some r'
                           /\ released r'
                           /\ (forall l, yahooWs r = Some l ->
                                         is_OPEN (sys w') l = false)).
Proof.
  cbv zeta. unfold do_on, call_on.
  destruct (nth_error (heap w) room) as [r|] eqn:Hr.
  - assert (E : snd (cleanup (r, sys w)) = exec cleanup r (sys w))
      by reflexivity.
    destruct (cleanup (r, sys w)) as [u st]. cbn [snd] in E. subst st.
    cbn [snd heap sys rooms clientConnections set_sys set_heap].
    split; [apply cleanup_settles|]. split; [apply cleanup_adds|].
    split; [reflexivity|]. split; [reflexivity|].
    split; [apply length_list_update|]. split.
    + intros j rj Hj Hor. destruct (Nat.eq_dec j room) as [->|Hne].
      * rewrite nth_error_list_update_same, Hr. cbn [option_map].
        eexists. split; [reflexivity|]. split; [congruence|].
        intros _. apply cleanup_released.
      * rewrite nth_error_list_update_other by congruence.
        exists rj. auto.
    + intros r0 Hr0. injection Hr0 as <-.
      rewrite nth_error_list_update_same, Hr. cbn [option_map].
      eexists. split; [reflexivity|]. split; [apply cleanup_released|].
      intros l Hl. apply cleanup_closes_the_link. exact Hl.
  - cbn [snd]. split; [apply settles_refl; reflexivity|].
    split; [apply adds_refl; reflexivity|].
    repeat split.
    + intros j rj Hj _. exists rj. auto.
    + intros r Hr0. discriminate Hr0.
Qed.

Lemma cleanup_all_facts (l : list (string * RoomRef)) :
  forall w,
    let w' := cleanup_all l w in
    settles (sys w) (sys w')
    /\ adds cleanup_entry (sys w) (sys w')
    /\ rooms w' = rooms w
    /\ clientConnections w' = clientConnections w
    /\ (forall j r, nth_error (heap w) j = Some r -> released r ->
                    exists r', nth_error (heap w') j = Some r' /\ released r')
    /\ (forall k room r,
          In (k, room) l -> nth_error (heap w) room = Some r ->
          exists r', nth_error (heap w') room = Some r'
                     /\ released r'
                     /\ (forall lk, yahooWs r = Some lk ->
                                    is_OPEN (sys w') lk = false)).
Proof.
  induction l as [|[k0 room0] l IH]; intros w; cbv zeta; simpl.
  - split; [apply settles_refl; reflexivity|].
    split; [apply adds_refl; reflexivity|].
    repeat split; [eauto|contradiction].
  - destruct (do_on_cleanup_facts room0 w) as (S1 & A1 & R1 & C1 & _ & K1 & T1).
    cbv zeta in *.
    remember (do_on room0 cleanup w) as w1 eqn:Ew1.
    destruct (IH w1) as (S2 & A2 & R2 & C2 & K2 & T2). cbv zeta in *.
    fold (cleanup_all l w1).
    split; [exact (settles_trans _ _ _ S1 S2)|].
    split; [exact (adds_trans _ _ _ _ A1 A2)|].
    split; [congruence|]. split; [congruence|]. split.
    + intros j r Hj Hrel.
      destruct (K1 j r Hj (or_intror Hrel)) as (r1 & Hj1 & _ & Hrel1).
      exact (K2 j r1 Hj1 (Hrel1 Hrel)).
    + intros k room r [Heq|Hin] Hr.
      * injection Heq as -> ->.
        destruct (T1 r Hr) as (r1 & Hr1 & Hrel1 & Hclosed).
        destruct (K2 room r1 Hr1 Hrel1) as (r2 & Hr2 & Hrel2).
        exists r2. split; [exact Hr2|]. split; [exact Hrel2|].
        intros lk Hlk. apply (settles_not_open _ _ _ S2). auto.
      * destruct (Nat.eq_dec room room0) as [->|Hne].
        -- destruct (T1 r Hr) as (r1 & Hr1 & Hrel1 & Hclosed).
           destruct (K2 room0 r1 Hr1 Hrel1) as (r2 & Hr2 & Hrel2).
           exists r2. split; [exact Hr2|]. split; [exact Hrel2|].
           intros lk Hlk. apply (settles_not_open _ _ _ S2). auto.
        -- destruct (K1 room r Hr (or_introl Hne)) as (r1 & Hr1 & Hsame & _).
           rewrite (Hsame Hne) in Hr1.
           exact (T2 k room r Hin Hr1).
Qed.

Lemma In_map_get {V : Type} (k : string) (v : V) (m : list (string * V)) :
  map_get String.eqb k m = Some v -> In (k, v) m.
Proof.
  induction m as [|[k' v'] m IH]; simpl; [discriminate|].
  destruct (String.eqb k k') eqn:E.
  - apply String.eqb_eq in E. subst k'. intros H. injection H as ->. auto.
  - auto.
Qed.

Lemma In_wss_clients (s : Sys) (ws : WebSocket) :
  is_OPEN s ws = true ->
  (forall this, handlersOf s ws <> YahooHandlers this) ->
  In ws (wss_clients s).
Proof.
  intros Hopen Hh. unfold wss_clients. apply filter_In.
  unfold is_OPEN, readyStateOf, handlersOf in *.
  destruct (nth_error (sockets s) ws) as [k|] eqn:Hk; [|discriminate Hopen].
  split.
  - apply in_seq. split; [lia|]. simpl.
    apply nth_error_Some. congruence.
  - unfold in_wss_clients.
    destruct (handlers k) as [|this|]; [|exfalso; exact (Hh this eq_refl)|];
      destruct (readyState k); try discriminate Hopen; reflexivity.
Qed.

Lemma wss_clients_accepted (s : Sys) (ws : WebSocket) :
  In ws (wss_clients s) -> forall this, handlersOf s ws <> YahooHandlers this.
Proof.
  unfold wss_clients. intros Hin. apply filter_In in Hin.
  destruct Hin as [_ Hk]. unfold handlersOf.
  destruct (nth_error (sockets s) ws) as [k|]; [|discriminate Hk].
  unfold in_wss_clients in Hk.
  destruct (handlers k); try discriminate Hk; intros this H; discriminate H.
Qed.

Lemma close_each_none_open (code : Z) (reason : string) (l : list WebSocket) :
  forall s,
    (forall ws, In ws l -> is_OPEN s ws = false) ->
    close_each code reason l s = s.
Proof.
  induction l as [|x l IH]; intros s H; simpl; [reflexivity|].
  rewrite (H x) by (left; reflexivity).
  apply IH. intros ws Hin. apply H. right. exact Hin.
Qed.

Lemma shutdown_facts (w : World) :
  let w' := shutdown w in
  settles (sys w) (sys w')
  /\ (forall ws,
        (forall this, handlersOf (sys w) ws <> YahooHandlers this) ->
        is_OPEN (sys w') ws = false)
  /\ (forall lid room r,
        map_get String.eqb lid (rooms w) = Some room ->
        nth_error (heap w) room = Some r ->
        exists r',
          nth_error (heap w') room = Some r' /\ released r'
          /\ (forall l, yahooWs r = Some l -> is_OPEN (sys w') l = false))
  /\ adds (fun e =>
             close_entry 1001 "Server shutdown" (wss_clients (sys w)) (sys w) e
             \/ cleanup_entry e)
          (sys w) (sys w').
Proof.
  cbv zeta. unfold shutdown.
  set (w1 := set_sys (close_all (wss_clients (sys w)) (sys w)) w).
  destruct (cleanup_all_facts (rooms w1) w1) as (S2 & A2 & R2 & C2 & K2 & T2).
  cbv zeta in *.
  remember (cleanup_all (rooms w1) w1) as w2 eqn:Ew2.
  cbn [rooms clientConnections sys heap set_rooms set_clientConnections].
  assert (S1 : settles (sys w) (sys w1))
    by apply (close_each_settles 1001 "Server shutdown").
  split; [exact (settles_trans _ _ _ S1 S2)|]. split; [|split].
  - intros ws Hh. apply (settles_not_open _ _ _ S2).
    destruct (is_OPEN (sys w) ws) eqn:Hopen.
    + unfold is_OPEN.
      change (sys w1) with (close_each 1001 "Server shutdown"
                              (wss_clients (sys w)) (sys w)).
      rewrite (close_each_closes _ _ _ ws (sys w)
                 (In_wss_clients _ _ Hopen Hh) Hopen).
      reflexivity.
    + apply (settles_not_open _ _ _ S1 Hopen).
  - intros lid room r Hreg Hr.
    apply (T2 lid room r); [|exact Hr].
    apply In_map_get. exact Hreg.
  - apply adds_trans with (s1 := sys w1).
    + pose proof (close_each_adds 1001 "Server shutdown"
                    (wss_clients (sys w)) (sys w) (sys w) (fun _ H => H))
        as (new & Hlog & Hall).
      exists new. split; [exact Hlog|].
      apply Forall_forall. intros e He. left.
      exact (proj1 (Forall_forall _ _) Hall e He).
    + destruct A2 as (new & Hlog & Hall).
      exists new. split; [exact Hlog|].
      apply Forall_forall. intros e He. right.
      exact (proj1 (Forall_forall _ _) Hall e He).
Qed.

(** X16: after [shutdown] the registry and the session table are
    empty; no socket the server accepted is open; every Room that was
    registered holds no link, no client and no timer, and the link it held
    is not open.  [shutdown] sends no frame, dials nothing and sets no
    timer: it closes accepted sockets that are open with 1001 and "Server
    shutdown", and makes the calls of [cleanup] of the registered Rooms. *)
Theorem shutdown_closes_clients_and_releases_rooms (w : World) :
  let w' := shutdown w in
  rooms w' = [] /\ clientConnections w' = []
  /\ (forall ws,
        (forall this, handlersOf (sys w) ws <> YahooHandlers this) ->
        is_OPEN (sys w') ws = false)
  /\ (forall lid room r,
        map_get String.eqb lid (rooms w) = Some room ->
        nth_error (heap w) room = Some r ->
        exists r',
          nth_error (heap w') room = Some r' /\ released r'
          /\ (forall l, yahooWs r = Some l -> is_OPEN (sys w') l = false))
  /\ adds (fun e =>
             close_entry 1001 "Server shutdown" (wss_clients (sys w)) (sys w) e
             \/ cleanup_entry e)
          (sys w) (sys w').
Proof.
  destruct (shutdown_facts w) as (_ & H1 & H2 & H3). cbv zeta in *.
  split; [reflexivity|]. split; [reflexivity|]. auto.
Qed.

(** X17: a second [shutdown] changes nothing and makes no
    call. *)
Theorem shutdown_twice_is_shutdown_once (w : World) :
  shutdown (shutdown w) = shutdown w.
Proof.
  destruct (shutdown_facts w) as ((Hh & _) & Hnone & _). cbv zeta in *.
  remember (shutdown w) as w' eqn:Ew'.
  assert (Hr : rooms w' = []) by (rewrite Ew'; reflexivity).
  assert (Hc : clientConnections w' = []) by (rewrite Ew'; reflexivity).
  unfold shutdown, close_all.
  rewrite close_each_none_open.
  - rewrite set_sys_same, Hr. simpl.
    destruct w'; simpl in *; subst; reflexivity.
  - intros ws Hin. apply Hnone. intros this Hthis.
    rewrite <- Hh in Hthis.
    exact (wss_clients_accepted _ _ Hin this Hthis).
Qed.

(** ** Every close

    A turn of the process: the event loop handles an event, or [shutdown]
    runs. *)

Section Closes.
Variable validUrl : string -> bool.
Variable sendable : option JsonValue -> bool.
Variable config : Config.

(** X8: whatever the state and the turn, a close made in the turn is one
    of seven.  A Room closes only the socket it holds as its upstream link,
    with code 1000 and one of "New client joined - forcing reconnection",
    "Client-initiated reconnection", "No clients remaining in room" and
    "Room cleanup"; the application closes with 1008 and the
    missing-parameters text (a rejected handshake), with 1001 and "Room
    force cleanup" (the force-cleanup route), or with 1001 and "Server
    shutdown" ([shutdown]). *)
Theorem every_close_is_one_of_seven
  (w : World) (t : Turn) (e : Entry) (ws : WebSocket) (code : Z)
  (reason : string) :
  In e (new_entries (sys w) (sys (turn validUrl sendable config w t))) ->
  call e = WsClose ws code reason ->
  match caller e with
  | Some c =>
      yahooWs c = Some ws /\ code = 1000
      /\ (reason = "New client joined - forcing reconnection"
          \/ reason = "Client-initiated reconnection"
          \/ reason = "No clients remaining in room"
          \/ reason = "Room cleanup")
  | None =>
      (code = 1008
       /\ reason
          = "Missing required parameters: leagueId, draftPosition, websocketUrl")
      \/ (code = 1001 /\ reason = "Room force cleanup")
      \/ (code = 1001 /\ reason = "Server shutdown")
  end.
Proof.
  intros Hin Hc. destruct t as [ev|]; unfold turn in Hin.
  - pose proof (new_entries_ok validUrl sendable config w ev e Hin) as H.
    unfold entry_ok in H. rewrite Hc in H.
    destruct (caller e) as [c|]; [exact H|].
    destruct H as [H|H]; auto.
  - destruct (shutdown_facts w) as (_ & _ & _ & new & Hlog & Hall).
    rewrite (new_entries_app _ _ _ Hlog) in Hin.
    destruct (proj1 (Forall_forall _ _) Hall e Hin) as [H|H].
    + destruct H as (Hcaller & ws0 & Hcall & _). rewrite Hcaller.
      rewrite Hc in Hcall. injection Hcall as _ -> ->. auto.
    + destruct H as (c & Hcaller & H). rewrite Hcaller. rewrite Hc in H.
      destruct H as (H1 & H2 & H3). auto 6.
Qed.

End Closes.

Lemma every_close_is_one_of_seven_witness :
  In {| call := WsClose 0%nat 1001 "Server shutdown"; caller := None |}
     (new_entries (sys world_open)
        (sys (turn any_url any_data demo_config world_open Shutdown)))
  /\ ((1001 = 1008
       /\ "Server shutdown"%string
          = "Missing required parameters: leagueId, draftPosition, websocketUrl"%string)
      \/ (1001 = 1001
          /\ "Server shutdown"%string = "Room force cleanup"%string)
      \/ (1001 = 1001
          /\ "Server shutdown"%string = "Server shutdown"%string)).
Proof.
  assert (H1 : In {| call := WsClose 0%nat 1001 "Server shutdown";
                     caller := None |}
                  (new_entries (sys world_open)
                     (sys (turn any_url any_data demo_config world_open
                             Shutdown))))
    by (vm_compute; left; reflexivity).
  split; [exact H1|].
  exact (every_close_is_one_of_seven any_url any_data demo_config world_open
           Shutdown _ 0%nat 1001 "Server shutdown" H1 eq_refl).
Defined.


(** * Configuration *)

Lemma parseInt10_decimal_integer (s : string) (n : Z) :
  decimal_integer s = Some n -> parseInt10 s = round_to_double n.
Proof.
  unfold decimal_integer, parseInt10.
  destruct s as [|c s]; [discriminate|].
  destruct (Ascii.eqb_spec c "-") as [->|Hm];
    [|destruct (Ascii.eqb_spec c "+") as [->|Hp]].
  - rewrite trimStart_no_space by (intros; reflexivity).
    change (strip_sign (String "-" s)) with (-1, s).
    destruct s as [|d s]; [discriminate|].
    destruct (all_digits (String d s)); [|discriminate].
    destruct (read_digits 10 None (String d s)); congruence.
  - rewrite trimStart_no_space by (intros; reflexivity).
    change (strip_sign (String "+" s)) with (1, s).
    destruct s as [|d s]; [discriminate|].
    destruct (all_digits (String d s)); [|discriminate].
    destruct (read_digits 10 None (String d s)); congruence.
  - destruct (is_digit c) eqn:Hd.
    + rewrite digit_not_space by exact Hd.
      rewrite digit_no_sign by exact Hd.
      destruct (all_digits (String c s)); [|discriminate].
      destruct (read_digits 10 None (String c s)); congruence.
    + assert (Hs : strip_sign (String c s) = (1, String c s)).
      { destruct c as [[] [] [] [] [] [] [] []]; try reflexivity;
          congruence. }
      rewrite Hs. simpl. rewrite Hd. simpl. discriminate.
Qed.

(** An integer of at most 2^53 in absolute value is a double. *)
Lemma round_to_double_exact (n : Z) :
  Z.abs n <= 2 ^ 53 -> round_to_double n = Finite n.
Proof.
  intros H. unfold round_to_double. cbv zeta.
  destruct (Z.abs n <? 2 ^ 53) eqn:E; [reflexivity|].
  apply Z.ltb_ge in E.
  assert (Hn : n = 2 ^ 53 \/ n = - 2 ^ 53) by lia.
  destruct Hn as [-> | ->]; vm_compute; reflexivity.
Qed.

Lemma or_string_default (a : option string) (b : string) :
  a = None \/ a = Some ""%string -> or_string a b = b.
Proof. intros [-> | ->]; reflexivity. Qed.

Lemma initConfig_ok (e : ProcessEnv) (c : ServerConfig.t) :
  initConfig e = Ok c ->
  (exists p, ServerConfig.port c = Finite p /\ 1 <= p <= 65535)
  /\ ((exists t, ServerConfig.shutdownTimeoutMs c = Finite t /\ 0 <= t)
      \/ ServerConfig.shutdownTimeoutMs c = Infinity false)
  /\ c = {| ServerConfig.env := or_string (e "NODE_ENV") "development";
            ServerConfig.port := parseInt10 (or_string (e "PORT") "3001");
            ServerConfig.shutdownTimeoutMs :=
              parseInt10 (or_string (e "SHUTDOWN_TIMEOUT_MS") "30000");
            ServerConfig.maxReconnectAttempts :=
              parseInt10 (or_string (e "MAX_RECONNECT_ATTEMPTS") "5");
            ServerConfig.heartbeatInterval :=
              parseInt10 (or_string (e "HEARTBEAT_INTERVAL") "30000");
            ServerConfig.connectionTimeout :=
              parseInt10 (or_string (e "CONNECTION_TIMEOUT") "10000");
            ServerConfig.logLevel := or_string (e "LOG_LEVEL") "info" |}.
Proof.
  unfold initConfig.
  destruct (parseInt10 (or_string (e "PORT") "3001")) as [p|[|]|]; simpl;
    try discriminate.
  destruct (p <? 1) eqn:E1; simpl; [discriminate|].
  destruct (65535 <? p) eqn:E2; simpl; [discriminate|].
  apply Z.ltb_ge in E1, E2.
  destruct (parseInt10 (or_string (e "SHUTDOWN_TIMEOUT_MS") "30000"))
    as [t|[|]|]; simpl; try discriminate.
  - destruct (t <? 0) eqn:E3; [discriminate|]. apply Z.ltb_ge in E3.
    intros H. injection H as <-. simpl.
    split; [exists p; split; [reflexivity|lia]|].
    split; [left; exists t; split; [reflexivity|lia]|reflexivity].
  - intros H. injection H as <-. simpl.
    split; [exists p; split; [reflexivity|lia]|].
    split; [right; reflexivity|reflexivity].
Qed.

(** X18: [initConfig] succeeds exactly when PORT (3001 when unset or
    empty) is read by [parseInt(_, 10)] as a number from 1 to 65535 and
    SHUTDOWN_TIMEOUT_MS (30000 when unset or empty) as one that is not
    negative, infinity included; no other variable can make it fail, and a
    bad port is the error reported when both are bad, with the port as a
    template literal prints it ([NaN], [1e+21]).  A variable that is a
    decimal integer is read as the double nearest to it, which is that
    integer up to 2^53 in absolute value.  The configuration returned holds
    what was read, with the defaults "development", 5, 30000, 10000 and
    "info" for NODE_ENV, MAX_RECONNECT_ATTEMPTS, HEARTBEAT_INTERVAL,
    CONNECTION_TIMEOUT and LOG_LEVEL; the last five are not validated. *)
Theorem initConfig_validates_port_and_timeout_only (e : ProcessEnv) :
  let port := parseInt10 (or_string (e "PORT") "3001") in
  let timeout := parseInt10 (or_string (e "SHUTDOWN_TIMEOUT_MS") "30000") in
  ((exists c, initConfig e = Ok c)
   <-> (exists p, port = Finite p /\ 1 <= p <= 65535)
       /\ ((exists t, timeout = Finite t /\ 0 <= t)
           \/ timeout = Infinity false))
  /\ (forall c,
         initConfig e = Ok c ->
         c = {| ServerConfig.env := or_string (e "NODE_ENV") "development";
                ServerConfig.port := port;
                ServerConfig.shutdownTimeoutMs := timeout;
                ServerConfig.maxReconnectAttempts :=
                  parseInt10 (or_string (e "MAX_RECONNECT_ATTEMPTS") "5");
                ServerConfig.heartbeatInterval :=
                  parseInt10 (or_string (e "HEARTBEAT_INTERVAL") "30000");
                ServerConfig.connectionTimeout :=
                  parseInt10 (or_string (e "CONNECTION_TIMEOUT") "10000");
                ServerConfig.logLevel := or_string (e "LOG_LEVEL") "info" |})
  /\ ((port = NaN \/ (exists p, port = Finite p /\ (p < 1 \/ 65535 < p))
       \/ (exists negative, port = Infinity negative)) ->
      initConfig e = Throw ("Invalid port: " ++ Number_toString port))
  /\ (forall name s n,
         e name = Some s -> decimal_integer s = Some n ->
         forall default,
           parseInt10 (or_string (e name) default) = round_to_double n
           /\ (Z.abs n <= 2 ^ 53 ->
               parseInt10 (or_string (e name) default) = Finite n))
  /\ (e "PORT" = None \/ e "PORT" = Some ""%string -> port = Finite 3001)
  /\ (e "SHUTDOWN_TIMEOUT_MS" = None
      \/ e "SHUTDOWN_TIMEOUT_MS" = Some ""%string ->
      timeout = Finite 30000)
  /\ initConfig (env_of [("PORT", "1000000000000000000000")])
     = Throw "Invalid port: 1e+21".
Proof.
  cbv zeta. split; [|split; [|split; [|split; [|split; [|split]]]]].
  - split.
    + intros (c & Hc).
      destruct (initConfig_ok e c Hc) as ((p & Hp & Hpr) & Ht & Ec).
      rewrite Ec in Hp, Ht. simpl in Hp, Ht. split; [exists p; auto|exact Ht].
    + intros ((p & Hp & Hpr) & Ht). unfold initConfig.
      rewrite Hp. simpl.
      assert (E1 : (p <? 1) = false) by (apply Z.ltb_ge; lia).
      assert (E2 : (65535 <? p) = false) by (apply Z.ltb_ge; lia).
      rewrite E1, E2. simpl.
      destruct Ht as [(t & Ht & Htr)|Ht]; rewrite Ht; simpl.
      * assert (E3 : (t <? 0) = false) by (apply Z.ltb_ge; lia).
        rewrite E3. eexists. reflexivity.
      * eexists. reflexivity.
  - intros c Hc. exact (proj2 (proj2 (initConfig_ok e c Hc))).
  - intros H. unfold initConfig.
    destruct H as [-> | [(p & -> & Hp) | (negative & ->)]]; simpl;
      [reflexivity| |destruct negative; reflexivity].
    destruct Hp as [Hp|Hp].
    + apply Z.ltb_lt in Hp. rewrite Hp. reflexivity.
    + apply Z.ltb_lt in Hp. rewrite Hp, orb_true_r. reflexivity.
  - intros name s n Hs Hd default. rewrite Hs.
    destruct s as [|c s]; [discriminate Hd|]. simpl or_string.
    rewrite (parseInt10_decimal_integer _ _ Hd).
    split; [reflexivity|apply round_to_double_exact].
  - intros H. rewrite (or_string_default _ _ H). reflexivity.
  - intros H. rewrite (or_string_default _ _ H). reflexivity.
  - vm_compute. reflexivity.
Qed.

Section RoomLimits.
Variable config : Config.

Lemma create_room_new (lid : string) (pos : Number) (url user : string)
  (w : World) :
  let rw := create_room config lid pos url user w in
  nth_error (heap (snd rw)) (fst rw)
  = Some (new_Room lid pos url user
            (or_number (match config_maxReconnectAttempts config with
                        | Some n => n | None => 0 end) 5)
            (or_number (match config_connectionTimeout config with
                        | Some n => n | None => 0 end) 10000)
            (now (sys w))).
Proof. cbv zeta. unfold create_room. simpl. apply nth_error_snoc. Qed.

End RoomLimits.

(** X19: a Room created under a configuration [initConfig]
    returned has [maxReconnectAttempts] equal to MAX_RECONNECT_ATTEMPTS as
    [parseInt(_, 10)] reads it (a double, possibly an infinity), and 5 when
    the variable is unset, empty, not a number or 0; likewise
    [connectionTimeout] is CONNECTION_TIMEOUT, and 10000 in those cases.
    Neither is ever 0 or NaN. *)
Theorem room_limits_fall_back_to_defaults
  (e : ProcessEnv) (c : ServerConfig.t) (lid : string) (pos : Number)
  (url user : string) (w : World) :
  initConfig e = Ok c ->
  let rw := create_room (app_config c) lid pos url user w in
  exists r,
    nth_error (heap (snd rw)) (fst rw) = Some r
    /\ maxReconnectAttempts r
       = match parseInt10 (or_string (e "MAX_RECONNECT_ATTEMPTS") "5") with
         | Finite n => if n =? 0 then 5 else n
         | Infinity negative => Infinity negative
         | NaN => 5
         end
    /\ connectionTimeout r
       = match parseInt10 (or_string (e "CONNECTION_TIMEOUT") "10000") with
         | Finite n => if n =? 0 then 10000 else n
         | Infinity negative => Infinity negative
         | NaN => 10000
         end
    /\ maxReconnectAttempts r <> 0 /\ maxReconnectAttempts r <> NaN
    /\ connectionTimeout r <> 0 /\ connectionTimeout r <> NaN.
Proof.
  intros Hc. cbv zeta.
  destruct (initConfig_ok e c Hc) as (_ & _ & Ec).
  eexists. split; [apply create_room_new|].
  rewrite Ec. unfold app_config, or_number. simpl.
  destruct (parseInt10 (or_string (e "MAX_RECONNECT_ATTEMPTS") "5"))
    as [m| |]; simpl;
    (destruct (parseInt10 (or_string (e "CONNECTION_TIMEOUT") "10000"))
      as [t| |]); simpl.
  all: repeat match goal with
         | |- context [?x =? 0] =>
             is_var x; destruct (Z.eqb_spec x 0)
         end; simpl.
  all: repeat split; try reflexivity; try discriminate.
  all: intros H; injection H as H; contradiction.
Qed.

Lemma room_limits_fall_back_to_defaults_witness :
  initConfig env_zero_attempts = Ok config_zero_attempts
  /\ exists r,
       nth_error
         (heap (snd (create_room (app_config config_zero_attempts)
                       "12345" 1 "wss://u" "user-a" empty_world)))
         (fst (create_room (app_config config_zero_attempts)
                 "12345" 1 "wss://u" "user-a" empty_world))
       = Some r
       /\ maxReconnectAttempts r = 5.
Proof.
  assert (H : initConfig env_zero_attempts = Ok config_zero_attempts)
    by (vm_compute; reflexivity).
  split; [exact H|].
  destruct (room_limits_fall_back_to_defaults env_zero_attempts
              config_zero_attempts "12345" 1 "wss://u" "user-a" empty_world
              H) as (r & Hr & Hm & _).
  exists r. split; [exact Hr|]. rewrite Hm. vm_compute. reflexivity.
Defined.

(** * The logger *)

Lemma indexOf_unknown (x : string) :
  ~ In x levels -> indexOf x levels = -1.
Proof.
  intros Hn. unfold indexOf, levels. cbn [indexOf_from].
  destruct (String.eqb_spec "error" x) as [Heq|_];
    [exfalso; apply Hn; rewrite <- Heq; left; reflexivity|].
  destruct (String.eqb_spec "warn" x) as [Heq|_];
    [exfalso; apply Hn; rewrite <- Heq; right; left; reflexivity|].
  destruct (String.eqb_spec "info" x) as [Heq|_];
    [exfalso; apply Hn; rewrite <- Heq; right; right; left; reflexivity|].
  destruct (String.eqb_spec "debug" x) as [Heq|_];
    [exfalso; apply Hn; rewrite <- Heq; right; right; right; left;
     reflexivity|].
  reflexivity.
Qed.

Lemma shouldLog_unknown (this : SimpleLogger) (level : string) :
  ~ In (logLevel this) levels -> In level levels ->
  shouldLog this level = false.
Proof.
  intros Hn Hin. unfold shouldLog. rewrite (indexOf_unknown _ Hn).
  unfold levels in Hin. simpl in Hin.
  destruct Hin as [<-|[<-|[<-|[<-|[]]]]]; reflexivity.
Qed.

Lemma shouldLog_known (this : SimpleLogger) :
  In (logLevel this) levels ->
  shouldLog this "error" = true
  /\ (shouldLog this "debug" = true <-> logLevel this = "debug"%string)
  /\ (shouldLog this "info" = true
      <-> logLevel this = "info"%string \/ logLevel this = "debug"%string)
  /\ (shouldLog this "warn" = true <-> logLevel this <> "error"%string).
Proof.
  intros Hin. unfold levels in Hin. simpl in Hin. unfold shouldLog.
  destruct Hin as [E|[E|[E|[E|[]]]]]; rewrite <- E.
  all: split; [reflexivity|]; split; [|split];
    (split; [intros H; vm_compute in H|intros H; vm_compute]).
  all: try reflexivity; try discriminate H; auto.
  all: try (intros H'; discriminate H').
  all: try (destruct H as [H|H]; discriminate H).
  all: try (exfalso; apply H; reflexivity).
Qed.

(** X20: with a [logLevel] that is one of "error", "warn", "info"
    and "debug", the logger writes the messages of that level and of the
    more severe ones: [error] always writes, on [console.error]; [warn]
    unless the level is "error"; [info] at "info" and "debug"; [debug] at
    "debug" only.  With any other [logLevel] (a misspelt or upper-case
    LOG_LEVEL, say) the logger writes nothing at all, not even errors. *)
Theorem logger_writes_by_severity_or_nothing
  (this : SimpleLogger) (timestamp : string) (message : LogValue)
  (args : list LogValue) :
  (In (logLevel this) levels ->
   logger_error this timestamp message args
   = Some (console_error,
           formatMessage this timestamp "error" message args)
   /\ (logger_warn this timestamp message args <> None
       <-> logLevel this <> "error"%string)
   /\ (logger_info this timestamp message args <> None
       <-> logLevel this = "info"%string \/ logLevel this = "debug"%string)
   /\ (logger_debug this timestamp message args <> None
       <-> logLevel this = "debug"%string))
  /\ (~ In (logLevel this) levels ->
      logger_error this timestamp message args = None
      /\ logger_warn this timestamp message args = None
      /\ logger_info this timestamp message args = None
      /\ logger_debug this timestamp message args = None).
Proof.
  unfold logger_error, logger_warn, logger_info, logger_debug, log_with.
  split.
  - intros Hin. destruct (shouldLog_known this Hin) as (He & Hd & Hi & Hw).
    rewrite He. split; [reflexivity|].
    split; [|split].
    + rewrite <- Hw. destruct (shouldLog this "warn"); split; intros H;
        congruence.
    + rewrite <- Hi. destruct (shouldLog this "info"); split; intros H;
        congruence.
    + rewrite <- Hd. destruct (shouldLog this "debug"); split; intros H;
        congruence.
  - intros Hn.
    rewrite !(shouldLog_unknown this _ Hn) by (unfold levels; simpl; auto 6).
    auto.
Qed.

Lemma all_chars_append (p : ascii -> bool) (s t : string) :
  all_chars p (s ++ t) = (all_chars p s && all_chars p t)%bool.
Proof.
  induction s as [|c s IH]; simpl; [reflexivity|].
  rewrite IH, andb_assoc. reflexivity.
Qed.

Lemma lower_hex_digit_printable (a : N) :
  (a < 16)%N -> printable (lower_hex_digit a) = true.
Proof.
  intros H. unfold printable, lower_hex_digit.
  destruct (N.ltb a 10); rewrite N_ascii_embedding by lia;
    apply N.leb_le; lia.
Qed.

Lemma json_escape_printable (c : ascii) :
  all_chars printable (json_escape c) = true.
Proof.
  unfold json_escape.
  repeat match goal with
         | |- context [N.eqb ?a ?b] => destruct (N.eqb a b); [reflexivity|]
         end.
  destruct (N.ltb_spec (N_of_ascii c) 32) as [Hlt|Hge].
  - simpl. rewrite !lower_hex_digit_printable;
      [reflexivity|apply N.mod_lt; lia|apply N.Div0.div_lt_upper_bound; lia].
  - simpl. unfold printable. apply N.leb_le in Hge. rewrite Hge. reflexivity.
Qed.

Lemma json_escape_all_printable (s : string) :
  all_chars printable (json_escape_all s) = true.
Proof.
  induction s as [|c s IH]; simpl; [reflexivity|].
  rewrite all_chars_append, json_escape_printable, IH. reflexivity.
Qed.

Lemma JSON_stringify_string_printable (s : string) :
  all_chars printable (JSON_stringify_string s) = true.
Proof.
  unfold JSON_stringify_string.
  rewrite !all_chars_append, json_escape_all_printable. reflexivity.
Qed.

Lemma formatMessage_production_printable
  (level timestamp lvl : string) (message : LogValue) (args : list LogValue) :
  all_chars printable
    (formatMessage {| logLevel := lvl; isDevelopment := false |}
       timestamp level message args)
  = true.
Proof.
  unfold formatMessage. cbn [isDevelopment].
  rewrite !all_chars_append, !JSON_stringify_string_printable.
  reflexivity.
Qed.

(** X21: outside development the logger writes each record as one
    line: for each of the four levels, whatever the timestamp, the message
    and the further arguments are, the JSON text [formatMessage] returns
    holds no character below U+0020 (no line feed and no carriage return
    in particular). *)
Theorem production_log_record_is_one_line :
  Forall
    (fun level =>
       forall (timestamp lvl : string) (message : LogValue)
              (args : list LogValue),
         all_chars printable
           (formatMessage {| logLevel := lvl; isDevelopment := false |}
              timestamp level message args)
         = true)
    levels.
Proof.
  unfold levels. repeat constructor; intros timestamp lvl message args;
    apply formatMessage_production_printable.
Qed.
(** ** The stores stay consistent *)

Lemma hand_in_range (l : list Socket) (ws : WebSocket) :
  hand l ws <> NoHandlers -> (ws < List.length l)%nat.
Proof.
  unfold hand. intros H. apply nth_error_Some.
  destruct (nth_error l ws); congruence.
Qed.

Lemma ready_in_range (l : list Socket) (ws : WebSocket) :
  ready l ws <> CLOSED -> (ws < List.length l)%nat.
Proof.
  unfold ready. intros H. apply nth_error_Some.
  destruct (nth_error l ws); congruence.
Qed.

Lemma keeps_refl (l : list Socket) : keeps l l.
Proof. split; [lia|]. intros ws _. split; tauto. Qed.

Lemma keeps_trans (l l1 l2 : list Socket) :
  keeps l l1 -> keeps l1 l2 -> keeps l l2.
Proof.
  intros [H1 H2] [H3 H4]. split; [lia|]. intros ws Hws.
  destruct (H2 ws Hws) as [Ha Hb].
  destruct (H4 ws ltac:(lia)) as [Hc Hd].
  split; [congruence|tauto].
Qed.

Lemma hand_list_update_closing (i : nat) (l : list Socket) (ws : WebSocket) :
  hand (list_update i closing l) ws = hand l ws.
Proof.
  unfold hand. destruct (Nat.eq_dec i ws) as [->|Hne].
  - rewrite nth_error_list_update_same.
    destruct (nth_error l ws) as [k|]; simpl; [|reflexivity].
    unfold closing. destruct (readyState k); reflexivity.
  - rewrite nth_error_list_update_other by exact Hne. reflexivity.
Qed.

Lemma ready_list_update_closing (i : nat) (l : list Socket) (ws : WebSocket) :
  ready (list_update i closing l) ws = CLOSED <-> ready l ws = CLOSED.
Proof.
  unfold ready. destruct (Nat.eq_dec i ws) as [->|Hne].
  - rewrite nth_error_list_update_same.
    destruct (nth_error l ws) as [k|]; simpl; [|tauto].
    unfold closing. destruct (readyState k) eqn:E; simpl; rewrite ?E;
      split; intros H; congruence.
  - rewrite nth_error_list_update_other by exact Hne. tauto.
Qed.

Lemma keeps_close (l l1 : list Socket) (i : nat) :
  keeps l l1 -> keeps l (list_update i closing l1).
Proof.
  intros [H1 H2]. split; [rewrite length_list_update; exact H1|].
  intros ws Hws. rewrite hand_list_update_closing, ready_list_update_closing.
  apply H2. exact Hws.
Qed.

Lemma keeps_snoc (l l1 : list Socket) (k : Socket) :
  keeps l l1 -> keeps l (l1 ++ [k]).
Proof.
  intros [H1 H2]. split; [rewrite length_app; simpl; lia|].
  intros ws Hws. unfold hand, ready.
  rewrite nth_error_app1 by lia. apply H2. exact Hws.
Qed.

Lemma se_refl (this : RoomRef) (l : list Socket) : socks_evolve this l l.
Proof. split; [apply keeps_refl|]. intros ws H1 H2. lia. Qed.

Lemma se_close (this : RoomRef) (l l1 : list Socket) (i : nat) :
  socks_evolve this l l1 -> socks_evolve this l (list_update i closing l1).
Proof.
  intros [H1 H3]. split; [apply keeps_close; exact H1|].
  intros ws Hge Hlt. rewrite length_list_update in Hlt.
  rewrite hand_list_update_closing, ready_list_update_closing.
  apply H3; assumption.
Qed.

Lemma se_dial (this : RoomRef) (l l1 : list Socket) :
  socks_evolve this l l1 ->
  socks_evolve this l
    (list_update (List.length l1) (set_handlers (YahooHandlers this))
       (l1 ++ [{| readyState := CONNECTING; handlers := NoHandlers |}])).
Proof.
  intros [[H1 H2] H3].
  assert (Hold : forall ws, (ws < List.length l1)%nat ->
            nth_error (list_update (List.length l1)
                         (set_handlers (YahooHandlers this))
                         (l1 ++ [{| readyState := CONNECTING;
                                    handlers := NoHandlers |}])) ws
            = nth_error l1 ws).
  { intros ws Hws. rewrite nth_error_list_update_other by lia.
    apply nth_error_app1. exact Hws. }
  split; [split|].
  - rewrite length_list_update, length_app; simpl; lia.
  - intros ws Hws. unfold hand, ready. rewrite Hold by lia.
    apply H2. exact Hws.
  - intros ws Hge Hlt. rewrite length_list_update, length_app in Hlt.
    simpl in Hlt.
    destruct (Nat.eq_dec ws (List.length l1)) as [->|Hne].
    + unfold hand, ready. rewrite nth_error_update_snoc by reflexivity.
      simpl. split; [reflexivity|discriminate].
    + unfold hand, ready. rewrite Hold by lia. apply H3; lia.
Qed.

Ltac evolve :=
  repeat first [apply se_dial | apply se_close | apply se_refl].

Lemma In_map_delete {K V : Type} (eqb : K -> K -> bool) (k : K)
  (m : list (K * V)) (c : K * V) :
  In c (map_delete eqb k m) -> In c m /\ eqb k (fst c) = false.
Proof.
  induction m as [|[k' v'] m IH]; simpl; [intros []|].
  destruct (eqb k k') eqn:E; simpl; intros H.
  - destruct (IH H). auto.
  - destruct H as [<-|H]; [auto|]. destruct (IH H). auto.
Qed.

Lemma In_map_set_inv {K V : Type} (eqb : K -> K -> bool) (k : K) (v : V)
  (m : list (K * V)) (c : K * V) :
  In c (map_set eqb k v m) -> In c m \/ c = (k, v).
Proof.
  induction m as [|[k' v'] m IH]; simpl.
  - intros [H|[]]; auto.
  - destruct (eqb k k'); simpl; intros [H|H]; auto.
    destruct (IH H); auto.
Qed.

Lemma In_has_key {K V : Type} (eqb : K -> K -> bool) (k : K) (v : V)
  (m : list (K * V)) :
  (forall a, eqb a a = true) ->
  In (k, v) m -> exists v', map_get eqb k m = Some v'.
Proof.
  intros Heq. induction m as [|[k' v'] m IH]; simpl; [intros []|].
  intros [H|H].
  - injection H as -> ->. rewrite Heq. eauto.
  - destruct (eqb k k'); eauto.
Qed.

Ltac footprint_tac :=
  unfold_methods; unfold_room;
  unfold footprint, sys_close, sys_log, sys_on, sys_new_socket; simpl;
  (split; [reflexivity|]); (split; [reflexivity|]);
  (split; [evolve|]);
  (split;
   [first
      [ left; reflexivity
      | right; left; reflexivity
      | right; right; eexists; split; [reflexivity|];
        rewrite ?length_list_update, ?length_app; simpl;
        rewrite ?length_list_update; lia ]
   |]).

Section Footprints.
Variable validUrl : string -> bool.
Variable sendable : option JsonValue -> bool.
Variable this : RoomRef.
Variable r : Room.
Variable s : Sys.

Lemma onYahooOpen_footprint :
  footprint this [] r s (exec (onYahooOpen this) r s).
Proof. footprint_tac; auto. Qed.

Lemma onYahooMessage_footprint (d : string) :
  footprint this [] r s (exec (onYahooMessage d) r s).
Proof. footprint_tac; auto. Qed.

Lemma onYahooClose_footprint (c : Z) (x : string) :
  footprint this [] r s (exec (onYahooClose c x) r s).
Proof. footprint_tac; auto. Qed.

Lemma onYahooError_footprint (m : string) :
  footprint this [] r s (exec (onYahooError m) r s).
Proof. footprint_tac; auto. Qed.

Lemma heartbeatTick_footprint :
  footprint this [] r s (exec heartbeatTick r s).
Proof. footprint_tac; auto. Qed.

Lemma sendToYahoo_footprint (m : option JsonValue) :
  footprint this [] r s (exec (sendToYahoo sendable m) r s).
Proof. footprint_tac; auto. Qed.

Lemma cleanup_footprint :
  footprint this [] r s (exec cleanup r s).
Proof. footprint_tac; simpl; intros c []. Qed.

Lemma retire_footprint :
  footprint this [] r s (exec (disconnectFromYahoo ;; cleanup) r s).
Proof. footprint_tac; simpl; intros c []. Qed.

Lemma removeClient_footprint (ws : WebSocket) :
  footprint this [] r s (exec (removeClient this ws) r s).
Proof. footprint_tac; intros c Hc; left; exact (proj1 (In_map_delete Nat.eqb _ _ _ Hc)). Qed.

Lemma reconnect_footprint (rd : option JsonValue) :
  footprint this [] r s
    (exec (handleClientReconnectRequest validUrl this rd) r s).
Proof. footprint_tac; auto. Qed.

Lemma addClient_footprint (ws : WebSocket) (cid : string) (pos : Number) :
  footprint this [(ws, {| clientId := cid; clientDraftPosition := pos |})] r s
    (exec (addClient validUrl this ws cid pos) r s).
Proof.
  footprint_tac; intros c Hc; apply In_map_set_inv in Hc;
    (destruct Hc as [Hc|Hc]; [left; exact Hc|right; left; symmetry; exact Hc]).
Qed.

End Footprints.

(** *** From a method to the stores *)

Lemma structure_ok_nil (this : RoomRef) (w : World) :
  structure_ok_but [] this w -> structure_ok w.
Proof.
  intros (H1 & H2 & H3 & H4). repeat split; auto.
  intros i r ws info Hi Hin. destruct (H3 i r ws info Hi Hin) as [H|[_ []]].
  left. exact H.
Qed.

Lemma structure_ok_members (w : World) (i : RoomRef) (r : Room)
  (ws : WebSocket) (info : ClientInfo) :
  structure_ok w -> nth_error (heap w) i = Some r ->
  In (ws, info) (clients r) ->
  handlersOf (sys w) ws = ClientHandlers (clientId info) i.
Proof.
  intros (_ & _ & H3 & _) Hi Hin.
  destruct (H3 i r ws info Hi Hin) as [H|[_ []]]. exact H.
Qed.

Lemma keeps_handlers (l l' : list Socket) (ws : WebSocket) :
  keeps l l' -> hand l ws <> NoHandlers -> hand l' ws = hand l ws.
Proof.
  intros [_ H] Hne. apply (H ws). apply hand_in_range. exact Hne.
Qed.

Lemma keeps_not_closed (l l' : list Socket) (ws : WebSocket) :
  keeps l l' -> ready l ws <> CLOSED -> ready l' ws <> CLOSED.
Proof.
  intros [_ H] Hne Hc. apply Hne. apply (H ws); [|exact Hc].
  apply ready_in_range. exact Hne.
Qed.

(** The state a call of a method leaves, when the method has the
    footprint. *)
Lemma update_structure_ok (w : World) (this : RoomRef) (r : Room)
  (extra : list (WebSocket * ClientInfo)) (st : Room * Sys) :
  structure_ok w -> nth_error (heap w) this = Some r ->
  footprint this extra r (sys w) st ->
  structure_ok_but extra this
    (set_sys (snd st) (set_heap (list_update this (fun _ => fst st) (heap w)) w)).
Proof.
  intros Hok Hr (F1 & F2 & [Fk Fn] & F4 & F5).
  pose proof Hok as (H1 & H2 & _ & H4).
  assert (Hheap : forall i r',
            nth_error (list_update this (fun _ => fst st) (heap w)) i = Some r' ->
            (i = this /\ r' = fst st)
            \/ (i <> this /\ nth_error (heap w) i = Some r')).
  { intros i r' H. destruct (Nat.eq_dec this i) as [<-|Hne].
    - rewrite nth_error_list_update_same, Hr in H. simpl in H.
      left. split; congruence.
    - rewrite nth_error_list_update_other in H by exact Hne. right. auto. }
  unfold structure_ok_but; simpl. repeat split.
  - intros lid i Hi. destruct (H1 lid i Hi) as (r0 & Hr0 & Hid).
    destruct (Nat.eq_dec this i) as [<-|Hne].
    + rewrite nth_error_list_update_same, Hr. simpl. eexists. split; eauto.
      congruence.
    + rewrite nth_error_list_update_other by exact Hne. eauto.
  - intros i r' Hi. destruct (Hheap i r' Hi) as [[-> ->]|[_ Hi']].
    + rewrite F1, F2. apply (H2 this). exact Hr.
    + apply (H2 i). exact Hi'.
  - intros i r' ws info Hi Hin.
    assert (Hold : forall r0, nth_error (heap w) i = Some r0 ->
              In (ws, info) (clients r0) ->
              handlersOf (snd st) ws = ClientHandlers (clientId info) i).
    { intros r0 Hr0 Hin0.
      pose proof (structure_ok_members w i r0 ws info Hok Hr0 Hin0) as Hh.
      change (hand (sockets (snd st)) ws = ClientHandlers (clientId info) i).
      rewrite (keeps_handlers _ _ ws Fk); [exact Hh|].
      change (handlersOf (sys w) ws <> NoHandlers). congruence. }
    destruct (Hheap i r' Hi) as [[-> ->]|[_ Hi']].
    + destruct (F5 _ Hin) as [Hc|Hc]; [left; eauto|right; auto].
    + left. eauto.
  - intros i r' l Hi Hl.
    assert (Hold : forall r0, nth_error (heap w) i = Some r0 ->
              yahooWs r0 = Some l -> handlersOf (snd st) l = YahooHandlers i).
    { intros r0 Hr0 Hl0. pose proof (H4 i r0 l Hr0 Hl0) as Hh.
      change (hand (sockets (snd st)) l = YahooHandlers i).
      rewrite (keeps_handlers _ _ l Fk); [exact Hh|].
      change (handlersOf (sys w) l <> NoHandlers). congruence. }
    destruct (Hheap i r' Hi) as [[-> ->]|[_ Hi']]; [|eauto].
    destruct F4 as [E|[E|(l' & E & Hge & Hlt)]].
    + apply (Hold r Hr). congruence.
    + congruence.
    + assert (l' = l) by congruence. subst l'.
      apply (Fn l Hge Hlt).
Qed.

Lemma sessions_ok_keeps (w w' : World) :
  sessions_ok w -> clientConnections w' = clientConnections w ->
  keeps (sockets (sys w)) (sockets (sys w')) -> sessions_ok w'.
Proof.
  intros Hs Hcc Hk cid ws i H. rewrite Hcc in H.
  destruct (Hs cid ws i H) as [Hh Hc]. split.
  - change (hand (sockets (sys w')) ws = ClientHandlers cid i).
    rewrite (keeps_handlers _ _ ws Hk); [exact Hh|].
    change (handlersOf (sys w) ws <> NoHandlers). congruence.
  - exact (keeps_not_closed _ _ ws Hk Hc).
Qed.

Lemma structure_ok_keeps (w w' : World) :
  structure_ok w -> heap w' = heap w -> rooms w' = rooms w ->
  (forall ws, handlersOf (sys w) ws <> NoHandlers ->
              handlersOf (sys w') ws = handlersOf (sys w) ws) ->
  structure_ok w'.
Proof.
  intros Hok Hh Hr Hk. pose proof Hok as (H1 & H2 & _ & H4).
  unfold structure_ok, structure_ok_but. rewrite Hh, Hr. repeat split; auto.
  - intros i r ws info Hi Hin. left.
    pose proof (structure_ok_members w i r ws info Hok Hi Hin) as H.
    rewrite Hk; congruence.
  - intros i r l Hi Hl. pose proof (H4 i r l Hi Hl) as H.
    rewrite Hk; congruence.
Qed.

Lemma consistent_keeps (w w' : World) :
  consistent w -> heap w' = heap w -> rooms w' = rooms w ->
  clientConnections w' = clientConnections w ->
  keeps (sockets (sys w)) (sockets (sys w')) -> consistent w'.
Proof.
  intros [Hs Hc] Hh Hr Hcc Hk. split.
  - apply (structure_ok_keeps w w' Hs Hh Hr). intros ws Hne.
    exact (keeps_handlers _ _ ws Hk Hne).
  - exact (sessions_ok_keeps w w' Hc Hcc Hk).
Qed.

Lemma do_on_none {A : Type} (this : RoomRef) (m : M A) (w : World) :
  nth_error (heap w) this = None -> do_on this m w = w.
Proof. intros H. unfold do_on, call_on. rewrite H. reflexivity. Qed.

Lemma consistent_do_on {A : Type} (this : RoomRef) (m : M A) (w : World) :
  (forall r, nth_error (heap w) this = Some r ->
             footprint this [] r (sys w) (exec m r (sys w))) ->
  consistent w -> consistent (do_on this m w).
Proof.
  intros Hf [Hs Hc]. destruct (nth_error (heap w) this) as [r|] eqn:Hr.
  - rewrite (do_on_run this m w r Hr). split.
    + apply (structure_ok_nil this).
      apply (update_structure_ok w this r [] _ Hs Hr). apply Hf. reflexivity.
    + apply (sessions_ok_keeps w); [exact Hc|reflexivity|].
      destruct (Hf r eq_refl) as (_ & _ & [Hk _] & _). exact Hk.
  - rewrite do_on_none by exact Hr. split; assumption.
Qed.
(** *** The handlers keep the stores consistent *)

Lemma nth_error_snoc_inv {A : Type} (l : list A) (x y : A) (i : nat) :
  nth_error (l ++ [x]) i = Some y ->
  nth_error l i = Some y \/ (i = List.length l /\ y = x).
Proof.
  intros H. destruct (Nat.lt_ge_cases i (List.length l)) as [Hlt|Hge].
  - left. rewrite nth_error_app1 in H by exact Hlt. exact H.
  - right. rewrite nth_error_app2 in H by exact Hge.
    destruct (i - List.length l)%nat as [|k] eqn:E; simpl in H.
    + split; [lia|congruence].
    + destruct k; discriminate.
Qed.

Lemma hand_set_readyState (ws ws' : WebSocket) (v : ReadyState)
  (l : list Socket) :
  hand (list_update ws (set_readyState v) l) ws' = hand l ws'.
Proof.
  unfold hand. destruct (Nat.eq_dec ws ws') as [->|Hne].
  - rewrite nth_error_list_update_same.
    destruct (nth_error l ws'); reflexivity.
  - rewrite nth_error_list_update_other by exact Hne. reflexivity.
Qed.

Lemma ready_set_readyState_other (ws ws' : WebSocket) (v : ReadyState)
  (l : list Socket) :
  ws <> ws' -> ready (list_update ws (set_readyState v) l) ws' = ready l ws'.
Proof.
  intros Hne. unfold ready.
  rewrite nth_error_list_update_other by exact Hne. reflexivity.
Qed.

Lemma keeps_set_readyState (ws : WebSocket) (v : ReadyState)
  (l : list Socket) :
  ready l ws <> CLOSED -> v <> CLOSED ->
  keeps l (list_update ws (set_readyState v) l).
Proof.
  intros Hr Hv. split; [rewrite length_list_update; lia|].
  intros ws' _. split; [apply hand_set_readyState|].
  destruct (Nat.eq_dec ws ws') as [<-|Hne].
  - unfold ready in *. rewrite nth_error_list_update_same.
    destruct (nth_error l ws); simpl in *; split; intros H; congruence.
  - rewrite ready_set_readyState_other by exact Hne. tauto.
Qed.

Lemma hand_set_handlers_other (ws ws' : WebSocket) (h : Handlers)
  (l : list Socket) :
  ws <> ws' -> hand (list_update ws (set_handlers h) l) ws' = hand l ws'.
Proof.
  intros Hne. unfold hand.
  rewrite nth_error_list_update_other by exact Hne. reflexivity.
Qed.

Lemma hand_set_handlers_same (ws : WebSocket) (h : Handlers)
  (l : list Socket) :
  (ws < List.length l)%nat -> hand (list_update ws (set_handlers h) l) ws = h.
Proof.
  intros Hlt. unfold hand. rewrite nth_error_list_update_same.
  destruct (nth_error l ws) eqn:E; [reflexivity|].
  apply nth_error_None in E. lia.
Qed.

Lemma ready_set_handlers (ws ws' : WebSocket) (h : Handlers)
  (l : list Socket) :
  ready (list_update ws (set_handlers h) l) ws' = ready l ws'.
Proof.
  unfold ready. destruct (Nat.eq_dec ws ws') as [->|Hne].
  - rewrite nth_error_list_update_same.
    destruct (nth_error l ws'); reflexivity.
  - rewrite nth_error_list_update_other by exact Hne. reflexivity.
Qed.

Lemma structure_ok_set_state (ws : WebSocket) (v : ReadyState) (w : World) :
  structure_ok w -> structure_ok (set_state ws v w).
Proof.
  intros H. apply (structure_ok_keeps w); [exact H|reflexivity|reflexivity|].
  intros ws' _. apply hand_set_readyState.
Qed.

Lemma sessions_ok_sub (w w' : World) :
  sessions_ok w ->
  (forall cid ws i,
     In (cid, (ws, i)) (clientConnections w') ->
     In (cid, (ws, i)) (clientConnections w)
     /\ handlersOf (sys w') ws = handlersOf (sys w) ws
     /\ (readyStateOf (sys w') ws = CLOSED ->
         readyStateOf (sys w) ws = CLOSED)) ->
  sessions_ok w'.
Proof.
  intros Hs H cid ws i Hin. destruct (H cid ws i Hin) as (H1 & H2 & H3).
  destruct (Hs cid ws i H1) as [Hh Hc]. split; [congruence|auto].
Qed.

Lemma clientConnections_do_on {A : Type} (this : RoomRef) (m : M A)
  (w : World) :
  clientConnections (do_on this m w) = clientConnections w.
Proof.
  unfold do_on, call_on. destruct (nth_error (heap w) this); [|reflexivity].
  destruct (m (r, sys w)). reflexivity.
Qed.

Lemma keeps_do_on {A : Type} (this : RoomRef) (m : M A) (w : World) :
  (forall r, nth_error (heap w) this = Some r ->
             footprint this [] r (sys w) (exec m r (sys w))) ->
  keeps (sockets (sys w)) (sockets (sys (do_on this m w))).
Proof.
  intros Hf. destruct (nth_error (heap w) this) as [r|] eqn:Hr.
  - rewrite (do_on_run this m w r Hr). simpl.
    destruct (Hf r eq_refl) as (_ & _ & [Hk _] & _). exact Hk.
  - rewrite do_on_none by exact Hr. apply keeps_refl.
Qed.

Lemma structure_ok_do_on {A : Type} (this : RoomRef) (m : M A) (w : World) :
  (forall r, nth_error (heap w) this = Some r ->
             footprint this [] r (sys w) (exec m r (sys w))) ->
  structure_ok w -> structure_ok (do_on this m w).
Proof.
  intros Hf Hs. destruct (nth_error (heap w) this) as [r|] eqn:Hr.
  - rewrite (do_on_run this m w r Hr). apply (structure_ok_nil this).
    apply (update_structure_ok w this r [] _ Hs Hr). apply Hf. reflexivity.
  - rewrite do_on_none by exact Hr. exact Hs.
Qed.

Lemma structure_ok_delete (k : string) (w : World) :
  structure_ok w ->
  structure_ok (set_rooms (map_delete String.eqb k (rooms w)) w).
Proof.
  intros (H1 & H2 & H3 & H4). repeat split; auto.
  intros lid i H. apply In_map_delete in H. exact (H1 lid i (proj1 H)).
Qed.

Lemma close_clients_keeps (cs : list (WebSocket * ClientInfo)) :
  forall (l : list Socket) (s : Sys),
    keeps l (sockets s) -> keeps l (sockets (close_clients cs s)).
Proof.
  induction cs as [|[ws info] cs IH]; intros l s Hk; simpl; [exact Hk|].
  apply IH. destruct (is_OPEN s ws); [|exact Hk].
  unfold sys_close, sys_log; simpl. apply keeps_close. exact Hk.
Qed.

Section Consistency.
Variable validUrl : string -> bool.
Variable sendable : option JsonValue -> bool.
Variable config : Config.

Lemma create_room_consistent (lid : string) (dp : Number) (url puid : string)
  (w : World) :
  consistent w ->
  consistent (snd (create_room config lid dp url puid w))
  /\ (exists r, nth_error (heap (snd (create_room config lid dp url puid w)))
                  (fst (create_room config lid dp url puid w)) = Some r)
  /\ sys (snd (create_room config lid dp url puid w)) = sys w
  /\ clientConnections (snd (create_room config lid dp url puid w))
     = clientConnections w.
Proof.
  intros [Hs Hc]. pose proof Hs as (H1 & H2 & _ & H4).
  unfold create_room; simpl. split; [split|].
  - unfold structure_ok, structure_ok_but; simpl. repeat split.
    + intros k i H. apply In_map_set_inv in H.
      destruct H as [H|H].
      * destruct (H1 k i H) as (r & Hr & Hid). exists r. split; [|exact Hid].
        rewrite nth_error_app1; [exact Hr|].
        apply nth_error_Some. congruence.
      * injection H as -> ->. rewrite nth_error_app2 by lia. rewrite Nat.sub_diag. simpl.
        eexists. split; reflexivity.
    + intros i r H. apply nth_error_snoc_inv in H.
      destruct H as [H|[_ ->]]; [exact (H2 i r H)|reflexivity].
    + intros i r ws info H Hin. apply nth_error_snoc_inv in H.
      destruct H as [H|[_ ->]]; [|destruct Hin]. left.
      exact (structure_ok_members w i r ws info Hs H Hin).
    + intros i r l H Hl. apply nth_error_snoc_inv in H.
      destruct H as [H|[_ ->]]; [exact (H4 i r l H Hl)|discriminate].
  - exact Hc.
  - split; [|split; reflexivity].
    rewrite nth_error_app2 by lia. rewrite Nat.sub_diag. simpl. eauto.
Qed.

Lemma get_or_create_consistent (lid : string) (dp : Number) (url puid : string)
  (w : World) :
  consistent w ->
  consistent (snd (get_or_create config lid dp url puid w))
  /\ (exists r, nth_error (heap (snd (get_or_create config lid dp url puid w)))
                  (fst (get_or_create config lid dp url puid w)) = Some r)
  /\ keeps (sockets (sys w))
       (sockets (sys (snd (get_or_create config lid dp url puid w))))
  /\ clientConnections (snd (get_or_create config lid dp url puid w))
     = clientConnections w.
Proof.
  intros Hc. unfold get_or_create.
  destruct (map_get String.eqb lid (rooms w)) as [room|] eqn:Hg.
  - destruct Hc as [Hs Hss]. pose proof Hs as (H1 & _).
    destruct (H1 lid room (In_map_get _ _ _ Hg))
      as (r & Hr & _).
    rewrite Hr.
    destruct (negb (String.eqb (yahooWebSocketUrl r) url)).
    + assert (Hf : forall r0, nth_error (heap w) room = Some r0 ->
                footprint room [] r0 (sys w) (exec cleanup r0 (sys w)))
        by (intros; apply cleanup_footprint).
      assert (Hc1 : consistent (do_on room cleanup w))
        by (apply consistent_do_on; [exact Hf|split; assumption]).
      destruct (create_room_consistent lid dp url puid _ Hc1)
        as (Ha & Hb & Hd & He).
      split; [exact Ha|]. split; [exact Hb|]. split.
      * rewrite Hd. apply keeps_do_on. exact Hf.
      * rewrite He. apply clientConnections_do_on.
    + simpl. split; [split; assumption|]. split; [eauto|].
      split; [apply keeps_refl|reflexivity].
  - destruct (create_room_consistent lid dp url puid w Hc)
      as (Ha & Hb & Hd & He).
    split; [exact Ha|]. split; [exact Hb|]. split; [|exact He].
    rewrite Hd. apply keeps_refl.
Qed.

End Consistency.
Section ConsistentRuns.
Variable validUrl : string -> bool.
Variable sendable : option JsonValue -> bool.
Variable config : Config.

Lemma onConnection_consistent (q : Query) (uuid : string) (w : World) :
  consistent w -> consistent (onConnection validUrl config q uuid w).
Proof.
  intros Hc. unfold onConnection. cbv zeta.
  set (n := List.length (sockets (sys w))).
  set (w0 := set_sys (sys_new_socket OPEN (sys w)) w).
  assert (Hk0 : keeps (sockets (sys w)) (sockets (sys w0)))
    by (apply keeps_snoc, keeps_refl).
  assert (Hc0 : consistent w0)
    by (apply (consistent_keeps w); auto).
  assert (Hn : hand (sockets (sys w0)) n = NoHandlers
               /\ ready (sockets (sys w0)) n = OPEN).
  { unfold hand, ready, w0, sys_new_socket, n; simpl.
    rewrite nth_error_app2 by lia. rewrite Nat.sub_diag. simpl. auto. }
  destruct (rejects q).
  - apply (consistent_keeps w); auto.
    unfold sys_close, sys_log; simpl. apply keeps_close, keeps_snoc, keeps_refl.
  - set (lid := or_string (query_leagueId q) "").
    set (dp := parseInt (or_string (query_draftPosition q) "0")).
    set (url := or_string (query_websocketUrl q) "").
    set (puid := or_string (query_platformUserId q) "unknown").
    destruct (get_or_create_consistent config lid dp url puid w0 Hc0)
      as ([Hs1 Hss1] & (r1 & Hr1) & Hk1 & Hcc1).
    destruct (get_or_create config lid dp url puid w0) as [room w1].
    simpl in Hs1, Hss1, Hr1, Hk1, Hcc1.
    pose proof (addClient_footprint validUrl room r1 (sys w1) n uuid dp) as Hf.
    rewrite (do_on_run room _ w1 r1 Hr1).
    set (st := exec (addClient validUrl room n uuid dp) r1 (sys w1)) in *.
    pose proof (update_structure_ok w1 room r1 _ st Hs1 Hr1 Hf)
      as (G1 & G2 & G3 & G4).
    destruct Hf as (_ & _ & [Hk2 _] & _).
    assert (Hk : keeps (sockets (sys w0)) (sockets (snd st)))
      by (exact (keeps_trans _ _ _ Hk1 Hk2)).
    destruct Hn as [Hn1 Hn2].
    assert (Hlt : (n < List.length (sockets (snd st)))%nat).
    { destruct Hk as [Hle _]. apply Nat.lt_le_trans with (2 := Hle).
      apply ready_in_range. congruence. }
    assert (Hn3 : hand (sockets (snd st)) n = NoHandlers).
    { destruct Hk as [_ Hk]. rewrite <- Hn1. apply (Hk n).
      apply ready_in_range. congruence. }
    assert (Hn4 : ready (sockets (snd st)) n <> CLOSED).
    { apply (keeps_not_closed _ _ n Hk). congruence. }
    assert (Hother : forall ws h, handlersOf (snd st) ws = h ->
              h <> NoHandlers ->
              hand (list_update n (set_handlers (ClientHandlers uuid room))
                      (sockets (snd st))) ws = h).
    { intros ws h Hh Hne. rewrite hand_set_handlers_other; [exact Hh|].
      intros <-. apply Hne. rewrite <- Hh. exact Hn3. }
    simpl in G1, G2, G3, G4.
    split.
    + unfold structure_ok, structure_ok_but, sys_on; simpl.
      repeat split; auto.
      * intros i r ws info Hi Hin. left.
        unfold handlersOf; simpl.
        change (hand (list_update n (set_handlers (ClientHandlers uuid room))
                        (sockets (snd st))) ws
                = ClientHandlers (clientId info) i).
        destruct (G3 i r ws info Hi Hin) as [H|[-> [H|[]]]].
        -- apply Hother; [exact H|discriminate].
        -- injection H as <- <-. simpl.
           apply hand_set_handlers_same. exact Hlt.
      * intros i r l Hi Hl.
        change (hand (list_update n (set_handlers (ClientHandlers uuid room))
                        (sockets (snd st))) l = YahooHandlers i).
        apply Hother; [exact (G4 i r l Hi Hl)|discriminate].
    + intros cid ws i H. unfold sys_on in *; simpl in *.
      change (hand (list_update n (set_handlers (ClientHandlers uuid room))
                      (sockets (snd st))) ws = ClientHandlers cid i
              /\ ready (list_update n (set_handlers (ClientHandlers uuid room))
                          (sockets (snd st))) ws <> CLOSED).
      rewrite ready_set_handlers.
      apply In_map_set_inv in H. destruct H as [H|H].
      2: { injection H as -> -> ->. split; [|exact Hn4].
           apply hand_set_handlers_same. exact Hlt. }
      * destruct (Hss1 cid ws i H) as [Hh Hr].
        assert (Hh' : handlersOf (snd st) ws = ClientHandlers cid i).
        { change (hand (sockets (snd st)) ws = ClientHandlers cid i).
          rewrite (keeps_handlers _ _ ws Hk2); [exact Hh|].
          change (handlersOf (sys w1) ws <> NoHandlers). congruence. }
        split; [apply Hother; [exact Hh'|discriminate]|].
        exact (keeps_not_closed _ _ ws Hk2 Hr).
Qed.

Lemma onClientMessage_consistent (ws : WebSocket) (room : RoomRef)
  (f : ClientFrame) (w : World) :
  consistent w -> consistent (onClientMessage validUrl sendable ws room f w).
Proof.
  intros Hc. apply onClientMessage_cases; [exact Hc| | |].
  - intros m w0 H0.
    apply consistent_do_on; [intros; apply sendToYahoo_footprint|exact H0].
  - intros rd w0 H0.
    apply consistent_do_on; [intros; apply reconnect_footprint|exact H0].
  - intros w0 H0. exact H0.
Qed.

Lemma onClientClose_consistent (ws : WebSocket) (cid : string)
  (room : RoomRef) (w : World) :
  consistent w -> handlersOf (sys w) ws = ClientHandlers cid room ->
  consistent (onClientClose ws cid room (set_state ws CLOSED w)).
Proof.
  intros [Hs Hss] Hh. unfold onClientClose. cbv zeta.
  set (w0 := set_state ws CLOSED w).
  assert (Hf : forall r, nth_error (heap w0) room = Some r ->
             footprint room [] r (sys w0)
               (exec (removeClient room ws) r (sys w0)))
    by (intros; apply removeClient_footprint).
  pose proof (keeps_do_on room _ w0 Hf) as Hk.
  split.
  - apply (structure_ok_do_on room _ w0 Hf).
    apply structure_ok_set_state. exact Hs.
  - apply (sessions_ok_sub w); [exact Hss|].
    intros cid' ws' i' H. simpl in H.
    rewrite clientConnections_do_on in H. apply In_map_delete in H.
    destruct H as [H Hne]. simpl in H, Hne.
    apply String.eqb_neq in Hne.
    split; [exact H|]. destruct (Hss cid' ws' i' H) as [Hh' Hr'].
    assert (Hws : ws <> ws') by (intros <-; congruence).
    assert (Hh0 : hand (sockets (sys w0)) ws' = handlersOf (sys w) ws')
      by (apply hand_set_readyState).
    assert (Hr0 : ready (sockets (sys w0)) ws' = readyStateOf (sys w) ws')
      by (apply ready_set_readyState_other; exact Hws).
    simpl. split.
    + change (hand (sockets (sys (do_on room (removeClient room ws) w0))) ws'
              = handlersOf (sys w) ws').
      rewrite (keeps_handlers _ _ ws' Hk); [exact Hh0|]. congruence.
    + intros Hcl. exfalso.
      apply (keeps_not_closed _ _ ws' Hk); [congruence|exact Hcl].
Qed.

Lemma set_state_consistent (ws : WebSocket) (v : ReadyState) (w : World) :
  consistent w ->
  (v <> CLOSED /\ readyStateOf (sys w) ws <> CLOSED)
  \/ (exists this, handlersOf (sys w) ws = YahooHandlers this) ->
  consistent (set_state ws v w).
Proof.
  intros [Hs Hss] [[Hv Hr]|[this Hh]].
  - apply (consistent_keeps w); auto; [split; assumption|].
    apply keeps_set_readyState; assumption.
  - split; [apply structure_ok_set_state; exact Hs|].
    apply (sessions_ok_sub w); [exact Hss|]. intros cid ws' i H.
    split; [exact H|]. destruct (Hss cid ws' i H) as [Hh' _].
    assert (Hws : ws <> ws') by (intros <-; congruence).
    split.
    + apply hand_set_readyState.
    + intros Hc. rewrite <- Hc. symmetry.
      apply ready_set_readyState_other. exact Hws.
Qed.

Lemma retire_consistent (this : RoomRef) (w : World) :
  consistent w -> consistent (retire this w).
Proof.
  intros Hc. unfold retire. cbv zeta.
  assert (H : consistent (do_on this (disconnectFromYahoo ;; cleanup) w))
    by (apply consistent_do_on; [intros; apply retire_footprint|exact Hc]).
  destruct (nth_error (heap (do_on this (disconnectFromYahoo ;; cleanup) w))
              this); [|exact H].
  destruct H as [Hs Hss]. split; [apply structure_ok_delete; exact Hs|].
  exact Hss.
Qed.

Lemma deleteRoom_consistent (roomId : string) (w : World) :
  consistent w -> consistent (deleteRoom roomId w).
Proof.
  intros Hc. unfold deleteRoom.
  destruct (map_get String.eqb roomId (rooms w)) as [room|]; [|exact Hc].
  destruct (nth_error (heap w) room) as [r|]; [|exact Hc]. cbv zeta.
  set (w0 := set_sys (close_clients (clients r) (sys w)) w).
  assert (H0 : consistent w0).
  { apply (consistent_keeps w); auto.
    apply close_clients_keeps, keeps_refl. }
  assert (H : consistent (do_on room cleanup w0))
    by (apply consistent_do_on; [intros; apply cleanup_footprint|exact H0]).
  destruct H as [Hs Hss]. split; [|exact Hss].
  apply structure_ok_delete. exact Hs.
Qed.

Lemma step_consistent (w : World) (e : Event) :
  consistent w -> consistent (step validUrl sendable config w e).
Proof.
  intros Hc. destruct e; unfold step.
  - apply onConnection_consistent, Hc.
  - destruct (handlersOf (sys w) ws); try exact Hc.
    destruct (readyStateOf (sys w) ws); try exact Hc.
    all: apply onClientMessage_consistent, Hc.
  - destruct (handlersOf (sys w) ws) eqn:Hh; try exact Hc.
    destruct (readyStateOf (sys w) ws); try exact Hc.
    all: apply onClientClose_consistent; [exact Hc|exact Hh].
  - destruct (handlersOf (sys w) ws) eqn:Hh; try exact Hc.
    destruct (readyStateOf (sys w) ws) eqn:Hr; try exact Hc.
    apply consistent_do_on; [intros; apply onYahooOpen_footprint|].
    apply set_state_consistent; [exact Hc|].
    left. split; [discriminate|rewrite Hr; discriminate].
  - destruct (handlersOf (sys w) ws) eqn:Hh; try exact Hc.
    destruct (readyStateOf (sys w) ws) eqn:Hr; try exact Hc.
    all: apply consistent_do_on;
      [intros; apply onYahooMessage_footprint|exact Hc].
  - destruct (handlersOf (sys w) ws) eqn:Hh; try exact Hc.
    destruct (readyStateOf (sys w) ws) eqn:Hr; try exact Hc.
    all: (apply consistent_do_on; [intros; apply onYahooClose_footprint|]);
      (apply set_state_consistent; [exact Hc|]); right; eauto.
  - destruct (handlersOf (sys w) ws) eqn:Hh; try exact Hc.
    destruct (readyStateOf (sys w) ws) eqn:Hr; try exact Hc.
    all: (apply consistent_do_on; [intros; apply onYahooError_footprint|]);
      (apply set_state_consistent; [exact Hc|]); right; eauto.
  - destruct (find_timer t (timers (sys w))) as [e|]; [|exact Hc].
    destruct (due e <=? now (sys w)); [|exact Hc].
    destruct (kind e).
    + apply retire_consistent.
      apply (consistent_keeps w); auto. apply keeps_refl.
    + apply consistent_do_on; [intros; apply heartbeatTick_footprint|].
      apply (consistent_keeps w); auto. apply keeps_refl.
  - apply (consistent_keeps w); auto. apply keeps_refl.
  - apply deleteRoom_consistent, Hc.
Qed.

Lemma run_consistent (es : list Event) :
  forall w, consistent w -> consistent (run validUrl sendable config w es).
Proof.
  induction es as [|e es IH]; intros w Hc; [exact Hc|].
  apply IH, step_consistent, Hc.
Qed.

Lemma empty_world_consistent : consistent empty_world.
Proof.
  split.
  - repeat split; simpl.
    + intros lid i [].
    + intros [|i] r H; discriminate H.
    + intros [|i] r ws info H; discriminate H.
    + intros [|i] r l H; discriminate H.
  - intros cid ws i [].
Qed.

Lemma reachable_consistent (es : list Event) :
  consistent (run validUrl sendable config empty_world es).
Proof. apply run_consistent, empty_world_consistent. Qed.

End ConsistentRuns.
(** ** What the invariant gives the operator and the clients *)

Section Reached.
Variable validUrl : string -> bool.
Variable sendable : option JsonValue -> bool.
Variable config : Config.

(** X22: in every state the server reaches, the three read-only routes
    agree.  [GET /rooms/:roomId/status] answers 200 exactly for the ids
    [GET /health] lists, and 404 for the others; the status it answers with
    carries the id asked for, as [roomId] and as [leagueId], and is one of
    the statuses [GET /rooms] lists; and the [roomId]s of the statuses
    [GET /rooms] lists are the ids [GET /health] lists, in the same
    order. *)
Theorem status_routes_agree_on_the_rooms (es : list Event) (roomId : string) :
  let w := run validUrl sendable config empty_world es in
  (statusCode (getRoomStatus roomId w) = 200 <-> In roomId (listed_rooms w))
  /\ (statusCode (getRoomStatus roomId w) = 404
      <-> ~ In roomId (listed_rooms w))
  /\ (forall st, json (getRoomStatus roomId w) = StatusBody st ->
                 Status.roomId st = roomId /\ Status.leagueId st = roomId
                 /\ In st (listed_statuses w))
  /\ map Status.roomId (listed_statuses w) = listed_rooms w
  /\ map Status.leagueId (listed_statuses w) = listed_rooms w.
Proof.
  intros w. destruct (reachable_consistent validUrl sendable config es)
    as [(H1 & H2 & _) _].
  fold w in H1, H2.
  assert (Hroom : forall k i, In (k, i) (rooms w) ->
            id (room_at w i) = k /\ leagueId (room_at w i) = k).
  { intros k i Hin. destruct (H1 k i Hin) as (r & Hr & Hid).
    unfold room_at. rewrite (nth_error_nth _ _ _ Hr).
    split; [exact Hid|]. rewrite (H2 i r Hr). exact Hid. }
  assert (Hkey : forall i, map_get String.eqb roomId (rooms w) = Some i ->
            In roomId (map fst (rooms w))).
  { intros i Hg. apply In_map_get in Hg.
    exact (in_map fst _ _ Hg). }
  assert (Hnone : map_get String.eqb roomId (rooms w) = None ->
            ~ In roomId (map fst (rooms w))).
  { intros Hg Hin. apply in_map_iff in Hin. destruct Hin as ([k i] & Hk & Hin).
    simpl in Hk. subst k.
    destruct (In_has_key String.eqb roomId i (rooms w) String.eqb_refl Hin)
      as (v & Hv).
    congruence. }
  unfold listed_rooms, listed_statuses, getRoomStatus; simpl.
  destruct (map_get String.eqb roomId (rooms w)) as [i|] eqn:Hg; simpl.
  - split; [split; [intros _; exact (Hkey i eq_refl)|reflexivity]|].
    split; [split; [discriminate|intros H; destruct (H (Hkey i eq_refl))]|].
    split.
    + intros st Hst. injection Hst as <-. simpl.
      destruct (Hroom roomId i (In_map_get _ _ _ Hg)) as [Ha Hb].
      split; [exact Ha|]. split; [exact Hb|].
      apply in_map_iff. exists (roomId, i). split; [reflexivity|].
      exact (In_map_get _ _ _ Hg).
    + split; rewrite map_map; apply map_ext_in; intros [k j] Hin; simpl;
        apply (Hroom k j Hin).
  - split; [split; [discriminate|intros H; destruct (Hnone eq_refl H)]|].
    split; [split; [intros _; exact (Hnone eq_refl)|reflexivity]|].
    split; [intros st Hst; discriminate Hst|].
    split; rewrite map_map; apply map_ext_in; intros [k j] Hin; simpl;
      apply (Hroom k j Hin).
Qed.

(** X23: in every state the server reaches, two Rooms share no
    socket.  A client of one Room is no client of the other, the upstream
    link of one is not the link of the other, and the link of one is no
    client of either. *)
Theorem rooms_share_no_socket (es : list Event) (i j : RoomRef)
  (r r' : Room) :
  let w := run validUrl sendable config empty_world es in
  nth_error (heap w) i = Some r -> nth_error (heap w) j = Some r' ->
  i <> j ->
  (forall ws info info',
     In (ws, info) (clients r) -> ~ In (ws, info') (clients r'))
  /\ (forall l, yahooWs r = Some l -> yahooWs r' <> Some l)
  /\ (forall l info,
        yahooWs r = Some l ->
        ~ In (l, info) (clients r) /\ ~ In (l, info) (clients r')).
Proof.
  intros w Hi Hj Hne.
  destruct (reachable_consistent validUrl sendable config es) as [Hs _].
  fold w in Hs. pose proof Hs as (_ & _ & _ & H4).
  split; [|split].
  - intros ws info info' Hin Hin'.
    pose proof (structure_ok_members w i r ws info Hs Hi Hin) as Ha.
    pose proof (structure_ok_members w j r' ws info' Hs Hj Hin') as Hb.
    congruence.
  - intros l Hl Hl'.
    pose proof (H4 i r l Hi Hl) as Ha. pose proof (H4 j r' l Hj Hl') as Hb.
    congruence.
  - intros l info Hl. pose proof (H4 i r l Hi Hl) as Ha. split; intros Hin.
    + pose proof (structure_ok_members w i r l info Hs Hi Hin) as Hb.
      congruence.
    + pose proof (structure_ok_members w j r' l info Hs Hj Hin) as Hb.
      congruence.
Qed.

(** X24: in every state the server reaches, an entry of the table of
    sessions ([clientConnections], which [GET /health] counts as
    [totalClients]) refers to a socket that is not closed and that carries
    the handlers of this session; no other entry refers to the same
    socket. *)
Theorem sessions_table_holds_no_closed_socket (es : list Event)
  (cid : string) (ws : WebSocket) (i : RoomRef) :
  let w := run validUrl sendable config empty_world es in
  In (cid, (ws, i)) (clientConnections w) ->
  readyStateOf (sys w) ws <> CLOSED
  /\ handlersOf (sys w) ws = ClientHandlers cid i
  /\ (forall cid' i', In (cid', (ws, i')) (clientConnections w) ->
                      cid' = cid /\ i' = i).
Proof.
  intros w Hin.
  destruct (reachable_consistent validUrl sendable config es) as [_ Hss].
  fold w in Hss. destruct (Hss cid ws i Hin) as [Hh Hr].
  split; [exact Hr|]. split; [exact Hh|].
  intros cid' i' Hin'. destruct (Hss cid' ws i' Hin') as [Hh' _].
  split; congruence.
Qed.

End Reached.

Lemma rooms_share_no_socket_witness :
  (nth_error
     (heap (run any_url any_data demo_config empty_world events_two_leagues)) 0%nat
   = Some (room_at world_two_leagues 0%nat)
   /\ nth_error
        (heap (run any_url any_data demo_config empty_world events_two_leagues)) 1%nat
      = Some (room_at world_two_leagues 1%nat)
   /\ 0%nat <> 1%nat)
  /\ (In (0%nat, {| clientId := "c1"; clientDraftPosition := 1 |})
        (clients (room_at world_two_leagues 0%nat))
      /\ yahooWs (room_at world_two_leagues 0%nat) = Some 1%nat)
  /\ ~ In (0%nat, {| clientId := "c1"; clientDraftPosition := 1 |})
         (clients (room_at world_two_leagues 1%nat))
  /\ yahooWs (room_at world_two_leagues 1%nat) <> Some 1%nat.
Proof.
  assert (H1 : nth_error
                 (heap (run any_url any_data demo_config empty_world
                          events_two_leagues)) 0%nat
               = Some (room_at world_two_leagues 0%nat))
    by (vm_compute; reflexivity).
  assert (H2 : nth_error
                 (heap (run any_url any_data demo_config empty_world
                          events_two_leagues)) 1%nat
               = Some (room_at world_two_leagues 1%nat))
    by (vm_compute; reflexivity).
  assert (H3 : 0%nat <> 1%nat) by discriminate.
  assert (H4 : In (0%nat, {| clientId := "c1"; clientDraftPosition := 1 |})
                 (clients (room_at world_two_leagues 0%nat)))
    by (vm_compute; left; reflexivity).
  assert (H5 : yahooWs (room_at world_two_leagues 0%nat) = Some 1%nat)
    by (vm_compute; reflexivity).
  split; [exact (conj H1 (conj H2 H3))|]. split; [exact (conj H4 H5)|].
  destruct (rooms_share_no_socket any_url any_data demo_config events_two_leagues
              0%nat 1%nat (room_at world_two_leagues 0%nat)
              (room_at world_two_leagues 1%nat) H1 H2 H3) as (Ha & Hb & _).
  split; [exact (Ha _ _ _ H4)|exact (Hb _ H5)].
Defined.

Lemma sessions_table_holds_no_closed_socket_witness :
  In ("c2", (2%nat, 1%nat))
     (clientConnections
        (run any_url any_data demo_config empty_world events_two_leagues))
  /\ readyStateOf
       (sys (run any_url any_data demo_config empty_world events_two_leagues)) 2%nat
     <> CLOSED
  /\ handlersOf
       (sys (run any_url any_data demo_config empty_world events_two_leagues)) 2%nat
     = ClientHandlers "c2" 1%nat.
Proof.
  assert (H : In ("c2", (2%nat, 1%nat))
                (clientConnections
                   (run any_url any_data demo_config empty_world events_two_leagues)))
    by (vm_compute; right; left; reflexivity).
  split; [exact H|].
  destruct (sessions_table_holds_no_closed_socket any_url any_data demo_config
              events_two_leagues "c2" 2%nat 1%nat H) as (Ha & Hb & _).
  split; [exact Ha|exact Hb].
Defined.
(** ** A forgotten interval is never cleared *)

Ltac split_handles e :=
  repeat match goal with
         | |- context [remove_timer ?t _] =>
             lazymatch goal with
             | H : handle e <> t |- _ => fail
             | _ => idtac
             end;
             let E := fresh "E" in
             destruct (Nat.eq_dec (handle e) t) as [E|E];
             [try (subst t); auto|]
         end.

Ltac timer_footprint_tac :=
  unfold_methods; unfold_room;
  unfold timer_footprint, sys_close, sys_log, sys_on, sys_new_socket; simpl;
  (split; [lia|]);
  (split;
   [ let e := fresh "e" in
     let Hin := fresh "Hin" in
     intros e Hin; split_handles e; left;
     repeat (rewrite in_app_iff || rewrite In_remove_timer); tauto
   |]);
  (split;
   [ let e := fresh "e" in
     let Hin := fresh "Hin" in
     intros e Hin; timers_in; auto; right; simpl; lia
   |]);
  (split;
   [ let t := fresh "t" in
     let Ht := fresh "Ht" in
     intros t Ht;
     first [ left; congruence
           | right; injection Ht as <-; lia
           | discriminate Ht ]
   | let t := fresh "t" in
     let Ht := fresh "Ht" in
     intros t Ht;
     first [ left; congruence
           | right; injection Ht as <-; lia
           | discriminate Ht ] ]).

Section TimerFootprints.
Variable r : Room.
Variable s : Sys.

Lemma onYahooOpen_timers (this : RoomRef) :
  timer_footprint r s (exec (onYahooOpen this) r s).
Proof. timer_footprint_tac. Qed.

Lemma onYahooMessage_timers (d : string) :
  timer_footprint r s (exec (onYahooMessage d) r s).
Proof. timer_footprint_tac. Qed.

Lemma onYahooClose_timers (c : Z) (x : string) :
  timer_footprint r s (exec (onYahooClose c x) r s).
Proof. timer_footprint_tac. Qed.

Lemma onYahooError_timers (m : string) :
  timer_footprint r s (exec (onYahooError m) r s).
Proof. timer_footprint_tac. Qed.

Lemma heartbeatTick_timers :
  timer_footprint r s (exec heartbeatTick r s).
Proof. timer_footprint_tac. Qed.

Lemma sendToYahoo_timers (sendable : option JsonValue -> bool)
  (m : option JsonValue) :
  timer_footprint r s (exec (sendToYahoo sendable m) r s).
Proof. timer_footprint_tac. Qed.

Lemma cleanup_timers :
  timer_footprint r s (exec cleanup r s).
Proof. timer_footprint_tac. Qed.

Lemma retire_timers :
  timer_footprint r s (exec (disconnectFromYahoo ;; cleanup) r s).
Proof. timer_footprint_tac. Qed.

Lemma removeClient_timers (this : RoomRef) (ws : WebSocket) :
  timer_footprint r s (exec (removeClient this ws) r s).
Proof. timer_footprint_tac. Qed.

Lemma reconnect_timers (validUrl : string -> bool) (this : RoomRef)
  (rd : option JsonValue) :
  timer_footprint r s
    (exec (handleClientReconnectRequest validUrl this rd) r s).
Proof. timer_footprint_tac. Qed.

Lemma addClient_timers (validUrl : string -> bool) (this : RoomRef)
  (ws : WebSocket) (cid : string) (pos : Number) :
  timer_footprint r s (exec (addClient validUrl this ws cid pos) r s).
Proof. timer_footprint_tac. Qed.

End TimerFootprints.
Lemma forgotten_frame (w w' : World) (t : Timeout) :
  forgotten w t -> heap w' = heap w ->
  timers (sys w') = timers (sys w) ->
  nextTimer (sys w') = nextTimer (sys w) ->
  forgotten w' t.
Proof.
  intros H Hh Ht Hn. unfold forgotten. rewrite Hh, Ht, Hn. exact H.
Qed.

Lemma forgotten_update (w : World) (this : RoomRef) (r : Room)
  (st : Room * Sys) (t : Timeout) :
  forgotten w t -> nth_error (heap w) this = Some r ->
  timer_footprint r (sys w) st ->
  forgotten
    (set_sys (snd st) (set_heap (list_update this (fun _ => fst st) (heap w)) w))
    t.
Proof.
  intros ((e & He & Het) & Hk & Hlt & Hf) Hr (Fa & Fb & Fc & Fd & Fe).
  destruct (Hf this r Hr) as [Hh Hc].
  unfold forgotten; simpl. repeat split.
  - exists e. split; [|exact Het].
    destruct (Fb e He) as [H|[H|H]]; [exact H| |]; congruence.
  - intros e' He' Het'. destruct (Fc e' He') as [H|H]; [auto|lia].
  - lia.
  - destruct (Nat.eq_dec this i) as [<-|Hne].
    + rewrite nth_error_list_update_same, Hr in H. simpl in H.
      injection H as <-. intros Ht. destruct (Fd t Ht) as [E|E]; [auto|lia].
    + rewrite nth_error_list_update_other in H by exact Hne.
      exact (proj1 (Hf i r0 H)).
  - destruct (Nat.eq_dec this i) as [<-|Hne].
    + rewrite nth_error_list_update_same, Hr in H. simpl in H.
      injection H as <-. intros Ht. destruct (Fe t Ht) as [E|E]; [auto|lia].
    + rewrite nth_error_list_update_other in H by exact Hne.
      exact (proj2 (Hf i r0 H)).
Qed.

Lemma forgotten_do_on {A : Type} (this : RoomRef) (m : M A) (w : World)
  (t : Timeout) :
  (forall r, nth_error (heap w) this = Some r ->
             timer_footprint r (sys w) (exec m r (sys w))) ->
  forgotten w t -> forgotten (do_on this m w) t.
Proof.
  intros Hf H. destruct (nth_error (heap w) this) as [r|] eqn:Hr.
  - rewrite (do_on_run this m w r Hr).
    apply (forgotten_update w this r _ t H Hr). apply Hf. reflexivity.
  - rewrite do_on_none by exact Hr. exact H.
Qed.

Lemma forgotten_remove_timer (w : World) (t t' : Timeout) :
  forgotten w t -> t' <> t ->
  forgotten
    (set_sys (set_timers (remove_timer t' (timers (sys w))) (sys w)) w) t.
Proof.
  intros ((e & He & Het) & Hk & Hlt & Hf) Hne.
  unfold forgotten; simpl. repeat split; auto.
  - exists e. split; [|exact Het]. apply In_remove_timer. split; congruence.
  - intros e' He' Het'. apply In_remove_timer in He'. apply Hk; tauto.
  - exact (proj1 (Hf i r H)).
  - exact (proj2 (Hf i r H)).
Qed.

Lemma forgotten_rearm (w : World) (t t' : Timeout) (ms : Z) :
  forgotten w t ->
  forgotten (set_sys (set_timers (rearm t' ms (timers (sys w))) (sys w)) w) t.
Proof.
  intros ((e & He & Het) & Hk & Hlt & Hf).
  unfold forgotten, rearm; simpl. repeat split; auto.
  - exists (if Nat.eqb (handle e) t'
            then {| handle := handle e; kind := kind e; owner := owner e;
                    due := due e + ms |}
            else e).
    split.
    + apply in_map_iff. exists e. split; [reflexivity|exact He].
    + destruct (Nat.eqb (handle e) t'); exact Het.
  - intros e' He' Het'. apply in_map_iff in He'.
    destruct He' as (e0 & <- & He0).
    destruct (Nat.eqb (handle e0) t'); simpl in *; apply Hk; auto.
  - exact (proj1 (Hf i r H)).
  - exact (proj2 (Hf i r H)).
Qed.

Section Forgotten.
Variable validUrl : string -> bool.
Variable sendable : option JsonValue -> bool.
Variable config : Config.

Lemma forgotten_create_room (lid : string) (dp : Number) (url puid : string)
  (w : World) (t : Timeout) :
  forgotten w t -> forgotten (snd (create_room config lid dp url puid w)) t.
Proof.
  intros (He & Hk & Hlt & Hf). unfold create_room, forgotten; simpl.
  repeat split; auto.
  - apply nth_error_snoc_inv in H.
    destruct H as [H|[_ ->]]; [exact (proj1 (Hf i r H))|discriminate].
  - apply nth_error_snoc_inv in H.
    destruct H as [H|[_ ->]]; [exact (proj2 (Hf i r H))|discriminate].
Qed.

Lemma forgotten_get_or_create (lid : string) (dp : Number) (url puid : string)
  (w : World) (t : Timeout) :
  forgotten w t -> forgotten (snd (get_or_create config lid dp url puid w)) t.
Proof.
  intros H. unfold get_or_create.
  destruct (map_get String.eqb lid (rooms w)) as [room|];
    [|apply forgotten_create_room; exact H].
  destruct (nth_error (heap w) room) as [r|]; [|exact H].
  destruct (negb (String.eqb (yahooWebSocketUrl r) url)); [|exact H].
  apply forgotten_create_room, forgotten_do_on; [|exact H].
  intros; apply cleanup_timers.
Qed.

Lemma forgotten_onConnection (q : Query) (uuid : string) (w : World)
  (t : Timeout) :
  forgotten w t -> forgotten (onConnection validUrl config q uuid w) t.
Proof.
  intros H. unfold onConnection. cbv zeta.
  set (w0 := set_sys (sys_new_socket OPEN (sys w)) w).
  assert (H0 : forgotten w0 t) by (apply (forgotten_frame w); auto).
  destruct (rejects q); [apply (forgotten_frame w); auto|].
  match goal with
  | |- context [get_or_create config ?a ?b ?c ?d w0] =>
      pose proof (forgotten_get_or_create a b c d w0 t H0) as H1;
      destruct (get_or_create config a b c d w0) as [room w1]
  end.
  simpl in H1.
  match goal with
  | |- context [do_on room ?m w1] =>
      assert (H2 : forgotten (do_on room m w1) t)
        by (apply forgotten_do_on; [intros; apply addClient_timers|exact H1]);
      apply (forgotten_frame (do_on room m w1)); auto
  end.
Qed.

Lemma forgotten_onClientMessage (ws : WebSocket) (room : RoomRef)
  (f : ClientFrame) (w : World) (t : Timeout) :
  forgotten w t -> forgotten (onClientMessage validUrl sendable ws room f w) t.
Proof.
  intros H.
  apply (onClientMessage_cases validUrl sendable (fun w' => forgotten w' t));
    [exact H| | |].
  - intros m w0 H0.
    apply forgotten_do_on; [intros; apply sendToYahoo_timers|exact H0].
  - intros rd w0 H0.
    apply forgotten_do_on; [intros; apply reconnect_timers|exact H0].
  - intros w0 H0. exact H0.
Qed.

Lemma forgotten_retire (this : RoomRef) (w : World) (t : Timeout) :
  forgotten w t -> forgotten (retire this w) t.
Proof.
  intros H. unfold retire. cbv zeta.
  assert (H1 : forgotten (do_on this (disconnectFromYahoo ;; cleanup) w) t)
    by (apply forgotten_do_on; [intros; apply retire_timers|exact H]).
  destruct (nth_error (heap (do_on this (disconnectFromYahoo ;; cleanup) w))
              this); exact H1.
Qed.

Lemma forgotten_deleteRoom (roomId : string) (w : World) (t : Timeout) :
  forgotten w t -> forgotten (deleteRoom roomId w) t.
Proof.
  intros H. unfold deleteRoom.
  destruct (map_get String.eqb roomId (rooms w)) as [room|]; [|exact H].
  destruct (nth_error (heap w) room) as [r|]; [|exact H]. cbv zeta.
  set (w0 := set_sys (close_clients (clients r) (sys w)) w).
  assert (H0 : forgotten w0 t).
  { apply (forgotten_frame w); auto.
    - apply close_clients_timing.
    - unfold w0; simpl. clear. generalize (sys w).
      induction (clients r) as [|[ws info] cs IH]; intros s; simpl; auto.
      rewrite IH. destruct (is_OPEN s ws); reflexivity. }
  assert (H1 : forgotten (do_on room cleanup w0) t)
    by (apply forgotten_do_on; [intros; apply cleanup_timers|exact H0]).
  exact H1.
Qed.

Lemma forgotten_step (w : World) (ev : Event) (t : Timeout) :
  forgotten w t -> forgotten (step validUrl sendable config w ev) t.
Proof.
  intros H. destruct ev; unfold step.
  - apply forgotten_onConnection, H.
  - destruct (handlersOf (sys w) ws); try exact H.
    destruct (readyStateOf (sys w) ws); try exact H.
    all: apply forgotten_onClientMessage, H.
  - destruct (handlersOf (sys w) ws); try exact H.
    destruct (readyStateOf (sys w) ws); try exact H.
    all: unfold onClientClose; cbv zeta;
      match goal with
      | |- context [do_on ?r ?m ?w0] =>
          apply (forgotten_frame (do_on r m w0)); auto;
          apply forgotten_do_on; [intros; apply removeClient_timers|];
          apply (forgotten_frame w); auto
      end.
  - destruct (handlersOf (sys w) ws); try exact H.
    destruct (readyStateOf (sys w) ws); try exact H.
    apply forgotten_do_on; [intros; apply onYahooOpen_timers|].
    apply (forgotten_frame w); auto.
  - destruct (handlersOf (sys w) ws); try exact H.
    destruct (readyStateOf (sys w) ws); try exact H.
    all: apply forgotten_do_on; [intros; apply onYahooMessage_timers|exact H].
  - destruct (handlersOf (sys w) ws); try exact H.
    destruct (readyStateOf (sys w) ws); try exact H.
    all: (apply forgotten_do_on; [intros; apply onYahooClose_timers|]);
      apply (forgotten_frame w); auto.
  - destruct (handlersOf (sys w) ws); try exact H.
    destruct (readyStateOf (sys w) ws); try exact H.
    all: (apply forgotten_do_on; [intros; apply onYahooError_timers|]);
      apply (forgotten_frame w); auto.
  - destruct (find_timer t0 (timers (sys w))) as [e|] eqn:Hfind; [|exact H].
    destruct (due e <=? now (sys w)); [|exact H].
    apply find_timer_In in Hfind. destruct Hfind as [Hin He].
    destruct (kind e) eqn:Hk.
    + apply forgotten_retire, forgotten_remove_timer; [exact H|].
      intros ->. destruct H as (_ & Hkind & _).
      rewrite (Hkind e Hin He) in Hk. discriminate Hk.
    + apply forgotten_do_on; [intros; apply heartbeatTick_timers|].
      apply forgotten_rearm. exact H.
  - apply (forgotten_frame w); auto.
  - apply forgotten_deleteRoom, H.
Qed.

End Forgotten.
Section ForgottenRuns.
Variable validUrl : string -> bool.
Variable sendable : option JsonValue -> bool.
Variable config : Config.

(** X25: the server clears no interval but the one a Room
    holds in [heartbeatInterval].  A heartbeat interval that is pending
    while no Room holds its handle ([startHeartbeat] overwrites the field
    without clearing the interval there was) is never cleared: whatever
    happens next, it is still pending and no Room holds it. *)
Theorem a_forgotten_interval_is_never_cleared
  (w : World) (t : Timeout) (es : list Event) :
  forgotten w t -> forgotten (run validUrl sendable config w es) t.
Proof.
  revert w. induction es as [|ev es IH]; intros w H; [exact H|].
  apply IH, forgotten_step, H.
Qed.

End ForgottenRuns.

Lemma a_forgotten_interval_is_never_cleared_witness :
  forgotten world_overlap 0%nat
  /\ forgotten (run any_url any_data demo_config world_overlap events_after_overlap)
       0%nat
  /\ rooms (run any_url any_data demo_config world_overlap events_after_overlap) = [].
Proof.
  assert (H : forgotten world_overlap 0%nat).
  { assert (Et : map (fun e => (handle e, kind e))
                   (timers (sys world_overlap))
                 = [(0%nat, HeartbeatTimer); (1%nat, HeartbeatTimer)])
      by (vm_compute; reflexivity).
    assert (En : nextTimer (sys world_overlap) = 2%nat)
      by (vm_compute; reflexivity).
    assert (Eh : map (fun r => (heartbeatInterval r, cleanupTimeout r))
                   (heap world_overlap)
                 = [(Some 1%nat, None)])
      by (vm_compute; reflexivity).
    repeat split.
    - destruct (timers (sys world_overlap)) as [|e l]; [discriminate Et|].
      exists e. split; [left; reflexivity|].
      simpl in Et. injection Et as E _. exact E.
    - intros e Hin He.
      apply (in_map (fun e => (handle e, kind e))) in Hin.
      rewrite Et, He in Hin.
      destruct Hin as [E|[E|[]]]; congruence.
    - rewrite En. lia.
    - intros E. apply nth_error_In in H.
      apply (in_map (fun r => (heartbeatInterval r, cleanupTimeout r))) in H.
      rewrite Eh, E in H. destruct H as [H|[]]. discriminate H.
    - intros E. apply nth_error_In in H.
      apply (in_map (fun r => (heartbeatInterval r, cleanupTimeout r))) in H.
      rewrite Eh, E in H. destruct H as [H|[]]. discriminate H. }
  split; [exact H|]. split.
  - exact (a_forgotten_interval_is_never_cleared any_url any_data demo_config
             world_overlap 0%nat events_after_overlap H).
  - vm_compute. reflexivity.
Defined.

(** * A Room keeps its identity

    No method writes the id, the league, the upstream URL or the platform
    user of a Room, and the position a Room holds is one a template
    literal can print. *)

Ltac identity_tac :=
  unfold_methods; unfold_room;
  unfold keeps_identity, same_identity, printed; simpl in *;
  repeat split; auto.

Section Identity.
Variable r : Room.
Variable s : Sys.

Lemma onYahooOpen_identity (this : RoomRef) :
  keeps_identity r (exec (onYahooOpen this) r s).
Proof. identity_tac. Qed.

Lemma onYahooMessage_identity (d : string) :
  keeps_identity r (exec (onYahooMessage d) r s).
Proof. identity_tac. Qed.

Lemma onYahooClose_identity (c : Z) (x : string) :
  keeps_identity r (exec (onYahooClose c x) r s).
Proof. identity_tac. Qed.

Lemma onYahooError_identity (m : string) :
  keeps_identity r (exec (onYahooError m) r s).
Proof. identity_tac. Qed.

Lemma heartbeatTick_identity :
  keeps_identity r (exec heartbeatTick r s).
Proof. identity_tac. Qed.

Lemma sendToYahoo_identity (sendable : option JsonValue -> bool)
  (m : option JsonValue) :
  keeps_identity r (exec (sendToYahoo sendable m) r s).
Proof. identity_tac. Qed.

Lemma cleanup_identity :
  keeps_identity r (exec cleanup r s).
Proof. identity_tac. Qed.

Lemma retire_identity :
  keeps_identity r (exec (disconnectFromYahoo ;; cleanup) r s).
Proof. identity_tac. Qed.

Lemma removeClient_identity (this : RoomRef) (ws : WebSocket) :
  keeps_identity r (exec (removeClient this ws) r s).
Proof. identity_tac. Qed.

Lemma reconnect_identity (validUrl : string -> bool) (this : RoomRef)
  (rd : option JsonValue) :
  keeps_identity r (exec (handleClientReconnectRequest validUrl this rd) r s).
Proof. identity_tac. Qed.

Lemma addClient_identity (validUrl : string -> bool) (this : RoomRef)
  (ws : WebSocket) (cid : string) (pos : Number) :
  keeps_identity r (exec (addClient validUrl this ws cid pos) r s).
Proof. identity_tac. Qed.

End Identity.

Lemma same_identity_trans (r r1 r2 : Room) :
  same_identity r r1 -> same_identity r1 r2 -> same_identity r r2.
Proof.
  intros (A1 & A2 & A3 & A4) (B1 & B2 & B3 & B4).
  repeat split; congruence.
Qed.

Lemma evolves_heap (w w1 w2 : World) :
  evolves w w1 -> heap w2 = heap w1 -> evolves w w2.
Proof.
  intros [H1 H2] E. split.
  - intros i r Hr. rewrite E. exact (H1 i r Hr).
  - intros Hp i r Hr. rewrite E in Hr. exact (H2 Hp i r Hr).
Qed.

Lemma evolves_refl (w : World) : evolves w w.
Proof.
  split; [|auto]. intros i r Hr. exists r. split; [exact Hr|].
  repeat split.
Qed.

Lemma evolves_trans (w w1 w2 : World) :
  evolves w w1 -> evolves w1 w2 -> evolves w w2.
Proof.
  intros [A1 A2] [B1 B2]. split; [|auto].
  intros i r Hr. destruct (A1 i r Hr) as (r1 & Hr1 & S1).
  destruct (B1 i r1 Hr1) as (r2 & Hr2 & S2).
  exists r2. split; [exact Hr2|]. exact (same_identity_trans _ _ _ S1 S2).
Qed.

Lemma evolves_do_on {A : Type} (this : RoomRef) (m : M A) (w : World) :
  (forall r s, keeps_identity r (exec m r s)) ->
  evolves w (do_on this m w).
Proof.
  intros Hm. destruct (nth_error (heap w) this) as [r0|] eqn:Hr0.
  - rewrite (do_on_run this m w r0 Hr0).
    destruct (Hm r0 (sys w)) as [Hs Hp]. split.
    + intros i r Hr. simpl. destruct (Nat.eq_dec this i) as [<-|Hne].
      * rewrite nth_error_list_update_same, Hr0. simpl.
        eexists. split; [reflexivity|]. congruence.
      * rewrite nth_error_list_update_other by exact Hne.
        exists r. split; [exact Hr|]. repeat split.
    + intros Hall i r Hr. simpl in Hr.
      destruct (Nat.eq_dec this i) as [<-|Hne].
      * rewrite nth_error_list_update_same, Hr0 in Hr. simpl in Hr.
        injection Hr as <-. apply Hp. exact (Hall this r0 Hr0).
      * rewrite nth_error_list_update_other in Hr by exact Hne.
        exact (Hall i r Hr).
  - rewrite do_on_none by exact Hr0. apply evolves_refl.
Qed.

Section IdentityRuns.
Variable validUrl : string -> bool.
Variable sendable : option JsonValue -> bool.
Variable config : Config.

Lemma evolves_create_room (lid : string) (pos : Number) (url user : string)
  (w : World) :
  evolves w (snd (create_room config lid pos url user w)).
Proof.
  unfold create_room; simpl. split.
  - intros i r Hr. simpl. exists r. split; [|repeat split].
    rewrite nth_error_app1; [exact Hr|]. apply nth_error_Some. congruence.
  - intros Hall i r Hr. simpl in Hr. apply nth_error_snoc_inv in Hr.
    destruct Hr as [Hr|[_ ->]]; [exact (Hall i r Hr)|reflexivity].
Qed.

Lemma evolves_get_or_create (lid : string) (pos : Number) (url user : string)
  (w : World) :
  evolves w (snd (get_or_create config lid pos url user w)).
Proof.
  unfold get_or_create.
  destruct (map_get String.eqb lid (rooms w)) as [room|];
    [|apply evolves_create_room].
  destruct (nth_error (heap w) room) as [r|]; [|apply evolves_refl].
  destruct (negb (yahooWebSocketUrl r =? url)%string); [|apply evolves_refl].
  eapply evolves_trans; [|apply evolves_create_room].
  apply evolves_do_on. intros. apply cleanup_identity.
Qed.

Lemma evolves_onConnection (q : Query) (uuid : string) (w : World) :
  evolves w (onConnection validUrl config q uuid w).
Proof.
  unfold onConnection. cbv zeta.
  destruct (rejects q);
    [apply (evolves_heap w w); [apply evolves_refl|reflexivity]|].
  set (w0 := set_sys (sys_new_socket OPEN (sys w)) w).
  match goal with
  | |- context [get_or_create config ?l ?p ?u ?x w0] =>
      pose proof (evolves_get_or_create l p u x w0) as H1;
      destruct (get_or_create config l p u x w0) as [room w1]
  end.
  simpl in H1.
  match goal with
  | |- context [do_on room ?m w1] =>
      pose proof (evolves_do_on room m w1
                    (fun r s => addClient_identity r s _ _ _ _ _)) as H2;
      apply (evolves_heap w (do_on room m w1)); [|reflexivity]
  end.
  apply (evolves_trans w w0); [apply (evolves_heap w w);
                               [apply evolves_refl|reflexivity]|].
  exact (evolves_trans _ _ _ H1 H2).
Qed.

Lemma evolves_retire (this : RoomRef) (w : World) :
  evolves w (retire this w).
Proof.
  unfold retire.
  pose proof (evolves_do_on this (disconnectFromYahoo ;; cleanup)%room w
                (fun r s => retire_identity r s)) as H.
  destruct (nth_error _ this); [|exact H].
  apply (evolves_heap w _ _ H). reflexivity.
Qed.

Lemma evolves_deleteRoom (roomId : string) (w : World) :
  evolves w (deleteRoom roomId w).
Proof.
  unfold deleteRoom.
  destruct (map_get String.eqb roomId (rooms w)) as [room|];
    [|apply evolves_refl].
  destruct (nth_error (heap w) room) as [r|]; [|apply evolves_refl].
  cbv zeta.
  match goal with
  | |- context [do_on room cleanup ?w0] =>
      apply (evolves_heap w (do_on room cleanup w0)); [|reflexivity];
      apply (evolves_trans w w0);
      [apply (evolves_heap w w); [apply evolves_refl|reflexivity]|];
      apply evolves_do_on; intros; apply cleanup_identity
  end.
Qed.

Lemma evolves_set_state {A : Type} (this : RoomRef) (m : M A)
  (ws : WebSocket) (v : ReadyState) (w : World) :
  (forall r s, keeps_identity r (exec m r s)) ->
  evolves w (do_on this m (set_state ws v w)).
Proof.
  intros H. apply (evolves_trans w (set_state ws v w)).
  - apply (evolves_heap w w); [apply evolves_refl|reflexivity].
  - apply evolves_do_on. exact H.
Qed.

Lemma step_evolves (w : World) (e : Event) :
  evolves w (step validUrl sendable config w e).
Proof.
  destruct e; unfold step.
  - apply evolves_onConnection.
  - destruct (handlersOf (sys w) ws); try apply evolves_refl.
    destruct (readyStateOf (sys w) ws); try apply evolves_refl.
    all: apply onClientMessage_cases; [apply evolves_refl| | |].
    all: try (intros m w0 H0; apply (evolves_trans _ _ _ H0);
              apply evolves_do_on; intros;
              first [apply sendToYahoo_identity|apply reconnect_identity]).
    all: intros w0 H0; apply (evolves_heap _ _ _ H0); reflexivity.
  - destruct (handlersOf (sys w) ws); try apply evolves_refl.
    destruct (readyStateOf (sys w) ws); try apply evolves_refl.
    all: unfold onClientClose; cbv zeta;
      match goal with
      | |- evolves _ (set_clientConnections _ ?w1) =>
          apply (evolves_heap w w1); [|reflexivity]
      end;
      apply evolves_set_state; intros; apply removeClient_identity.
  - destruct (handlersOf (sys w) ws); try apply evolves_refl.
    destruct (readyStateOf (sys w) ws); try apply evolves_refl.
    apply evolves_set_state; intros; apply onYahooOpen_identity.
  - destruct (handlersOf (sys w) ws); try apply evolves_refl.
    destruct (readyStateOf (sys w) ws); try apply evolves_refl.
    all: apply evolves_do_on; intros; apply onYahooMessage_identity.
  - destruct (handlersOf (sys w) ws); try apply evolves_refl.
    destruct (readyStateOf (sys w) ws); try apply evolves_refl.
    all: apply evolves_set_state; intros; apply onYahooClose_identity.
  - destruct (handlersOf (sys w) ws); try apply evolves_refl.
    destruct (readyStateOf (sys w) ws); try apply evolves_refl.
    all: apply evolves_set_state; intros; apply onYahooError_identity.
  - destruct (find_timer t (timers (sys w))) as [e|]; [|apply evolves_refl].
    destruct (due e <=? now (sys w)); [|apply evolves_refl].
    destruct (kind e).
    + match goal with
      | |- evolves _ (retire ?i ?w0) =>
          apply (evolves_trans w w0);
          [apply (evolves_heap w w); [apply evolves_refl|reflexivity]
          |apply evolves_retire]
      end.
    + match goal with
      | |- evolves _ (do_on ?i ?m ?w0) =>
          apply (evolves_trans w w0);
          [apply (evolves_heap w w); [apply evolves_refl|reflexivity]
          |apply evolves_do_on; intros; apply heartbeatTick_identity]
      end.
  - apply (evolves_heap w w); [apply evolves_refl|reflexivity].
  - apply evolves_deleteRoom.
Qed.

Lemma run_evolves (es : list Event) :
  forall w, evolves w (run validUrl sendable config w es).
Proof.
  induction es as [|e es IH]; intros w; [apply evolves_refl|].
  simpl. exact (evolves_trans _ _ _ (step_evolves w e) (IH _)).
Qed.

Lemma reachable_positions_printed (es : list Event) :
  positions_printed (run validUrl sendable config empty_world es).
Proof.
  apply (proj2 (run_evolves es empty_world)).
  intros [|i] r H; discriminate H.
Qed.

(** A client joins a Room whose upstream link is open, with no dial in
    flight and no retirement pending: the turn of the acceptor. *)
Lemma join_reinit
  (w : World) (q : Query) (uuid : string) (room : RoomRef) (r : Room)
  (l : WebSocket) :
  rejects q = false ->
  map_get String.eqb (or_string (query_leagueId q) "") (rooms w) = Some room ->
  nth_error (heap w) room = Some r ->
  yahooWebSocketUrl r = or_string (query_websocketUrl q) "" ->
  cleanupTimeout r = None ->
  yahooWs r = Some l ->
  readyStateOf (sys w) l = OPEN ->
  isConnectingToYahoo r = false ->
  validUrl (yahooWebSocketUrl r) = true ->
  let clientWs := List.length (sockets (sys w)) in
  let w1 := step validUrl sendable config w (Connection q uuid) in
  (exists joined,
      new_calls (sys w) (sys w1)
      = [WsClose l 1000 "New client joined - forcing reconnection";
         NewWebSocket (S clientWs) (yahooWebSocketUrl r);
         WsSend clientWs (Json joined)]
      /\ ProxyMessage.type joined = room_joined)
  /\ exists r1,
       nth_error (heap w1) room = Some r1
       /\ yahooWs r1 = Some (S clientWs)
       /\ leagueId r1 = leagueId r
       /\ draftPosition r1 = draftPosition r
       /\ platformUserId r1 = platformUserId r
       /\ handlersOf (sys w1) (S clientWs) = YahooHandlers room
       /\ readyStateOf (sys w1) (S clientWs) = CONNECTING.
Proof.
  intros Hacc Hreg Hr Hurl Ht Hl Ho Hc Hv. cbv zeta.
  assert (Hlt : (l < List.length (sockets (sys w)))%nat).
  { eapply readyStateOf_known; eauto. discriminate. }
  set (pos := parseInt (or_string (query_draftPosition q) "0")).
  set (s0 := sys_new_socket OPEN (sys w)).
  assert (Hopen0 : is_OPEN s0 l = true).
  { unfold is_OPEN, readyStateOf, s0; simpl.
    rewrite nth_error_app1 by exact Hlt.
    unfold readyStateOf in Ho. rewrite Ho. reflexivity. }
  assert (Hlen0 : List.length (sockets s0) = S (List.length (sockets (sys w)))).
  { unfold s0; simpl. rewrite length_app. simpl. lia. }
  destruct (addClient_reinit validUrl room (List.length (sockets (sys w)))
              uuid pos r s0 l Hl Hopen0 Ht Hc Hv)
    as (Hcalls & Hws & Hlid & Hpos & Huser & Hsock).
  rewrite Hlen0 in Hcalls, Hws, Hsock.
  assert (Hlog0 : log s0 = log (sys w)) by reflexivity.
  remember (exec (addClient validUrl room (List.length (sockets (sys w)))
                    uuid pos) r s0) as st eqn:Est.
  assert (Hw1 :
            step validUrl sendable config w (Connection q uuid)
            = set_sys
                (sys_on (List.length (sockets (sys w)))
                   (ClientHandlers uuid room) (snd st))
                (set_clientConnections
                   (map_set String.eqb uuid
                      (List.length (sockets (sys w)), room)
                      (clientConnections w))
                   (set_heap (list_update room (fun _ => fst st) (heap w))
                             w))).
  { simpl. unfold onConnection. rewrite Hacc.
    unfold get_or_create. simpl. rewrite Hreg, Hr.
    rewrite Hurl, String.eqb_refl. simpl.
    unfold do_on, call_on. simpl. rewrite Hr. fold pos. fold s0.
    rewrite Est. unfold exec.
    destruct (addClient validUrl room (List.length (sockets (sys w))) uuid
                pos (r, s0)) as [u st'].
    reflexivity. }
  rewrite Hw1. clear Hw1 Est.
  set (w1 := set_sys _ _).
  assert (Hh : handlersOf (sys w1) (S (List.length (sockets (sys w))))
               = YahooHandlers room).
  { unfold handlersOf, w1, sys_on, set_sys, set_sockets; cbn [sys sockets].
    rewrite nth_error_list_update_other by lia.
    rewrite Hsock. reflexivity. }
  assert (Hst : readyStateOf (sys w1) (S (List.length (sockets (sys w))))
                = CONNECTING).
  { unfold readyStateOf, w1, sys_on, set_sys, set_sockets; cbn [sys sockets].
    rewrite nth_error_list_update_other by lia.
    rewrite Hsock. reflexivity. }
  assert (Hr1 : nth_error (heap w1) room = Some (fst st)).
  { unfold w1; simpl. rewrite nth_error_list_update_same, Hr. reflexivity. }
  assert (Hlog1 : log (sys w1) = log (snd st)) by reflexivity.
  split.
  - eexists. split.
    + unfold new_calls, new_entries in *. rewrite Hlog1, <- Hlog0.
      exact Hcalls.
    + reflexivity.
  - exists (fst st). repeat split; assumption.
Qed.


End IdentityRuns.


